(** * DeepTalk front end: task/calendar adapter and auth-state resolver

    A shallow embedding of the field-mapping adapter
    ([components/APIs/d.ts], [APIs/TaskAPI.js], [CalendarContainer.tsx]) and of
    the two [GoogleAuth] components, followed by the properties of the
    specification's section 8 stated over that embedding.

    Conventions of the embedding:
    - a JavaScript object used as a lookup table, a JSON body and
      [localStorage] are finite maps ([gmap]); a lookup [table[k]] in an
      object literal is the lookup among its own properties, which is
      what JavaScript does for every key that is not a property name of
      [Object.prototype] ([JS.object_prototype_keys]), and a property
      that depends on a lookup outside a table states this condition;
    - a string is the sequence of its UTF-16 code units, and the strings
      of the embedding have all their code units below 256;
    - an optional or nullable field is an [option]; [undefined] and [null]
      are both [None];
    - a JavaScript number that the code uses as an integer (priorities,
      minutes, epoch milliseconds) is a [Z]; [NaN] is [None] where a
      computation can produce it;
    - a [Date] is its time value, or [InvalidDate];
    - browser and library functions that the repository only calls
      (date parsing and formatting, [encodeURIComponent]) are the fields
      of the class [Platform]. *)

From Stdlib Require Import ZArith Lia Ascii String DecimalString.
From Stdlib Require DecimalPos.
From stdpp Require Import gmap strings list fin_maps.

Local Open Scope Z_scope.
Local Open Scope string_scope.

(** ** JavaScript primitives used by the sources *)
Module JS.

  (** Truthiness of a possibly-missing string: [undefined], [null] and the
      empty string are falsy. *)
Definition truthy (o : option string) : bool :=
  match o with
  | Some s => negb (String.eqb s "")
  | None => false
  end.

  (** The value of a possibly-missing string when it is truthy, as in
      [if (x) { ... x ... }]. *)
Definition present (o : option string) : option string :=
  match o with
  | Some s => if String.eqb s "" then None else Some s
  | None => None
  end.

  (** [a || b] on possibly-missing strings. *)
Definition or (a b : option string) : option string :=
  if truthy a then a else b.

  (** [a || 'literal'] where the right operand is always a string. *)
Definition or_str (a : option string) (b : string) : string :=
  match a with
  | Some s => if String.eqb s "" then b else s
  | None => b
  end.

  (** Truthiness of a possibly-missing number: [undefined] and [0] are falsy. *)
Definition truthy_num (o : option Z) : bool :=
  match o with
  | Some n => negb (Z.eqb n 0)
  | None => false
  end.

  (** [String.prototype.split] with a one-character separator. *)
Fixpoint split_go (sep : ascii) (s : string) (cur : string) : list string :=
  match s with
  | EmptyString => [cur]
  | String c rest =>
      if Ascii.eqb c sep then cur :: split_go sep rest ""
      else split_go sep rest (cur ++ String c "")
  end.

Definition split (sep : ascii) (s : string) : list string := split_go sep s "".

  (** The white space and line terminators that [parseInt] skips and
      [trim] removes, among the code units below 256: tab, line feed,
      vertical tab, form feed, carriage return (9 to 13), space (32) and
      no-break space (160). *)
Definition is_space (c : ascii) : bool :=
  let n := nat_of_ascii c in
  orb (Nat.eqb n 32)
      (orb (andb (Nat.leb 9 n) (Nat.leb n 13)) (Nat.eqb n 160)).

Fixpoint skip_spaces (s : string) : string :=
  match s with
  | String c rest => if is_space c then skip_spaces rest else s
  | EmptyString => s
  end.

Definition digit_value (radix : Z) (c : ascii) : option Z :=
  let n := Z.of_nat (nat_of_ascii c) in
  let v :=
    if ((48 <=? n) && (n <=? 57))%Z then Some (n - 48)
    else if ((97 <=? n) && (n <=? 122))%Z then Some (n - 87)
    else if ((65 <=? n) && (n <=? 90))%Z then Some (n - 55)
    else None in
  match v with
  | Some d => if (d <? radix)%Z then Some d else None
  | None => None
  end.

  (** The longest prefix of digits, accumulated left to right; [None] when
      there is no digit at all. *)
Fixpoint digits_go (radix : Z) (s : string) (acc : option Z) : option Z :=
  match s with
  | EmptyString => acc
  | String c rest =>
      match digit_value radix c with
      | Some d => digits_go radix rest (Some (default 0 acc * radix + d))
      | None => acc
      end
  end.

Definition strip_sign (s : string) : Z * string :=
  match s with
  | String "-" rest => (-1, rest)
  | String "+" rest => (1, rest)
  | _ => (1, s)
  end.

Definition strip_hex_prefix (s : string) : Z * string :=
  match s with
  | String "0" (String "x" rest) => (16, rest)
  | String "0" (String "X" rest) => (16, rest)
  | _ => (10, s)
  end.

  (** [parseInt(s)] without a radix argument; [None] is [NaN]. *)
Definition parseInt (s : string) : option Z :=
  let '(sign, s1) := strip_sign (skip_spaces s) in
  let '(radix, s2) := strip_hex_prefix s1 in
  match digits_go radix s2 None with
  | Some n => Some (sign * n)
  | None => None
  end.

  (** [parseInt(x)] of a value that may be [undefined]: the argument is first
      converted to the string ["undefined"], which has no digit. *)
Definition parseInt_opt (o : option string) : option Z :=
  match o with
  | Some s => parseInt s
  | None => None
  end.

  (** [n.toString()] of an integer. *)
Definition toString (n : Z) : string := NilZero.string_of_int (Z.to_int n).

  (** The property names that every object literal inherits from
      [Object.prototype]: [table[k]] finds the inherited value, which is
      truthy, when [k] is one of them and not a key of the table. *)
Definition object_prototype_keys : list string :=
  ["constructor"; "hasOwnProperty"; "isPrototypeOf"; "propertyIsEnumerable";
   "toLocaleString"; "toString"; "valueOf"; "__proto__";
   "__defineGetter__"; "__defineSetter__"; "__lookupGetter__";
   "__lookupSetter__"].

End JS.

(** ** Dates and the functions of the platform *)

Inductive Date : Type :=
  | ValidDate (ms : Z)
  | InvalidDate.

Class Platform : Type := {
  (** [new Date(s)] of a string. *)
  Date_parse : string -> Date;
  (** The message of the [ReferenceError] thrown when an identifier that
      is not bound is evaluated. *)
  ReferenceError_message : string -> string;
  (** [d.toISOString()] of a valid date. *)
  toISOString : Z -> string;
  (** [d.setHours(h, m)] of a valid date, in the local time zone. *)
  setHours : Z -> Z -> Z -> Date;
  (** [new Date(s).toLocaleTimeString('en-US', ...)]. *)
  toLocaleTimeString : Date -> string;
  (** [encodeURIComponent(s)]. *)
  encodeURIComponent : string -> string
}.

(** A date that may be invalid: [d.toISOString()] throws a [RangeError] on
    an invalid date, which is [None] here. *)
Definition Date_toISOString `{Platform} (d : Date) : option string :=
  match d with
  | ValidDate ms => Some (toISOString ms)
  | InvalidDate => None
  end.

(** [d.setHours(h, m)] where either argument may be [NaN]. *)
Definition Date_setHours `{Platform} (d : Date) (h m : option Z) : Date :=
  match d, h, m with
  | ValidDate ms, Some hh, Some mm => setHours ms hh mm
  | _, _, _ => InvalidDate
  end.

(** ** The adapter of [components/APIs/d.ts] *)

Module Category.
Record t : Type := mk {
  id : string;
  name : string;
  color_hex : string
}.
End Category.

Module BackendTask.
Record t : Type := mk {
  id : string;
  name : string;
  description : string;
  category : option Category.t;
  tags : list string;
  deadline : option string;
  duration_minutes : option Z;
  specific_time : option string;
  priority : Z;
  urgency : Z;
  status : string;
  completion_percentage : Z;
  location : string;
  required_tools : list string;
  created_at : string;
  updated_at : string;
  completed_at : option string
}.

  (** The values of the type of [status] (d.ts, line 26). *)
Definition statuses : list string :=
  ["pending"; "in_progress"; "completed"; "cancelled"; "on_hold"].
End BackendTask.

Module CalendarEvent.
Record t : Type := mk {
  id : string;
  title : string;
  description : option string;
  date : Date;
  time : option string;
  deadline : option Date;
  duration : option Z;
  priority : option string;
  status : option string;
  category : option string;
  tags : option (list string);
  location : option string;
  color : option string;
  type : option string;
  completed : option bool;
  progress : option Z
}.
End CalendarEvent.

(** [Partial<CalendarEvent>]: every field may be missing. *)
Module PartialCalendarEvent.
Record t : Type := mk {
  id : option string;
  title : option string;
  description : option string;
  date : option Date;
  time : option string;
  deadline : option Date;
  duration : option Z;
  priority : option string;
  status : option string;
  category : option string;
  tags : option (list string);
  location : option string;
  color : option string;
  type : option string;
  completed : option bool;
  progress : option Z
}.

  (** A [CalendarEvent] passed where a [Partial<CalendarEvent>] is expected. *)
Definition of_event (e : CalendarEvent.t) : t :=
  {| id := Some (CalendarEvent.id e);
     title := Some (CalendarEvent.title e);
     description := CalendarEvent.description e;
     date := Some (CalendarEvent.date e);
     time := CalendarEvent.time e;
     deadline := CalendarEvent.deadline e;
     duration := CalendarEvent.duration e;
     priority := CalendarEvent.priority e;
     status := CalendarEvent.status e;
     category := CalendarEvent.category e;
     tags := CalendarEvent.tags e;
     location := CalendarEvent.location e;
     color := CalendarEvent.color e;
     type := CalendarEvent.type e;
     completed := CalendarEvent.completed e;
     progress := CalendarEvent.progress e |}.
End PartialCalendarEvent.

Module CreateTaskRequest.
Record t : Type := mk {
  name : string;
  description : option string;
  category : option string;
  tags : option (list string);
  deadline : option string;
  duration_minutes : option Z;
  specific_time : option string;
  priority : option Z;
  urgency : option Z;
  location : option string;
  required_tools : option (list string)
}.

Definition key_if {A} (k : string) (o : option A) : list string :=
  match o with
  | Some _ => [k]
  | None => []
  end.

  (** The keys that [JSON.stringify(task)] writes into the request body of
      [createTask] and [updateTask]: the properties whose value is defined. *)
Definition json_keys (r : t) : list string :=
  ["name"]
  ++ key_if "description" (description r)
  ++ key_if "category" (category r)
  ++ key_if "tags" (tags r)
  ++ key_if "deadline" (deadline r)
  ++ key_if "duration_minutes" (duration_minutes r)
  ++ key_if "specific_time" (specific_time r)
  ++ key_if "priority" (priority r)
  ++ key_if "urgency" (urgency r)
  ++ key_if "location" (location r)
  ++ key_if "required_tools" (required_tools r).
End CreateTaskRequest.

Module CalendarApi.
Section WithPlatform.
Context `{Platform}.

  (** d.ts, lines 227-233. *)
Definition priorityMap : gmap Z string :=
  {[ 1 := "urgent"; 2 := "high"; 3 := "medium"; 4 := "medium"; 5 := "low" ]}.

  (** d.ts, lines 236-242. The status of a task is looked up here for
      keys that are not property names of [Object.prototype]. *)
Definition statusMap : gmap string string :=
  {[ "pending" := "not_started";
     "in_progress" := "in_progress";
     "completed" := "completed";
     "cancelled" := "cancelled";
     "on_hold" := "on_hold" ]}.

  (** The date shown on the calendar (d.ts, lines 217-224). *)
Definition displayDate (task : BackendTask.t) : Date :=
  match JS.present (BackendTask.specific_time task) with
  | Some s => Date_parse s
  | None =>
      match JS.present (BackendTask.deadline task) with
      | Some s => Date_parse s
      | None => Date_parse (BackendTask.created_at task)
      end
  end.

  (** [format(new Date(task.specific_time), 'HH:mm')] (d.ts, line 249).
      d.ts neither imports nor declares [format] (its only import is
      react), so that evaluating the call throws a [ReferenceError], which
      is [None]: the function returns no event for a task that has a
      specific time. *)
Definition format_time (d : Date) : option string := None.

  (** d.ts, lines 215-264. [None] is an exception thrown out of the
      function. *)
Definition transformBackendTaskToCalendarEvent (task : BackendTask.t)
  : option CalendarEvent.t :=
  time_field ←
    match JS.present (BackendTask.specific_time task) with
    | Some s => Some <$> format_time (Date_parse s)
    | None => Some None
    end;
  Some {|
    CalendarEvent.id := BackendTask.id task;
    CalendarEvent.title := BackendTask.name task;
    CalendarEvent.description := Some (BackendTask.description task);
    CalendarEvent.date := displayDate task;
    CalendarEvent.time := time_field;
    CalendarEvent.deadline :=
      Date_parse <$> JS.present (BackendTask.deadline task);
    CalendarEvent.duration := BackendTask.duration_minutes task;
    CalendarEvent.priority :=
      Some (JS.or_str (priorityMap !! BackendTask.priority task) "medium");
    CalendarEvent.status :=
      Some (JS.or_str (statusMap !! BackendTask.status task) "not_started");
    CalendarEvent.category := Category.name <$> BackendTask.category task;
    CalendarEvent.tags := Some (BackendTask.tags task);
    CalendarEvent.location := Some (BackendTask.location task);
    CalendarEvent.color :=
      Some (JS.or_str (Category.color_hex <$> BackendTask.category task)
                      "#3b82f6");
    CalendarEvent.type := Some "task";
    CalendarEvent.completed :=
      Some (String.eqb (BackendTask.status task) "completed");
    CalendarEvent.progress := Some (BackendTask.completion_percentage task)
  |}.

  (** d.ts, lines 268-273. *)
Definition priorityMap_back : gmap string Z :=
  {[ "urgent" := 1; "high" := 2; "medium" := 3; "low" := 5 ]}.

  (** d.ts, lines 276-282. The function below never reads this table. *)
Definition statusMap_back : gmap string string :=
  {[ "not_started" := "pending";
     "in_progress" := "in_progress";
     "completed" := "completed";
     "cancelled" := "cancelled";
     "on_hold" := "on_hold" ]}.

  (** [event.priority ? priorityMap[event.priority] : 3] (d.ts, lines 289
      and 290). *)
Definition backendPriority (p : option string) : option Z :=
  match JS.present p with
  | Some k => priorityMap_back !! k
  | None => Some 3
  end.

  (** The [specific_time] of d.ts, lines 295-301. *)
Definition specificDateTime (date : Date) (time : string) : Date :=
  let parts := JS.split ":" time in
  let hours := parts !! 0%nat in
  let minutes := parts !! 1%nat in
  Date_setHours date (JS.parseInt_opt hours) (JS.parseInt_opt minutes).

  (** d.ts, lines 266-316. [None] is an exception thrown out of the
      function. *)
Definition transformCalendarEventToBackendTask (event : PartialCalendarEvent.t)
  : option CreateTaskRequest.t :=
  let task := {|
    CreateTaskRequest.name := JS.or_str (PartialCalendarEvent.title event) "";
    CreateTaskRequest.description :=
      Some (JS.or_str (PartialCalendarEvent.description event) "");
    CreateTaskRequest.category := None;
    CreateTaskRequest.tags :=
      Some (default [] (PartialCalendarEvent.tags event));
    CreateTaskRequest.deadline := None;
    CreateTaskRequest.duration_minutes := None;
    CreateTaskRequest.specific_time := None;
    CreateTaskRequest.priority :=
      backendPriority (PartialCalendarEvent.priority event);
    CreateTaskRequest.urgency :=
      backendPriority (PartialCalendarEvent.priority event);
    CreateTaskRequest.location :=
      Some (JS.or_str (PartialCalendarEvent.location event) "");
    CreateTaskRequest.required_tools := None
  |} in
  timing ←
    match PartialCalendarEvent.date event with
    | Some date =>
        specific ←
          match JS.present (PartialCalendarEvent.time event) with
          | Some time => Some <$> Date_toISOString (specificDateTime date time)
          | None => Some None
          end;
        deadline ←
          match PartialCalendarEvent.deadline event with
          | Some d => Date_toISOString d
          | None => Date_toISOString date
          end;
        Some (specific, Some deadline)
    | None => Some (None, None)
    end;
  Some {|
    CreateTaskRequest.name := CreateTaskRequest.name task;
    CreateTaskRequest.description := CreateTaskRequest.description task;
    CreateTaskRequest.category := CreateTaskRequest.category task;
    CreateTaskRequest.tags := CreateTaskRequest.tags task;
    CreateTaskRequest.deadline := timing.2;
    CreateTaskRequest.duration_minutes :=
      if JS.truthy_num (PartialCalendarEvent.duration event)
      then PartialCalendarEvent.duration event else None;
    CreateTaskRequest.specific_time := timing.1;
    CreateTaskRequest.priority := CreateTaskRequest.priority task;
    CreateTaskRequest.urgency := CreateTaskRequest.urgency task;
    CreateTaskRequest.location := CreateTaskRequest.location task;
    CreateTaskRequest.required_tools := CreateTaskRequest.required_tools task
  |}.

End WithPlatform.
End CalendarApi.

(** ** The browser as seen by the authentication code *)

Module User.
Record t : Type := mk {
  id : option string;
  email : string;
  name : string;
  firstName : string;
  lastName : string;
  avatar : string;
  loginMethod : option string;
  sessionActive : option bool;
  tokenValid : option bool
}.
End User.

(** A [fetch] call: the URL, the bearer token of the [Authorization] header
    and the [token] property of the JSON body, when there is one. *)
Record Request : Type := mkRequest {
  url : string;
  bearer : option string;
  body_token : option string
}.

(** What awaiting a [fetch] gives: a rejected promise, or a response with
    its [ok] flag and its JSON body ([None] when [response.json()] rejects).
    A JSON body is read as a map from property names to strings. *)
Inductive FetchResult : Type :=
  | NetworkError
  | Response (ok : bool) (json : option (gmap string string)).

(** The observable actions of a run, in program order: storage writes,
    URL rewriting, network requests, React state setters and the callbacks
    of the parent component. *)
Inductive Effect : Type :=
  | SetItem (key value : string)
  | RemoveItem (key : string)
  | ReplaceState
  | Fetch (r : Request)
  | SetUser (u : option User.t)
  | SetLoading (b : bool)
  | SetError (e : option string)
  | SetAuthMethod (m : option string)
  | SetToken (t : option string)
  | SetShowDashboard (b : bool)
  | OnAuthSuccess (u : User.t)
  | OnSignOut.

Record World : Type := mkWorld {
  localStorage : gmap string string;
  (** [new URLSearchParams(window.location.search).get('token')]. *)
  search_token : option string;
  (** [Date.now()], in milliseconds; one run reads the clock at most once
      on each of its paths. *)
  now : Z;
  log : list Effect
}.

(** The server: the answer to each request. *)
Definition Network : Type := Request -> FetchResult.

(** Computations that read and change the world. *)
Definition Run (A : Type) : Type := World -> A * World.

#[global] Instance Run_ret : MRet Run := fun A a w => (a, w).
#[global] Instance Run_bind : MBind Run :=
  fun A B f m w => let '(a, w1) := m w in f a w1.

Definition ret {A : Type} (a : A) : Run A := fun w => (a, w).

Module Browser.

Definition emit (e : Effect) : Run unit := fun w =>
  (tt, {| localStorage := localStorage w; search_token := search_token w;
          now := now w; log := log w ++ [e] |}).

Definition getItem (k : string) : Run (option string) := fun w =>
  (localStorage w !! k, w).

Definition setItem (k v : string) : Run unit := fun w =>
  (tt, {| localStorage := <[k := v]> (localStorage w);
          search_token := search_token w;
          now := now w; log := log w ++ [SetItem k v] |}).

Definition removeItem (k : string) : Run unit := fun w =>
  (tt, {| localStorage := delete k (localStorage w);
          search_token := search_token w;
          now := now w; log := log w ++ [RemoveItem k] |}).

Definition Date_now : Run Z := fun w => (now w, w).

Definition urlParams_get_token : Run (option string) := fun w =>
  (search_token w, w).

  (** [window.history.replaceState({}, document.title,
      window.location.pathname)]: the query string is dropped. *)
Definition replaceState : Run unit := fun w =>
  (tt, {| localStorage := localStorage w; search_token := None;
          now := now w; log := log w ++ [ReplaceState] |}).

Definition fetch (net : Network) (r : Request) : Run FetchResult := fun w =>
  (net r, {| localStorage := localStorage w; search_token := search_token w;
             now := now w; log := log w ++ [Fetch r] |}).

  (** The storage keys of the token and of its timestamp, current and
      legacy. *)
Definition token_keys : list string :=
  ["deeptalk_token"; "deeptalk_token_timestamp"; "gmail_token";
   "gmail_token_timestamp"].

  (** A verification request succeeds when the response is [ok] and its
      body carries the [email] the user record is built from. *)
Definition accepts (net : Network) (r : Request) : bool :=
  match net r with
  | Response true (Some data) => bool_decide (is_Some (data !! "email"))
  | _ => false
  end.

  (** The requests of a log, in order. *)
Definition fetches (l : list Effect) : list Request :=
  omap (fun e => match e with Fetch r => Some r | _ => None end) l.

  (** The prefix of [s] before the first ['@']: [s.split('@')[0]]. *)
Definition before_at (s : string) : string :=
  default "" (JS.split "@" s !! 0%nat).

End Browser.

(** [a >= b] and [a < b] on numbers that may be [NaN]: every comparison
    with [NaN] is false. *)
Definition num_ge (a : option Z) (b : Z) : bool :=
  match a with
  | Some x => (b <=? x)%Z
  | None => false
  end.

Definition num_lt (a : option Z) (b : Z) : bool :=
  match a with
  | Some x => (x <? b)%Z
  | None => false
  end.

(** [Date.now() - parseInt(timestamp)]. *)
Definition age_of (now : Z) (timestamp : string) : option Z :=
  (fun t => now - t) <$> JS.parseInt timestamp.

(** ** [APIs/TaskAPI.js] *)

Module Task.
Record t : Type := mk {
  id : string;
  name : string;
  description : option string;
  category : option Category.t;
  tags : option (list string);
  deadline : option string;
  duration_minutes : option Z;
  specific_time : option string;
  priority : option Z;
  status : option string;
  completion_percentage : option Z;
  location : option string;
  created_at : option string
}.
End Task.

Module TaskAPI.
Section WithPlatform.
Context `{Platform}.

Definition API_BASE_URL : string := "http://localhost:8000".

  (** [getAuthHeaders], as far as the [Authorization] header goes. *)
Definition getAuthHeaders : Run (option string) :=
  token ← Browser.getItem "deeptalk_token";
  ret (JS.present token).

  (** [authAPI.signOut] (TaskAPI.js, lines 366-380). The [catch] swallows a
      rejected [fetch]; the [finally] block runs in every case. *)
Definition signOut (net : Network) : Run unit :=
  headers ← getAuthHeaders;
  Browser.fetch net
    {| url := API_BASE_URL ++ "/auth/logout/"; bearer := headers;
       body_token := None |};;
  Browser.removeItem "deeptalk_token";;
  Browser.removeItem "deeptalk_token_timestamp".

  (** [taskUtils.getPriorityColor]. *)
Definition priorityColors : gmap Z string :=
  {[ 1 := "#ef4444"; 2 := "#f97316"; 3 := "#eab308"; 4 := "#3b82f6";
     5 := "#6b7280" ]}.

Definition getPriorityColor (priority : option Z) : string :=
  JS.or_str (priority ≫= (priorityColors !!.)) "#eab308".

  (** [taskUtils.formatTime]. *)
Definition formatTime (dateString : string) : string :=
  toLocaleTimeString (Date_parse dateString).

  (** [taskUtils.taskToCalendarEvent] (TaskAPI.js, lines 386-392);
      [now] is the value of [Date.now()]. *)
Definition taskToCalendarEvent (now : Z) (task : Task.t) : CalendarEvent.t :=
  {| CalendarEvent.id := JS.or_str (Some (Task.id task)) "";
     CalendarEvent.title := Task.name task;
     CalendarEvent.description := None;
     CalendarEvent.date :=
       match JS.present (Task.deadline task) with
       | Some d => Date_parse d
       | None =>
           match JS.present (Task.created_at task) with
           | Some c => Date_parse c
           | None => ValidDate now
           end
       end;
     CalendarEvent.time :=
       formatTime <$> JS.present (Task.deadline task);
     CalendarEvent.deadline := None;
     CalendarEvent.duration := None;
     CalendarEvent.priority := None;
     CalendarEvent.status := None;
     CalendarEvent.category := None;
     CalendarEvent.tags := None;
     CalendarEvent.location := None;
     CalendarEvent.color := Some (getPriorityColor (Task.priority task));
     CalendarEvent.type := None;
     CalendarEvent.completed := None;
     CalendarEvent.progress := None |}.

End WithPlatform.
End TaskAPI.

(** ** [ComprehensiveCalendarContainer] *)

Module CalendarContainer.
Section WithPlatform.
Context `{Platform}.

  (** The tables of [ComprehensiveTaskDialog], which loads an event into the
      form whose [priority], [urgency] and [status] are then sent to the
      backend as they are. *)
Definition dialog_priorityMap : gmap string Z :=
  {[ "urgent" := 1; "high" := 2; "medium" := 3; "low" := 5 ]}.

Definition dialog_statusMap : gmap string string :=
  {[ "not_started" := "pending";
     "in_progress" := "in_progress";
     "completed" := "completed";
     "cancelled" := "cancelled";
     "on_hold" := "on_hold" ]}.

  (** [priorityMap[editEvent.priority || 'medium'] || 3], the argument of
      both [setPriority] and [setUrgency], for a priority that is not a
      property name of [Object.prototype]. *)
Definition dialog_priority (p : option string) : Z :=
  match dialog_priorityMap !! JS.or_str p "medium" with
  | Some n => if Z.eqb n 0 then 3 else n
  | None => 3
  end.

  (** [statusMap[editEvent.status || 'not_started'] || 'pending'], for a
      status that is not a property name of [Object.prototype]. *)
Definition dialog_status (st : option string) : string :=
  JS.or_str (dialog_statusMap !! JS.or_str st "not_started") "pending".

Definition priorityMap : gmap Z string :=
  {[ 1 := "urgent"; 2 := "high"; 3 := "medium"; 4 := "medium"; 5 := "low" ]}.

  (** [transformTaskToEvent]; [now] is the value of [Date.now()]. *)
Definition transformTaskToEvent (now : Z) (task : Task.t) : CalendarEvent.t :=
  {| CalendarEvent.id := Task.id task;
     CalendarEvent.title := Task.name task;
     CalendarEvent.description := Task.description task;
     CalendarEvent.date :=
       match JS.present (Task.specific_time task) with
       | Some s => Date_parse s
       | None =>
           match JS.present (Task.deadline task) with
           | Some d => Date_parse d
           | None =>
               match JS.present (Task.created_at task) with
               | Some c => Date_parse c
               | None => ValidDate now
               end
           end
       end;
     CalendarEvent.time :=
       TaskAPI.formatTime <$> JS.present (Task.specific_time task);
     CalendarEvent.deadline :=
       Date_parse <$> JS.present (Task.deadline task);
     CalendarEvent.duration := Task.duration_minutes task;
     CalendarEvent.priority :=
       Some (JS.or_str (Task.priority task ≫= (priorityMap !!.)) "medium");
     CalendarEvent.status :=
       match Task.status task with
       | Some s => if String.eqb s "pending" then Some "not_started" else Some s
       | None => None
       end;
     CalendarEvent.category := Category.name <$> Task.category task;
     CalendarEvent.tags := Some (default [] (Task.tags task));
     CalendarEvent.location := Task.location task;
     CalendarEvent.color := Some (TaskAPI.getPriorityColor (Task.priority task));
     CalendarEvent.type := Some "task";
     CalendarEvent.completed :=
       Some (bool_decide (Task.status task = Some "completed"));
     CalendarEvent.progress :=
       Some (if JS.truthy_num (Task.completion_percentage task)
             then default 0 (Task.completion_percentage task) else 0) |}.

End WithPlatform.
End CalendarContainer.

(** ** [GoogleAuth], the variant with [initializeAuth] *)

Module GoogleAuth.
Section WithPlatform.
Context `{Platform}.
Variable net : Network.

Definition DJANGO_BASE_URL : string := "http://localhost:8000".
Definition TOKEN_KEY : string := "deeptalk_token".
Definition TOKEN_TIMESTAMP_KEY : string := "deeptalk_token_timestamp".
Definition TOKEN_EXPIRY_DAYS : Z := 7.

Definition maxAge : Z := TOKEN_EXPIRY_DAYS * 24 * 60 * 60 * 1000.

Definition verify_token_request (token : string) : Request :=
  {| url := DJANGO_BASE_URL ++ "/auth/verify-token/"; bearer := None;
     body_token := Some token |}.

Definition verify_session_request : Request :=
  {| url := DJANGO_BASE_URL ++ "/auth/verify-session/"; bearer := None;
     body_token := None |}.

Definition logout_request : Request :=
  {| url := DJANGO_BASE_URL ++ "/auth/logout/"; bearer := None;
     body_token := None |}.

Definition cleanupStoredTokens : Run unit :=
  Browser.removeItem TOKEN_KEY;;
  Browser.removeItem TOKEN_TIMESTAMP_KEY;;
  Browser.removeItem "gmail_token";;
  Browser.removeItem "gmail_token_timestamp".

Definition getTokenFromURL : Run (option string) := Browser.urlParams_get_token.

Definition getValidStoredToken : Run (option string) :=
  token ← Browser.getItem TOKEN_KEY;
  timestamp ← Browser.getItem TOKEN_TIMESTAMP_KEY;
  match JS.present token, JS.present timestamp with
  | Some tok, Some ts =>
      now ← Browser.Date_now;
      let tokenAge := age_of now ts in
      if num_ge tokenAge maxAge
      then cleanupStoredTokens;; ret None
      else ret (Some tok)
  | _, _ => cleanupStoredTokens;; ret None
  end.

  (** [createUserData]; [None] is the [TypeError] thrown by
      [data.email.split] when the body has no [email]. *)
Definition createUserData (data : gmap string string) (loginMethod : string)
  : option User.t :=
  email ← data !! "email";
  let name := Browser.before_at email in
  Some {| User.id := data !! "user_id";
          User.email := email;
          User.name := name;
          User.firstName := JS.or_str (data !! "first_name") name;
          User.lastName := JS.or_str (data !! "last_name") "";
          User.avatar :=
            "https://ui-avatars.com/api/?name=" ++ encodeURIComponent name
            ++ "&background=6366f1&color=fff&size=100";
          User.loginMethod := Some loginMethod;
          User.sessionActive := Some (String.eqb loginMethod "session");
          User.tokenValid := Some (String.eqb loginMethod "token") |}.

  (** The part shared by [verifyTokenAuth] and [verifySessionAuth]: every
      failure, thrown or not, ends in [return false]. *)
Definition verifyWith (r : Request) (method : string) : Run bool :=
  response ← Browser.fetch net r;
  match response with
  | Response true (Some data) =>
      match createUserData data method with
      | Some userData =>
          Browser.emit (SetUser (Some userData));;
          Browser.emit (SetAuthMethod (Some method));;
          Browser.emit (SetLoading false);;
          Browser.emit (OnAuthSuccess userData);;
          ret true
      | None => ret false
      end
  | _ => ret false
  end.

Definition verifyTokenAuth (token : string) : Run bool :=
  verifyWith (verify_token_request token) "token".

Definition verifySessionAuth : Run bool :=
  verifyWith verify_session_request "session".

  (** [processNewToken]. When the verification fails the [try] block cleans
      up and throws, and the [catch] block cleans up again. *)
Definition processNewToken (token : string) : Run unit :=
  Browser.setItem TOKEN_KEY token;;
  now ← Browser.Date_now;
  Browser.setItem TOKEN_TIMESTAMP_KEY (JS.toString now);;
  Browser.replaceState;;
  success ← verifyTokenAuth token;
  if (success : bool) then ret tt
  else
    cleanupStoredTokens;;
    cleanupStoredTokens;;
    Browser.emit
      (SetError
         (Some "Failed to process authentication token. Please try again."));;
    Browser.emit (SetLoading false).

  (** [initializeAuth]. A [return] inside the [try] block leaves the
      function before the final [setLoading(false)]. *)
Definition initializeAuth : Run unit :=
  Browser.emit (SetLoading true);;
  Browser.emit (SetError None);;
  urlToken ← getTokenFromURL;
  match JS.present urlToken with
  | Some t => processNewToken t
  | None =>
      storedToken ← getValidStoredToken;
      success ←
        match JS.present storedToken with
        | Some t => verifyTokenAuth t
        | None => ret false
        end;
      if (success : bool) then ret tt
      else
        sessionValid ← verifySessionAuth;
        if (sessionValid : bool) then ret tt
        else Browser.emit (SetLoading false)
  end.

  (** [handleSignOut]. The [catch] swallows a rejected logout request. *)
Definition handleSignOut : Run unit :=
  Browser.emit (SetLoading true);;
  Browser.fetch net logout_request;;
  cleanupStoredTokens;;
  Browser.emit (SetUser None);;
  Browser.emit (SetAuthMethod None);;
  Browser.emit (SetError None);;
  Browser.emit (SetLoading false);;
  Browser.emit OnSignOut.

End WithPlatform.
End GoogleAuth.

(** ** [GoogleAuth], the variant with [checkExistingAuth] *)

Module GoogleAuthLegacy.
Section WithPlatform.
Context `{Platform}.
Variable net : Network.

Definition DJANGO_BASE_URL : string := "http://localhost:8000".

Definition sevenDays : Z := 7 * 24 * 60 * 60 * 1000.

Definition verify_token_request (token : string) : Request :=
  {| url := DJANGO_BASE_URL ++ "/auth/verify-token/"; bearer := None;
     body_token := Some token |}.

  (** The session check posts an empty body to the same endpoint. *)
Definition session_request : Request :=
  {| url := DJANGO_BASE_URL ++ "/auth/verify-token/"; bearer := None;
     body_token := None |}.

Definition logout_request : Request :=
  {| url := DJANGO_BASE_URL ++ "/auth/logout/"; bearer := None;
     body_token := None |}.

Definition cleanupAllTokens : Run unit :=
  Browser.removeItem "deeptalk_token";;
  Browser.removeItem "deeptalk_token_timestamp";;
  Browser.removeItem "gmail_token";;
  Browser.removeItem "gmail_token_timestamp".

  (** The object literal built in [checkSessionAuth] and [verifyToken]. *)
Definition userData (data : gmap string string)
    (sessionActive tokenValid : option bool) : option User.t :=
  email ← data !! "email";
  let name := Browser.before_at email in
  Some {| User.id := data !! "user_id";
          User.email := email;
          User.name := name;
          User.firstName := JS.or_str (data !! "first_name") name;
          User.lastName := JS.or_str (data !! "last_name") "";
          User.avatar :=
            "https://ui-avatars.com/api/?name=" ++ encodeURIComponent name
            ++ "&background=6366f1&color=fff&size=100";
          User.loginMethod := data !! "login_method";
          User.sessionActive := sessionActive;
          User.tokenValid := tokenValid |}.

Definition checkSessionAuth : Run bool :=
  response ← Browser.fetch net session_request;
  match response with
  | Response true (Some data) =>
      match userData data (Some true) None with
      | Some u =>
          Browser.emit (SetUser (Some u));;
          Browser.emit (SetShowDashboard true);;
          Browser.emit (OnAuthSuccess u);;
          ret true
      | None => ret false
      end
  | _ => ret false
  end.

  (** The [catch] block of [verifyToken]. *)
Definition verifyToken_catch : Run bool :=
  Browser.emit (SetError (Some "Network error during token verification"));;
  Browser.emit (SetLoading false);;
  ret false.

Definition verifyToken (jwtToken : string) : Run bool :=
  response ← Browser.fetch net (verify_token_request jwtToken);
  match response with
  | Response true (Some data) =>
      match userData data None (Some true) with
      | Some u =>
          Browser.emit (SetUser (Some u));;
          Browser.emit (SetShowDashboard true);;
          Browser.emit (SetLoading false);;
          Browser.emit (SetError None);;
          Browser.emit (OnAuthSuccess u);;
          ret true
      | None => verifyToken_catch
      end
  | Response false (Some errorData) =>
      Browser.emit
        (SetError
           (Some (JS.or_str (errorData !! "error") "Token verification failed")));;
      Browser.emit (SetLoading false);;
      ret false
  | _ => verifyToken_catch
  end.

  (** The stored-token and session part of [checkExistingAuth]
      (lines 83-117), up to the final [setLoading(false)]. The result tells
      whether the function returned from inside this part. *)
Definition checkStoredThenSession : Run bool :=
  t1 ← Browser.getItem "deeptalk_token";
  t2 ← Browser.getItem "gmail_token";
  let storedToken := JS.or t1 t2 in
  s1 ← Browser.getItem "deeptalk_token_timestamp";
  s2 ← Browser.getItem "gmail_token_timestamp";
  let tokenTimestamp := JS.or s1 s2 in
  match JS.present storedToken, JS.present tokenTimestamp with
  | Some tok, Some ts =>
      now ← Browser.Date_now;
      let tokenAge := age_of now ts in
      returned ←
        (if num_lt tokenAge sevenDays
         then
           Browser.emit (SetToken (Some tok));;
           legacy ← Browser.getItem "gmail_token";
           (if JS.truthy legacy
            then
              Browser.setItem "deeptalk_token" tok;;
              Browser.setItem "deeptalk_token_timestamp" ts;;
              Browser.removeItem "gmail_token";;
              Browser.removeItem "gmail_token_timestamp"
            else ret tt);;
           verifyToken tok
         else ret false);
      if (returned : bool) then ret true
      else
        cleanupAllTokens;;
        Browser.emit (SetToken None);;
        checkSessionAuth;;
        ret false
  | _, _ =>
      checkSessionAuth;;
      ret false
  end.

  (** [checkExistingAuth]. *)
Definition checkExistingAuth : Run unit :=
  Browser.emit (SetLoading true);;
  Browser.emit (SetError None);;
  urlToken ← Browser.urlParams_get_token;
  returned ←
    match JS.present urlToken with
    | Some t =>
        Browser.emit (SetToken (Some t));;
        Browser.setItem "deeptalk_token" t;;
        now ← Browser.Date_now;
        Browser.setItem "deeptalk_token_timestamp" (JS.toString now);;
        Browser.removeItem "gmail_token";;
        Browser.removeItem "gmail_token_timestamp";;
        isValid ← verifyToken t;
        if (isValid : bool) then Browser.replaceState;; ret true
        else cleanupAllTokens;; ret false
    | None => ret false
    end;
  if (returned : bool) then ret tt
  else
    returned2 ← checkStoredThenSession;
    if (returned2 : bool) then ret tt else Browser.emit (SetLoading false).

Definition handleSignOut : Run unit :=
  Browser.emit (SetLoading true);;
  Browser.fetch net logout_request;;
  cleanupAllTokens;;
  Browser.emit (SetUser None);;
  Browser.emit (SetToken None);;
  Browser.emit (SetError None);;
  Browser.emit (SetShowDashboard false);;
  Browser.emit (SetLoading false);;
  Browser.emit OnSignOut.

End WithPlatform.
End GoogleAuthLegacy.

(** ** [pages/Index.tsx] *)

Module Index.

  (** [handleSignOut] of the page, also bound to the header's sign-out
      button; its state setters belong to the page and are not logged. *)
Definition handleSignOut : Run unit :=
  Browser.removeItem "deeptalk_token";;
  Browser.removeItem "deeptalk_token_timestamp".

End Index.

(** ** A platform for the examples

    Dates are written as epoch milliseconds in decimal, times of day are
    read in UTC, and [encodeURIComponent] is the identity. *)

Definition two_digits (n : Z) : string :=
  (if (n <? 10)%Z then "0" else "") ++ JS.toString n.

Definition example_platform : Platform := {|
  Date_parse := fun s : string =>
    match JS.parseInt s with
    | Some ms => ValidDate ms
    | None => InvalidDate
    end;
  ReferenceError_message := fun x : string => x ++ " is not defined";
  toISOString := JS.toString;
  setHours := fun ms h m : Z =>
    ValidDate (ms - ms mod 86400000 + h * 3600000 + m * 60000
               + ms mod 60000);
  toLocaleTimeString := fun d : Date =>
    match d with
    | ValidDate ms =>
        two_digits ((ms / 3600000) mod 24) ++ ":" ++ two_digits ((ms / 60000) mod 60)
    | InvalidDate => "Invalid Date"
    end;
  encodeURIComponent := fun s : string => s
|}.

(** ** Concrete inputs used by the examples *)

Module Examples.

  (** A backend task with priority 4 and status "pending", without deadline
      or specific time, created at epoch millisecond 1000. *)
Definition pending_task : BackendTask.t :=
  {| BackendTask.id := "1";
     BackendTask.name := "Write report";
     BackendTask.description := "";
     BackendTask.category := None;
     BackendTask.tags := [];
     BackendTask.deadline := None;
     BackendTask.duration_minutes := None;
     BackendTask.specific_time := None;
     BackendTask.priority := 4;
     BackendTask.urgency := 3;
     BackendTask.status := "pending";
     BackendTask.completion_percentage := 0;
     BackendTask.location := "";
     BackendTask.required_tools := [];
     BackendTask.created_at := "1000";
     BackendTask.updated_at := "1000";
     BackendTask.completed_at := None |}.

  (** The event [pending_task] is shown as. *)
Definition shown_pending_task : CalendarEvent.t :=
  {| CalendarEvent.id := "1";
     CalendarEvent.title := "Write report";
     CalendarEvent.description := Some "";
     CalendarEvent.date := ValidDate 1000;
     CalendarEvent.time := None;
     CalendarEvent.deadline := None;
     CalendarEvent.duration := None;
     CalendarEvent.priority := Some "medium";
     CalendarEvent.status := Some "not_started";
     CalendarEvent.category := None;
     CalendarEvent.tags := Some [];
     CalendarEvent.location := Some "";
     CalendarEvent.color := Some "#3b82f6";
     CalendarEvent.type := Some "task";
     CalendarEvent.completed := Some false;
     CalendarEvent.progress := Some 0 |}.

  (** A complete event, as the task dialog builds it, marked completed. *)
Definition completed_event : CalendarEvent.t :=
  {| CalendarEvent.id := "1";
     CalendarEvent.title := "Write report";
     CalendarEvent.description := None;
     CalendarEvent.date := ValidDate 0;
     CalendarEvent.time := None;
     CalendarEvent.deadline := None;
     CalendarEvent.duration := None;
     CalendarEvent.priority := Some "high";
     CalendarEvent.status := Some "completed";
     CalendarEvent.category := None;
     CalendarEvent.tags := None;
     CalendarEvent.location := None;
     CalendarEvent.color := None;
     CalendarEvent.type := Some "task";
     CalendarEvent.completed := Some true;
     CalendarEvent.progress := Some 100 |}.

Definition completed_payload : CreateTaskRequest.t :=
  {| CreateTaskRequest.name := "Write report";
     CreateTaskRequest.description := Some "";
     CreateTaskRequest.category := None;
     CreateTaskRequest.tags := Some [];
     CreateTaskRequest.deadline := Some "0";
     CreateTaskRequest.duration_minutes := None;
     CreateTaskRequest.specific_time := None;
     CreateTaskRequest.priority := Some 2;
     CreateTaskRequest.urgency := Some 2;
     CreateTaskRequest.location := Some "";
     CreateTaskRequest.required_tools := None |}.

  (** The empty update [{}]. *)
Definition empty_event : PartialCalendarEvent.t :=
  {| PartialCalendarEvent.id := None;
     PartialCalendarEvent.title := None;
     PartialCalendarEvent.description := None;
     PartialCalendarEvent.date := None;
     PartialCalendarEvent.time := None;
     PartialCalendarEvent.deadline := None;
     PartialCalendarEvent.duration := None;
     PartialCalendarEvent.priority := None;
     PartialCalendarEvent.status := None;
     PartialCalendarEvent.category := None;
     PartialCalendarEvent.tags := None;
     PartialCalendarEvent.location := None;
     PartialCalendarEvent.color := None;
     PartialCalendarEvent.type := None;
     PartialCalendarEvent.completed := None;
     PartialCalendarEvent.progress := None |}.


  (** A server that cannot be reached. *)
Definition offline : Network := fun _ => NetworkError.

  (** A server that accepts every verification request. *)
Definition accepting : Network := fun _ =>
  Response true (Some {[ "email" := "ada@example.org"; "user_id" := "7" ]}).

  (** A token stored eight days before [now], no token in the URL. *)
Definition expired_world : World :=
  {| localStorage :=
       {[ "deeptalk_token" := "stored-token";
          "deeptalk_token_timestamp" := "1000" ]};
     search_token := None;
     now := 1000 + 8 * 86400000;
     log := [] |}.

  (** A token stored at millisecond 1000 and read at [now], no token in
      the URL. *)
Definition stored_world (timestamp : string) (now : Z) : World :=
  {| localStorage :=
       {[ "deeptalk_token" := "stored-token";
          "deeptalk_token_timestamp" := timestamp ]};
     search_token := None;
     now := now;
     log := [] |}.

  (** A fresh stored token and another token in the URL. *)
Definition url_world : World :=
  {| localStorage :=
       {[ "deeptalk_token" := "stored-token";
          "deeptalk_token_timestamp" := "1000" ]};
     search_token := Some "url-token";
     now := 2000;
     log := [] |}.

  (** A browser that still holds a token under the legacy keys. *)
Definition legacy_world : World :=
  {| localStorage :=
       {[ "deeptalk_token" := "stored-token";
          "deeptalk_token_timestamp" := "1000";
          "gmail_token" := "legacy-token";
          "gmail_token_timestamp" := "1000" ]};
     search_token := None;
     now := 2000;
     log := [] |}.

End Examples.

(** * Further functions of the same sources *)

(** ** String functions of JavaScript used by the dialogs *)

Module JSString.

  (** [s.trimEnd()]; the white space is that of [JS.is_space]. *)
Fixpoint trimEnd (s : string) : string :=
  match s with
  | EmptyString => EmptyString
  | String c rest =>
      match trimEnd rest with
      | EmptyString => if JS.is_space c then EmptyString else String c EmptyString
      | String c' rest' => String c (String c' rest')
      end
  end.

  (** [s.trim()]. *)
Definition trim (s : string) : string := trimEnd (JS.skip_spaces s).

  (** [l.join(sep)]. *)
Fixpoint join (sep : string) (l : list string) : string :=
  match l with
  | [] => ""
  | x :: rest =>
      match rest with
      | [] => x
      | _ :: _ => x ++ sep ++ join sep rest
      end
  end.

  (** [Boolean(s)] of a string, the predicate of [filter(Boolean)]. *)
Definition nonempty (s : string) : bool := negb (String.eqb s "").

  (** [l.includes(x)]. *)
Definition includes (l : list string) (x : string) : bool :=
  bool_decide (x ∈ l).

  (** Whether [c] occurs in [s]. *)
Fixpoint has_char (c : ascii) (s : string) : bool :=
  match s with
  | EmptyString => false
  | String c' rest => Ascii.eqb c' c || has_char c rest
  end.

End JSString.

(** [a < b] on dates: the time values are compared, and every comparison
    with an invalid date is false. *)
Definition Date_lt (a b : Date) : bool :=
  match a, b with
  | ValidDate x, ValidDate y => (x <? y)%Z
  | _, _ => false
  end.

(** ** The rest of [APIs/TaskAPI.js] *)








Module TaskUtils.
Section WithPlatform.
Context `{Platform}.



  (** [taskUtils.getPriorityLabel]. *)
Definition priorityLabels : gmap Z string :=
  {[ 1 := "Critical"; 2 := "High"; 3 := "Medium"; 4 := "Low"; 5 := "Lowest" ]}.

Definition getPriorityLabel (priority : option Z) : string :=
  JS.or_str (priority ≫= (priorityLabels !!.)) "Medium".

  (** [taskUtils.isTaskOverdue]; [now] is the time value of [new Date()]. *)
Definition isTaskOverdue (now : Z) (task : Task.t) : bool :=
  match JS.present (Task.deadline task) with
  | None => false
  | Some deadline =>
      if bool_decide (Task.status task = Some "completed") then false
      else Date_lt (Date_parse deadline) (ValidDate now)
  end.

End WithPlatform.
End TaskUtils.

Module AuthAPI.

  (** [authAPI.verifyToken] (TaskAPI.js, lines 317-344): [None] is the
      result [false]. *)
Definition verifyToken (net : Network) : Run (option (gmap string string)) :=
  token ← Browser.getItem "deeptalk_token";
  match JS.present token with
  | None => ret None
  | Some t =>
      response ←
        Browser.fetch net
          {| url := TaskAPI.API_BASE_URL ++ "/auth/verify-token/";
             bearer := Some t; body_token := Some t |};
      match response with
      | Response true (Some data) => ret (Some data)
      | _ => ret None
      end
  end.

End AuthAPI.

(** ** The rest of [components/APIs/d.ts] *)

(** What awaiting a method of [calendarApi] gives: the message of the
    [Error] it throws, or its result. *)
Inductive ApiResult (A : Type) : Type :=
  | Rejected (message : string)
  | Resolved (a : A).
Arguments Rejected {A} message.
Arguments Resolved {A} a.

(** The methods of [calendarApi] that the hook calls. *)
Record Api : Type := mkApi {
  getTasks : option string -> ApiResult (list BackendTask.t);
  createTask : CreateTaskRequest.t -> ApiResult BackendTask.t;
  updateTask : string -> CreateTaskRequest.t -> ApiResult BackendTask.t;
  deleteTask : string -> ApiResult unit;
  toggleTaskStatus : string -> ApiResult BackendTask.t
}.

Inductive ApiCall : Type :=
  | GetTasks (status : option string)
  | CreateTask (task : CreateTaskRequest.t)
  | UpdateTask (taskId : string) (updates : CreateTaskRequest.t)
  | DeleteTask (taskId : string)
  | ToggleTaskStatus (taskId : string).

Module CalendarRequest.


End CalendarRequest.

Module UseCalendarEvents.
Section WithPlatform.
Context `{Platform}.
Variable api : Api.
  (** The message of the [RangeError] that [toISOString] throws on an
      invalid date, in the write direction. The read direction throws the
      [ReferenceError] of the unbound [format]. *)
Variable thrown : string.

  (** The state of the hook that the operations change, with the calls made
      to [calendarApi] so far. *)
Record State : Type := mkState {
  events : list CalendarEvent.t;
  loading : bool;
  error : option string;
  calls : list ApiCall
}.

  (** The events that the read direction of the adapter can return. *)
Definition from_backend (event : CalendarEvent.t) : Prop :=
  exists task,
    CalendarApi.transformBackendTaskToCalendarEvent task = Some event.

  (** [fetchEvents] (d.ts, lines 327-345). *)
Definition fetchEvents (status : option string) (st : State) : State :=
  let calls' := (calls st ++ [GetTasks status])%list in
  match getTasks api status with
  | Resolved backendTasks =>
      match mapM CalendarApi.transformBackendTaskToCalendarEvent backendTasks with
      | Some calendarEvents =>
          {| events := calendarEvents; loading := false; error := None;
             calls := calls' |}
      | None =>
          {| events := events st; loading := false;
             error := Some (ReferenceError_message "format");
             calls := calls' |}
      end
  | Rejected message =>
      {| events := events st; loading := false; error := Some message;
         calls := calls' |}
  end.

  (** [addEvent] (d.ts, lines 348-369); [None] is the result [null]. *)
Definition addEvent (event : PartialCalendarEvent.t) (st : State)
  : option CalendarEvent.t * State :=
  match CalendarApi.transformCalendarEventToBackendTask event with
  | None =>
      (None, {| events := events st; loading := false; error := Some thrown;
                calls := calls st |})
  | Some taskData =>
      let calls' := (calls st ++ [CreateTask taskData])%list in
      match createTask api taskData with
      | Rejected message =>
          (None, {| events := events st; loading := false;
                    error := Some message; calls := calls' |})
      | Resolved newBackendTask =>
          match CalendarApi.transformBackendTaskToCalendarEvent newBackendTask with
          | None =>
              (None, {| events := events st; loading := false;
                        error := Some (ReferenceError_message "format");
                        calls := calls' |})
          | Some newCalendarEvent =>
              (Some newCalendarEvent,
               {| events := (events st ++ [newCalendarEvent])%list; loading := false;
                  error := None; calls := calls' |})
          end
      end
  end.

  (** [prev.map(event => event.id === eventId ? updated : event)]. *)
Definition replace_by_id (eventId : string) (updated : CalendarEvent.t)
    (prev : list CalendarEvent.t) : list CalendarEvent.t :=
  (fun event => if String.eqb (CalendarEvent.id event) eventId
                then updated else event) <$> prev.

  (** [updateEvent] (d.ts, lines 372-396). *)
Definition updateEvent (eventId : string) (updates : PartialCalendarEvent.t)
    (st : State) : option CalendarEvent.t * State :=
  match CalendarApi.transformCalendarEventToBackendTask updates with
  | None =>
      (None, {| events := events st; loading := false; error := Some thrown;
                calls := calls st |})
  | Some taskUpdates =>
      let calls' := (calls st ++ [UpdateTask eventId taskUpdates])%list in
      match updateTask api eventId taskUpdates with
      | Rejected message =>
          (None, {| events := events st; loading := false;
                    error := Some message; calls := calls' |})
      | Resolved updatedBackendTask =>
          match CalendarApi.transformBackendTaskToCalendarEvent updatedBackendTask with
          | None =>
              (None, {| events := events st; loading := false;
                        error := Some (ReferenceError_message "format");
                        calls := calls' |})
          | Some updatedCalendarEvent =>
              (Some updatedCalendarEvent,
               {| events := replace_by_id eventId updatedCalendarEvent (events st);
                  loading := false; error := None; calls := calls' |})
          end
      end
  end.

  (** [deleteEvent] (d.ts, lines 399-417). *)
Definition deleteEvent (eventId : string) (st : State) : bool * State :=
  let calls' := (calls st ++ [DeleteTask eventId])%list in
  match deleteTask api eventId with
  | Rejected message =>
      (false, {| events := events st; loading := false; error := Some message;
                 calls := calls' |})
  | Resolved _ =>
      (true, {| events :=
                  filter (fun event => CalendarEvent.id event <> eventId)
                         (events st);
                loading := false; error := None; calls := calls' |})
  end.

  (** [markTaskCompleted] (d.ts, lines 420-436): neither [loading] nor
      [error] is touched. *)
Definition markTaskCompleted (eventId : string) (st : State) : bool * State :=
  let calls' := (calls st ++ [ToggleTaskStatus eventId])%list in
  match toggleTaskStatus api eventId with
  | Rejected _ =>
      (false, {| events := events st; loading := loading st; error := error st;
                 calls := calls' |})
  | Resolved updatedBackendTask =>
      match CalendarApi.transformBackendTaskToCalendarEvent updatedBackendTask with
      | None =>
          (false, {| events := events st; loading := loading st;
                     error := error st; calls := calls' |})
      | Some updatedCalendarEvent =>
          (true, {| events := replace_by_id eventId updatedCalendarEvent (events st);
                    loading := loading st; error := error st; calls := calls' |})
      end
  end.

End WithPlatform.
End UseCalendarEvents.

Module CalendarUtils.

  (** [CalendarUtils.filterByType]. *)
Definition filterByType (events : list CalendarEvent.t) (type : string)
  : list CalendarEvent.t :=
  filter (fun event => CalendarEvent.type event = Some type) events.

  (** The predicate of [CalendarUtils.getOverdueTasks]; [today] is the time
      value of [new Date()]. *)
Definition overdue (today : Z) (event : CalendarEvent.t) : bool :=
  match CalendarEvent.deadline event with
  | Some deadline =>
      Date_lt deadline (ValidDate today)
      && negb (bool_decide (CalendarEvent.status event = Some "completed"))
  | None => false
  end.

Definition getOverdueTasks (today : Z) (events : list CalendarEvent.t)
  : list CalendarEvent.t :=
  filter (fun event => overdue today event = true) events.

End CalendarUtils.

(** ** The task dialogs *)

Module EventDialog.

  (** [PRIORITY_OPTIONS] of [EventDialog]: value, label and colour. *)
Definition PRIORITY_OPTIONS : list (Z * string * string) :=
  [ (1, "Critical", "#ef4444");
    (2, "High", "#f97316");
    (3, "Medium", "#eab308");
    (4, "Low", "#3b82f6");
    (5, "Lowest", "#6b7280") ].

  (** [addTag]: the new [formData.tags] and the new [currentTag]. *)
Definition addTag (currentTag : string) (tags : option (list string))
  : option (list string) * string :=
  let tag := JSString.trim currentTag in
  if JSString.nonempty tag
     && negb (default false ((fun l => JSString.includes l tag) <$> tags))
  then (Some (default [] tags ++ [tag])%list, "")
  else (tags, currentTag).

  (** [removeTag]. *)
Definition removeTag (tagToRemove : string) (tags : option (list string))
  : list string :=
  default [] (filter (fun tag => tag <> tagToRemove) <$> tags).

End EventDialog.

Module TaskDialog.

  (** [s.split(',').map(x => x.trim()).filter(Boolean)], the reading of
      every comma-separated field of the two task dialogs. *)
Definition parse_list (s : string) : list string :=
  filter (fun x => JSString.nonempty x = true)
         (JSString.trim <$> JS.split "," s).

  (** [tags ? ... : []] of [ComprehensiveTaskDialog]. *)
Definition tags_of_field (tags : string) : list string :=
  if JSString.nonempty tags then parse_list tags else [].

  (** [tags ? ... : undefined] of [TaskEventDialog]. *)
Definition tags_of_field_opt (tags : string) : option (list string) :=
  if JSString.nonempty tags then Some (parse_list tags) else None.

  (** [editEvent.tags?.join(', ') || ''], the loading of the field. *)
Definition field_of_tags (tags : option (list string)) : string :=
  JS.or_str (JSString.join ", " <$> tags) "".

End TaskDialog.

(** The same browser at a later time, as the next page load finds it. *)
Definition later (t : Z) (w : World) : World :=
  {| localStorage := localStorage w; search_token := search_token w;
     now := t; log := log w |}.

(** The storage events of [checkExistingAuth] when it moves a legacy token
    to the current keys (lines 94-99). *)
Definition migration_log (legacy : bool) (tok ts : string) : list Effect :=
  if legacy
  then [SetItem "deeptalk_token" tok; SetItem "deeptalk_token_timestamp" ts;
        RemoveItem "gmail_token"; RemoveItem "gmail_token_timestamp"]
  else [].

(** ** Further inputs for the examples *)

Module MoreExamples.

  (** A stored token without timestamp, no token in the URL. *)
Definition token_only_world : World :=
  {| localStorage := {[ "deeptalk_token" := "stored-token" ]};
     search_token := None;
     now := 2000;
     log := [] |}.

  (** A backend that holds the one task [Examples.pending_task] and answers
      every call with it. *)
Definition api : Api :=
  {| getTasks := fun _ => Resolved [Examples.pending_task];
     createTask := fun _ => Resolved Examples.pending_task;
     updateTask := fun _ _ => Resolved Examples.pending_task;
     deleteTask := fun _ => Resolved tt;
     toggleTaskStatus := fun _ => Resolved Examples.pending_task |}.

  (** The hook before the first fetch, and after it. *)
Definition idle : UseCalendarEvents.State :=
  {| UseCalendarEvents.events := [];
     UseCalendarEvents.loading := false;
     UseCalendarEvents.error := None;
     UseCalendarEvents.calls := [] |}.

Definition loaded : UseCalendarEvents.State :=
  {| UseCalendarEvents.events := [Examples.shown_pending_task];
     UseCalendarEvents.loading := false;
     UseCalendarEvents.error := None;
     UseCalendarEvents.calls := [GetTasks None] |}.

  (** The request written for [Examples.shown_pending_task]. *)
Definition pending_payload : CreateTaskRequest.t :=
  {| CreateTaskRequest.name := "Write report";
     CreateTaskRequest.description := Some "";
     CreateTaskRequest.category := None;
     CreateTaskRequest.tags := Some [];
     CreateTaskRequest.deadline := Some "1000";
     CreateTaskRequest.duration_minutes := None;
     CreateTaskRequest.specific_time := None;
     CreateTaskRequest.priority := Some 3;
     CreateTaskRequest.urgency := Some 3;
     CreateTaskRequest.location := Some "";
     CreateTaskRequest.required_tools := None |}.

  (** An event on day zero whose time of day was typed as "noon". *)
Definition noon_event : PartialCalendarEvent.t :=
  {| PartialCalendarEvent.id := None;
     PartialCalendarEvent.title := Some "Lunch";
     PartialCalendarEvent.description := None;
     PartialCalendarEvent.date := Some (ValidDate 0);
     PartialCalendarEvent.time := Some "noon";
     PartialCalendarEvent.deadline := None;
     PartialCalendarEvent.duration := None;
     PartialCalendarEvent.priority := None;
     PartialCalendarEvent.status := None;
     PartialCalendarEvent.category := None;
     PartialCalendarEvent.tags := None;
     PartialCalendarEvent.location := None;
     PartialCalendarEvent.color := None;
     PartialCalendarEvent.type := None;
     PartialCalendarEvent.completed := None;
     PartialCalendarEvent.progress := None |}.

  (** A backend task like [Examples.pending_task], scheduled at epoch
      millisecond 5000. *)
Definition timed_task : BackendTask.t :=
  {| BackendTask.id := "2";
     BackendTask.name := "Write report";
     BackendTask.description := "";
     BackendTask.category := None;
     BackendTask.tags := [];
     BackendTask.deadline := None;
     BackendTask.duration_minutes := None;
     BackendTask.specific_time := Some "5000";
     BackendTask.priority := 4;
     BackendTask.urgency := 3;
     BackendTask.status := "pending";
     BackendTask.completion_percentage := 0;
     BackendTask.location := "";
     BackendTask.required_tools := [];
     BackendTask.created_at := "1000";
     BackendTask.updated_at := "1000";
     BackendTask.completed_at := None |}.



End MoreExamples.

(** * Properties of the adapter *)

Section AdapterProperties.
Context `{Platform}.

(** The fields of a returned event that the mapping tables decide. *)
Lemma transformBackendTask_fields (task : BackendTask.t) (ev : CalendarEvent.t) :
  CalendarApi.transformBackendTaskToCalendarEvent task = Some ev ->
  CalendarEvent.date ev = CalendarApi.displayDate task
  /\ CalendarEvent.priority ev =
       Some (JS.or_str (CalendarApi.priorityMap !! BackendTask.priority task)
                       "medium")
  /\ CalendarEvent.status ev =
       Some (JS.or_str (CalendarApi.statusMap !! BackendTask.status task)
                       "not_started").
Proof.
  unfold CalendarApi.transformBackendTaskToCalendarEvent.
  intros Hev. apply bind_Some in Hev as (tm & _ & Hev).
  injection Hev as <-. cbn. auto.
Qed.

(** The read direction returns an event exactly for the tasks without a
    specific time: formatting one is what throws. *)
Lemma transformBackendTask_returns (task : BackendTask.t) :
  JS.present (BackendTask.specific_time task) = None ->
  is_Some (CalendarApi.transformBackendTaskToCalendarEvent task).
Proof.
  intros Hs. unfold CalendarApi.transformBackendTaskToCalendarEvent.
  rewrite Hs. cbn. eauto.
Qed.

Lemma transformBackendTask_throws (task : BackendTask.t) :
  CalendarApi.transformBackendTaskToCalendarEvent task = None
  <-> JS.present (BackendTask.specific_time task) <> None.
Proof.
  unfold CalendarApi.transformBackendTaskToCalendarEvent.
  destruct (JS.present (BackendTask.specific_time task)) as [s|]; cbn;
    split; congruence.
Qed.

(** The fields of a returned request, and when it carries a deadline. *)
Lemma transformCalendarEvent_fields (event : PartialCalendarEvent.t)
    (req : CreateTaskRequest.t) :
  CalendarApi.transformCalendarEventToBackendTask event = Some req ->
  CreateTaskRequest.name req = JS.or_str (PartialCalendarEvent.title event) ""
  /\ CreateTaskRequest.priority req =
       CalendarApi.backendPriority (PartialCalendarEvent.priority event)
  /\ CreateTaskRequest.urgency req =
       CalendarApi.backendPriority (PartialCalendarEvent.priority event)
  /\ CreateTaskRequest.category req = None
  /\ CreateTaskRequest.required_tools req = None
  /\ (is_Some (PartialCalendarEvent.date event) <->
      is_Some (CreateTaskRequest.deadline req)).
Proof.
  unfold CalendarApi.transformCalendarEventToBackendTask.
  intros Hreq. apply bind_Some in Hreq as ([sp dl] & Ht & Hreq).
  injection Hreq as <-. cbn. repeat split; auto.
  - intros [d Hd]. rewrite Hd in Ht.
    apply bind_Some in Ht as (x & _ & Ht).
    apply bind_Some in Ht as (y & _ & Ht). injection Ht as _ <-. eauto.
  - intros [d Hd]. destruct (PartialCalendarEvent.date event); [eauto|].
    injection Ht as _ <-. discriminate.
Qed.

(** The write direction throws only when a date it must serialise is
    invalid. *)
Lemma transformCalendarEvent_returns (event : PartialCalendarEvent.t) :
  PartialCalendarEvent.date event = None
  \/ (exists ms, PartialCalendarEvent.date event = Some (ValidDate ms)
       /\ (PartialCalendarEvent.deadline event = None
           \/ exists dl, PartialCalendarEvent.deadline event = Some (ValidDate dl))
       /\ JS.present (PartialCalendarEvent.time event) = None) ->
  is_Some (CalendarApi.transformCalendarEventToBackendTask event).
Proof.
  unfold CalendarApi.transformCalendarEventToBackendTask.
  intros [Hd | (ms & Hd & Hdl & Ht)]; rewrite Hd.
  - cbn. eauto.
  - rewrite Ht. destruct Hdl as [-> | (dl & ->)]; cbn; eauto.
Qed.

(** C1: for every backend priority in 1-5 the display table is defined and
    is {1->urgent, 2->high, 3->medium, 4->medium, 5->low}; every event that
    [transformBackendTaskToCalendarEvent] returns carries that value, as
    does every event of [transformTaskToEvent], and a task with priority 4
    and status "pending" is shown with priority "medium" and status
    "not_started". *)
Theorem display_priority_table (task : BackendTask.t) :
  1 <= BackendTask.priority task <= 5 ->
  exists d : string,
    CalendarApi.priorityMap !! BackendTask.priority task = Some d
    /\ (BackendTask.priority task, d)
         ∈ [(1, "urgent"); (2, "high"); (3, "medium"); (4, "medium"); (5, "low")]
    /\ (forall ev,
          CalendarApi.transformBackendTaskToCalendarEvent task = Some ev ->
          CalendarEvent.priority ev = Some d
          /\ (BackendTask.priority task = 4 ->
              BackendTask.status task = "pending" ->
              CalendarEvent.priority ev = Some "medium"
              /\ CalendarEvent.status ev = Some "not_started"))
    /\ (JS.present (BackendTask.specific_time task) = None ->
        is_Some (CalendarApi.transformBackendTaskToCalendarEvent task))
    /\ (forall now (t : Task.t),
          Task.priority t = Some (BackendTask.priority task) ->
          CalendarEvent.priority (CalendarContainer.transformTaskToEvent now t)
          = Some d).
Proof.
  intros Hp.
  assert (Hcases : BackendTask.priority task = 1 \/ BackendTask.priority task = 2
                   \/ BackendTask.priority task = 3 \/ BackendTask.priority task = 4
                   \/ BackendTask.priority task = 5) by lia.
  assert (Hret : JS.present (BackendTask.specific_time task) = None ->
                 is_Some (CalendarApi.transformBackendTaskToCalendarEvent task)).
  { apply transformBackendTask_returns. }
  destruct Hcases as [Hc | [Hc | [Hc | [Hc | Hc]]]];
    [exists "urgent" | exists "high" | exists "medium" | exists "medium" | exists "low"];
    (split; [rewrite Hc; reflexivity |]);
    (split; [rewrite Hc; repeat constructor |]);
    (split; [| split; [exact Hret | intros now t Ht; cbn; rewrite Ht, Hc;
                                     reflexivity]]);
    intros ev Hev; apply transformBackendTask_fields in Hev as (_ & Hpr & Hst);
    (split; [rewrite Hpr, Hc; reflexivity |]);
    intros H4 Hpend; rewrite Hpr, Hst, H4, Hpend; split; reflexivity.
Qed.

(** C2: the write-back table is defined on every display priority and is
    {urgent->1, high->2, medium->3, low->5}; every request that
    [transformCalendarEventToBackendTask] returns carries that value, and
    the function does return a request for an event that has no date, or a
    valid date, a valid or no deadline and no time of day; the task dialog
    computes the same value; a backend priority 4 without specific time
    and with a valid display date goes through the display mapping and
    comes back as 3. *)
Theorem write_back_priority_table (p : string) :
  p ∈ ["urgent"; "high"; "medium"; "low"] ->
  exists n : Z,
    CalendarApi.priorityMap_back !! p = Some n
    /\ (p, n) ∈ [("urgent", 1); ("high", 2); ("medium", 3); ("low", 5)]
    /\ CalendarContainer.dialog_priority (Some p) = n
    /\ (forall event req,
          PartialCalendarEvent.priority event = Some p ->
          CalendarApi.transformCalendarEventToBackendTask event = Some req ->
          CreateTaskRequest.priority req = Some n)
    /\ (forall event,
          PartialCalendarEvent.priority event = Some p ->
          PartialCalendarEvent.date event = None
          \/ (exists ms, PartialCalendarEvent.date event = Some (ValidDate ms)
               /\ (PartialCalendarEvent.deadline event = None
                   \/ exists dl,
                        PartialCalendarEvent.deadline event = Some (ValidDate dl))
               /\ JS.present (PartialCalendarEvent.time event) = None) ->
          exists req,
            CalendarApi.transformCalendarEventToBackendTask event = Some req
            /\ CreateTaskRequest.priority req = Some n)
    /\ (forall task ev req,
          BackendTask.priority task = 4 ->
          CalendarApi.transformBackendTaskToCalendarEvent task = Some ev ->
          CalendarApi.transformCalendarEventToBackendTask
            (PartialCalendarEvent.of_event ev) = Some req ->
          CalendarEvent.priority ev = Some "medium"
          /\ CreateTaskRequest.priority req = Some 3)
    /\ (forall task ms,
          BackendTask.priority task = 4 ->
          JS.present (BackendTask.specific_time task) = None ->
          CalendarApi.displayDate task = ValidDate ms ->
          exists ev req,
            CalendarApi.transformBackendTaskToCalendarEvent task = Some ev
            /\ CalendarApi.transformCalendarEventToBackendTask
                 (PartialCalendarEvent.of_event ev) = Some req
            /\ CalendarEvent.priority ev = Some "medium"
            /\ CreateTaskRequest.priority req = Some 3).
Proof.
  intros Hp.
  assert (Hround : forall task ev req,
            BackendTask.priority task = 4 ->
            CalendarApi.transformBackendTaskToCalendarEvent task = Some ev ->
            CalendarApi.transformCalendarEventToBackendTask
              (PartialCalendarEvent.of_event ev) = Some req ->
            CalendarEvent.priority ev = Some "medium"
            /\ CreateTaskRequest.priority req = Some 3).
  { intros task ev req H4 Hev Hreq.
    apply transformBackendTask_fields in Hev as (_ & Hpr & _).
    apply transformCalendarEvent_fields in Hreq as (_ & Hq & _).
    rewrite H4 in Hpr. split; [exact Hpr|].
    rewrite Hq. cbn. rewrite Hpr. reflexivity. }
  assert (Hfield : forall n, CalendarApi.priorityMap_back !! p = Some n ->
            p <> "" ->
            forall event req,
              PartialCalendarEvent.priority event = Some p ->
              CalendarApi.transformCalendarEventToBackendTask event = Some req ->
              CreateTaskRequest.priority req = Some n).
  { intros n Hn Hne event req Hpe Hreq.
    apply transformCalendarEvent_fields in Hreq as (_ & Hq & _).
    rewrite Hq, Hpe. unfold CalendarApi.backendPriority, JS.present.
    destruct (String.eqb_spec p ""); [contradiction | exact Hn]. }
  assert (Hret : forall n, CalendarApi.priorityMap_back !! p = Some n ->
            p <> "" ->
            forall event,
              PartialCalendarEvent.priority event = Some p ->
              PartialCalendarEvent.date event = None
              \/ (exists ms, PartialCalendarEvent.date event = Some (ValidDate ms)
                   /\ (PartialCalendarEvent.deadline event = None
                       \/ exists dl,
                            PartialCalendarEvent.deadline event
                            = Some (ValidDate dl))
                   /\ JS.present (PartialCalendarEvent.time event) = None) ->
              exists req,
                CalendarApi.transformCalendarEventToBackendTask event = Some req
                /\ CreateTaskRequest.priority req = Some n).
  { intros n Hn Hne event Hpe Hok.
    destruct (transformCalendarEvent_returns event Hok) as [req Hreq].
    exists req. split; [exact Hreq|]. by apply (Hfield n Hn Hne event). }
  assert (Hback : forall task ms,
            BackendTask.priority task = 4 ->
            JS.present (BackendTask.specific_time task) = None ->
            CalendarApi.displayDate task = ValidDate ms ->
            exists ev req,
              CalendarApi.transformBackendTaskToCalendarEvent task = Some ev
              /\ CalendarApi.transformCalendarEventToBackendTask
                   (PartialCalendarEvent.of_event ev) = Some req
              /\ CalendarEvent.priority ev = Some "medium"
              /\ CreateTaskRequest.priority req = Some 3).
  { intros task ms H4 Hs Hdate.
    destruct (transformBackendTask_returns task Hs) as [ev Hev].
    assert (Hok : is_Some (CalendarApi.transformCalendarEventToBackendTask
                             (PartialCalendarEvent.of_event ev))).
    { apply transformCalendarEvent_returns. right. exists ms.
      pose proof Hev as Hev'.
      unfold CalendarApi.transformBackendTaskToCalendarEvent in Hev'.
      rewrite Hs in Hev'. cbn in Hev'. injection Hev' as <-. cbn.
      split; [by rewrite Hdate|]. split; [|reflexivity].
      unfold CalendarApi.displayDate in Hdate. rewrite Hs in Hdate.
      destruct (JS.present (BackendTask.deadline task)) as [d|]; cbn;
        [right; exists ms; by rewrite Hdate | by left]. }
    destruct Hok as [req Hreq]. exists ev, req.
    split; [exact Hev|]. split; [exact Hreq|].
    by apply (Hround task ev req). }
  rewrite !elem_of_cons, elem_of_nil in Hp.
  destruct Hp as [-> | [-> | [-> | [-> | []]]]];
    [exists 1 | exists 2 | exists 3 | exists 5];
    (split; [reflexivity |]);
    (split; [repeat constructor |]);
    (split; [reflexivity |]);
    (split; [apply Hfield; [reflexivity | discriminate] |]);
    (split; [apply Hret; [reflexivity | discriminate] |]);
    (split; [exact Hround | exact Hback]).
Qed.

(** C3: on each of the five backend statuses the display table is the
    identity except that "pending" becomes "not_started"; the write-back
    table sends "not_started" to "pending", and applying it after the
    display table gives the backend status back. The read direction of
    d.ts returns an event for every task without specific time and shows
    it with the display status; [transformTaskToEvent] shows the same
    status, and the task dialog, which does apply the write-back table,
    recovers the backend status from the shown one. *)
Theorem status_tables_inverse (s : string) :
  s ∈ BackendTask.statuses ->
  exists d : string,
    CalendarApi.statusMap !! s = Some d
    /\ d = (if decide (s = "pending") then "not_started" else s)
    /\ CalendarApi.statusMap_back !! d = Some s
    /\ CalendarApi.statusMap_back !! "not_started" = Some "pending"
    /\ (forall task ev,
          BackendTask.status task = s ->
          CalendarApi.transformBackendTaskToCalendarEvent task = Some ev ->
          CalendarEvent.status ev = Some d)
    /\ (forall task,
          BackendTask.status task = s ->
          JS.present (BackendTask.specific_time task) = None ->
          exists ev,
            CalendarApi.transformBackendTaskToCalendarEvent task = Some ev
            /\ CalendarEvent.status ev = Some d)
    /\ (forall now task,
          Task.status task = Some s ->
          CalendarEvent.status (CalendarContainer.transformTaskToEvent now task)
          = Some d
          /\ CalendarContainer.dialog_status
               (CalendarEvent.status
                  (CalendarContainer.transformTaskToEvent now task)) = s).
Proof.
  assert (Hret : forall d,
            (forall task ev,
               BackendTask.status task = s ->
               CalendarApi.transformBackendTaskToCalendarEvent task = Some ev ->
               CalendarEvent.status ev = Some d) ->
            forall task,
              BackendTask.status task = s ->
              JS.present (BackendTask.specific_time task) = None ->
              exists ev,
                CalendarApi.transformBackendTaskToCalendarEvent task = Some ev
                /\ CalendarEvent.status ev = Some d).
  { intros d Hfield task Hs Htime.
    destruct (transformBackendTask_returns task Htime) as [ev Hev].
    exists ev. split; [exact Hev | by apply (Hfield task)]. }
  unfold BackendTask.statuses. rewrite !elem_of_cons, elem_of_nil.
  intros Hin.
  assert (Hfield : forall d,
            JS.or_str (CalendarApi.statusMap !! s) "not_started" = d ->
            forall task ev,
              BackendTask.status task = s ->
              CalendarApi.transformBackendTaskToCalendarEvent task = Some ev ->
              CalendarEvent.status ev = Some d).
  { intros d Hd task ev Hs Hev.
    apply transformBackendTask_fields in Hev as (_ & _ & Hst).
    by rewrite Hst, Hs, Hd. }
  destruct Hin as [-> | [-> | [-> | [-> | [-> | []]]]]];
    [exists "not_started" | exists "in_progress" | exists "completed"
    | exists "cancelled" | exists "on_hold"];
    (split; [reflexivity |]);
    (split; [reflexivity |]);
    (split; [reflexivity |]);
    (split; [reflexivity |]);
    (split; [by apply Hfield |]);
    (split; [apply Hret; by apply Hfield |]);
    intros now task Hs; cbn; rewrite Hs; split; reflexivity.
Qed.

(** C5: the read direction of d.ts derives the display date by the rule
    only for a task without specific time, which it returns with the
    parsed deadline when it has one and else with the parsed creation
    time; a task with a name, no specific time and no deadline is returned
    with its creation time as display date. For a task that has a specific
    time, such as [MoreExamples.timed_task], it returns nothing:
    formatting the time throws, because [format] is not bound in d.ts.
    [taskToCalendarEvent] never reads the specific
    time: its date is the parsed deadline, else the parsed creation time,
    else the current time. [transformTaskToEvent] follows the whole rule. *)
Theorem display_date_rule (task : BackendTask.t) :
  (forall s, JS.present (BackendTask.specific_time task) = Some s ->
             CalendarApi.transformBackendTaskToCalendarEvent task = None)
  /\ (JS.present (BackendTask.specific_time task) = None ->
      exists ev,
        CalendarApi.transformBackendTaskToCalendarEvent task = Some ev
        /\ CalendarEvent.date ev
           = match JS.present (BackendTask.deadline task) with
             | Some d => Date_parse d
             | None => Date_parse (BackendTask.created_at task)
             end)
  /\ (BackendTask.name task = "Write report" ->
      BackendTask.specific_time task = None ->
      BackendTask.deadline task = None ->
      exists ev,
        CalendarApi.transformBackendTaskToCalendarEvent task = Some ev
        /\ CalendarEvent.date ev = Date_parse (BackendTask.created_at task))
  /\ (forall now (t : Task.t),
        CalendarEvent.date (TaskAPI.taskToCalendarEvent now t)
        = match JS.present (Task.deadline t) with
          | Some d => Date_parse d
          | None =>
              match JS.present (Task.created_at t) with
              | Some c => Date_parse c
              | None => ValidDate now
              end
          end)
  /\ (forall now (t : Task.t),
        CalendarEvent.date (CalendarContainer.transformTaskToEvent now t)
        = match JS.present (Task.specific_time t) with
          | Some s => Date_parse s
          | None => CalendarEvent.date (TaskAPI.taskToCalendarEvent now t)
          end)
  /\ CalendarApi.transformBackendTaskToCalendarEvent MoreExamples.timed_task
     = None.
Proof.
  assert (Hrule : JS.present (BackendTask.specific_time task) = None ->
            exists ev,
              CalendarApi.transformBackendTaskToCalendarEvent task = Some ev
              /\ CalendarEvent.date ev
                 = match JS.present (BackendTask.deadline task) with
                   | Some d => Date_parse d
                   | None => Date_parse (BackendTask.created_at task)
                   end).
  { intros Hs. destruct (transformBackendTask_returns task Hs) as [ev Hev].
    exists ev. split; [exact Hev|].
    apply transformBackendTask_fields in Hev as (Hdate & _ & _).
    rewrite Hdate. unfold CalendarApi.displayDate. by rewrite Hs. }
  split; [| split; [| split; [| split; [| split]]]].
  - intros s Hs. apply transformBackendTask_throws. by rewrite Hs.
  - exact Hrule.
  - intros _ Hs Hd. destruct Hrule as (ev & Hev & Hdate); [by rewrite Hs|].
    exists ev. split; [exact Hev|]. by rewrite Hdate, Hd.
  - intros now t. reflexivity.
  - intros now t. cbn.
    destruct (JS.present (Task.specific_time t)); reflexivity.
  - reflexivity.
Qed.


(** C10: in every returned request the urgency equals the priority, and
    both are decided by the priority of the event alone. *)
Theorem urgency_mirrors_priority (event : PartialCalendarEvent.t)
    (req : CreateTaskRequest.t) :
  CalendarApi.transformCalendarEventToBackendTask event = Some req ->
  CreateTaskRequest.urgency req = CreateTaskRequest.priority req
  /\ (forall event' req',
        PartialCalendarEvent.priority event' = PartialCalendarEvent.priority event ->
        CalendarApi.transformCalendarEventToBackendTask event' = Some req' ->
        CreateTaskRequest.urgency req' = CreateTaskRequest.urgency req).
Proof.
  intros Hreq.
  apply transformCalendarEvent_fields in Hreq as (_ & Hq & Hu & _).
  split; [congruence|].
  intros event' req' Hp Hreq'.
  apply transformCalendarEvent_fields in Hreq' as (_ & _ & Hu' & _).
  congruence.
Qed.

(** [key_if k o] holds no key but [k]. *)
Lemma elem_of_key_if {A : Type} (x k : string) (o : option A) :
  x ∈ CreateTaskRequest.key_if k o -> x = k.
Proof.
  destruct o; simpl; [|by rewrite elem_of_nil].
  rewrite elem_of_cons, elem_of_nil. intros [-> | []]. reflexivity.
Qed.

(** The request body never has a [status] property, whatever the event. *)
Lemma payload_never_has_status (event : PartialCalendarEvent.t)
    (req : CreateTaskRequest.t) :
  CalendarApi.transformCalendarEventToBackendTask event = Some req ->
  "status" ∉ CreateTaskRequest.json_keys req.
Proof.
  intros _ Hin. unfold CreateTaskRequest.json_keys in Hin.
  rewrite !elem_of_app in Hin.
  repeat match type of Hin with _ \/ _ => destruct Hin as [Hin | Hin] end;
    first [ apply elem_of_key_if in Hin; discriminate
          | apply list_elem_of_singleton in Hin; discriminate ].
Qed.

(** What the write direction does keep of an event that has a date and a
    known (or no) priority: the name, a deadline, the priority and the
    urgency. *)
Lemma payload_has_name_deadline_priority (event : PartialCalendarEvent.t)
    (req : CreateTaskRequest.t) :
  CalendarApi.transformCalendarEventToBackendTask event = Some req ->
  is_Some (PartialCalendarEvent.date event) ->
  (PartialCalendarEvent.priority event = None
   \/ exists p, PartialCalendarEvent.priority event = Some p
                /\ p ∈ ["urgent"; "high"; "medium"; "low"]) ->
  "name" ∈ CreateTaskRequest.json_keys req
  /\ is_Some (CreateTaskRequest.deadline req)
  /\ is_Some (CreateTaskRequest.priority req)
  /\ is_Some (CreateTaskRequest.urgency req).
Proof.
  intros Hreq Hd Hp.
  apply transformCalendarEvent_fields in Hreq as (_ & Hq & Hu & _ & _ & Hdl).
  split; [constructor|]. split; [apply Hdl, Hd|].
  rewrite Hq, Hu.
  destruct Hp as [-> | (p & -> & Hp)]; [split; eexists; reflexivity|].
  rewrite !elem_of_cons, elem_of_nil in Hp.
  destruct Hp as [-> | [-> | [-> | [-> | []]]]]; split; eexists; reflexivity.
Qed.

End AdapterProperties.


(** * Properties of the authentication resolver *)

Section AuthProperties.
Context `{Platform}.
Variable net : Network.

(** Runs the storage, clock, URL and network primitives that are applied to
    a world. Component functions are unfolded one at a time before it, so
    that only the path under study is executed. *)
Ltac run :=
  cbv [Browser.emit Browser.getItem Browser.setItem Browser.removeItem
       Browser.Date_now Browser.fetch Browser.replaceState
       Browser.urlParams_get_token mbind Run_bind ret];
  simpl.

(** Both expiry constants are the 604,800,000 ms of seven days. *)
Lemma maxAge_value : GoogleAuth.maxAge = 604800000.
Proof. reflexivity. Qed.

Lemma sevenDays_value : GoogleAuthLegacy.sevenDays = 604800000.
Proof. reflexivity. Qed.

(** After the four removals none of the token keys is left. *)
Lemma purged_lookup (m : gmap string string) (k : string) :
  k ∈ Browser.token_keys ->
  delete "gmail_token_timestamp"
    (delete "gmail_token"
       (delete "deeptalk_token_timestamp" (delete "deeptalk_token" m))) !! k
  = None.
Proof.
  unfold Browser.token_keys. rewrite !elem_of_cons, elem_of_nil.
  intros [-> | [-> | [-> | [-> | []]]]]; by simplify_map_eq.
Qed.

(** A non-empty string is truthy; a string that [parseInt] reads is not
    empty. *)
Lemma present_nonempty (s : string) :
  s <> "" -> JS.present (Some s) = Some s.
Proof. intros Hs. simpl. destruct (String.eqb_spec s ""); congruence. Qed.

Lemma parseInt_nonempty (s : string) (t : Z) :
  JS.parseInt s = Some t -> s <> "".
Proof. intros Hp ->. discriminate. Qed.

(** An age of seven days or more passes the test [tokenAge >= maxAge] and
    fails the test [tokenAge < sevenDays]. *)
Lemma expired_not_fresh (n t : Z) :
  604800000 <= n - t ->
  (GoogleAuth.maxAge <=? n - t)%Z = true
  /\ (n - t <? GoogleAuthLegacy.sevenDays)%Z = false.
Proof.
  intros Hage. rewrite maxAge_value, sevenDays_value.
  split; [apply Z.leb_le | apply Z.ltb_ge]; lia.
Qed.

(** [run] in a hypothesis. *)
Ltac run_in Hyp :=
  cbv [Browser.emit Browser.getItem Browser.setItem Browser.removeItem
       Browser.Date_now Browser.fetch Browser.replaceState
       Browser.urlParams_get_token mbind Run_bind ret] in Hyp;
  simpl in Hyp.

(** Refutes an assumption on [Browser.accepts] that the response at hand
    contradicts. *)
Ltac refute Hacc :=
  first [ discriminate Hacc
        | apply bool_decide_eq_true in Hacc; destruct Hacc as [? [=]]
        | apply bool_decide_eq_false in Hacc; destruct Hacc; eexists;
          reflexivity ].

(** Closes [exists rest, log = old ++ prefix ++ rest /\ P rest] once the log
    on the left is a chain of appended singletons. *)
Ltac close_log :=
  eexists; split; [rewrite <- ?app_assoc; simpl; reflexivity | try reflexivity].

(** [getValidStoredToken] on an expired token: nothing is returned and the
    four keys are removed. *)
Lemma getValidStoredToken_expired (w : World) (tok ts : string) (t : Z) :
  localStorage w !! "deeptalk_token" = Some tok ->
  localStorage w !! "deeptalk_token_timestamp" = Some ts ->
  JS.parseInt ts = Some t ->
  604800000 <= now w - t ->
  GoogleAuth.getValidStoredToken w = (None, (GoogleAuth.cleanupStoredTokens w).2).
Proof.
  intros Htok Hts Hparse Hage.
  cbv [GoogleAuth.getValidStoredToken GoogleAuth.TOKEN_KEY
       GoogleAuth.TOKEN_TIMESTAMP_KEY Browser.getItem Browser.Date_now
       mbind Run_bind ret].
  simpl. rewrite Htok, Hts.
  rewrite (present_nonempty ts) by (eapply parseInt_nonempty; eauto).
  destruct (JS.present (Some tok)); [|reflexivity].
  unfold age_of. rewrite Hparse. simpl.
  destruct (expired_not_fresh _ _ Hage) as [-> _]. reflexivity.
Qed.

(** The world after [cleanupStoredTokens]. *)
Lemma cleanupStoredTokens_run (w : World) :
  GoogleAuth.cleanupStoredTokens w
  = (tt, {| localStorage :=
              delete "gmail_token_timestamp"
                (delete "gmail_token"
                   (delete "deeptalk_token_timestamp"
                      (delete "deeptalk_token" (localStorage w))));
            search_token := search_token w;
            now := now w;
            log := (log w ++ [RemoveItem "deeptalk_token";
                              RemoveItem "deeptalk_token_timestamp";
                              RemoveItem "gmail_token";
                              RemoveItem "gmail_token_timestamp"])%list |}).
Proof.
  cbv [GoogleAuth.cleanupStoredTokens GoogleAuth.TOKEN_KEY
       GoogleAuth.TOKEN_TIMESTAMP_KEY Browser.removeItem mbind Run_bind].
  simpl. rewrite <- !app_assoc. reflexivity.
Qed.

(** The resolver with [initializeAuth], no token in the URL and an expired
    stored token. *)
Lemma initializeAuth_expired (w : World) (tok ts : string) (t : Z) :
  localStorage w !! "deeptalk_token" = Some tok ->
  localStorage w !! "deeptalk_token_timestamp" = Some ts ->
  JS.parseInt ts = Some t ->
  604800000 <= now w - t ->
  JS.present (search_token w) = None ->
  (forall k, k ∈ Browser.token_keys ->
             localStorage (GoogleAuth.initializeAuth net w).2 !! k = None)
  /\ exists rest,
       log (GoogleAuth.initializeAuth net w).2
       = (log w ++ [SetLoading true; SetError None;
                   RemoveItem "deeptalk_token";
                   RemoveItem "deeptalk_token_timestamp";
                   RemoveItem "gmail_token";
                   RemoveItem "gmail_token_timestamp";
                   Fetch GoogleAuth.verify_session_request] ++ rest)%list
       /\ Browser.fetches rest = [].
Proof.
  intros Htok Hts Hparse Hage Hurl.
  cbv [GoogleAuth.initializeAuth GoogleAuth.getTokenFromURL
       Browser.urlParams_get_token Browser.emit mbind Run_bind ret].
  simpl. rewrite Hurl.
  rewrite (getValidStoredToken_expired _ tok ts t) by assumption.
  rewrite cleanupStoredTokens_run. simpl.
  cbv [GoogleAuth.verifySessionAuth GoogleAuth.verifyWith Browser.fetch
       Browser.emit mbind Run_bind ret].
  simpl.
  destruct (net GoogleAuth.verify_session_request) as [|[] [data|]];
    [| destruct (GoogleAuth.createUserData data "session") | | |]; simpl;
    (split; [intros k Hk; by apply purged_lookup | close_log]).
Qed.

(** The world after [cleanupAllTokens]. *)
Lemma cleanupAllTokens_run (w : World) :
  GoogleAuthLegacy.cleanupAllTokens w
  = (tt, {| localStorage :=
              delete "gmail_token_timestamp"
                (delete "gmail_token"
                   (delete "deeptalk_token_timestamp"
                      (delete "deeptalk_token" (localStorage w))));
            search_token := search_token w;
            now := now w;
            log := (log w ++ [RemoveItem "deeptalk_token";
                              RemoveItem "deeptalk_token_timestamp";
                              RemoveItem "gmail_token";
                              RemoveItem "gmail_token_timestamp"])%list |}).
Proof.
  unfold GoogleAuthLegacy.cleanupAllTokens. run.
  rewrite <- !app_assoc. reflexivity.
Qed.

(** The session check of [checkExistingAuth] is one request followed by
    state setters; it does not touch the storage. *)
Lemma checkSessionAuth_run (w : World) :
  exists rest,
    localStorage (GoogleAuthLegacy.checkSessionAuth net w).2 = localStorage w
    /\ log (GoogleAuthLegacy.checkSessionAuth net w).2
       = (log w ++ Fetch GoogleAuthLegacy.session_request :: rest)%list
    /\ Browser.fetches rest = [].
Proof.
  unfold GoogleAuthLegacy.checkSessionAuth. run.
  destruct (net GoogleAuthLegacy.session_request) as [|[] [data|]];
    [| destruct (GoogleAuthLegacy.userData data (Some true) None) | | |];
    simpl; eexists; (split; [reflexivity|]);
    (split; [rewrite <- ?app_assoc; simpl; reflexivity | reflexivity]).
Qed.

(** The stored-token part of [checkExistingAuth] when the storage holds no
    token: only the session is checked. *)
Lemma checkStoredThenSession_empty (w : World) :
  (forall k, k ∈ Browser.token_keys -> localStorage w !! k = None) ->
  exists rest,
    localStorage (GoogleAuthLegacy.checkStoredThenSession net w).2
    = localStorage w
    /\ (GoogleAuthLegacy.checkStoredThenSession net w).1 = false
    /\ log (GoogleAuthLegacy.checkStoredThenSession net w).2
       = (log w ++ Fetch GoogleAuthLegacy.session_request :: rest)%list
    /\ Browser.fetches rest = [].
Proof.
  intros Hempty. unfold GoogleAuthLegacy.checkStoredThenSession. run.
  rewrite !Hempty by (repeat constructor). simpl.
  destruct (checkSessionAuth_run w) as (rest & Hst & Hlog & Hf).
  destruct (GoogleAuthLegacy.checkSessionAuth net w) as [b w'].
  simpl in *. eauto.
Qed.

(** The resolver with [checkExistingAuth], no token in the URL and an
    expired stored token, under the current or the legacy keys. *)
Lemma checkExistingAuth_expired (w : World) (tok ts : string) (t : Z) :
  JS.present
    (JS.or (localStorage w !! "deeptalk_token") (localStorage w !! "gmail_token"))
  = Some tok ->
  JS.present
    (JS.or (localStorage w !! "deeptalk_token_timestamp")
           (localStorage w !! "gmail_token_timestamp"))
  = Some ts ->
  JS.parseInt ts = Some t ->
  604800000 <= now w - t ->
  JS.present (search_token w) = None ->
  (forall k, k ∈ Browser.token_keys ->
             localStorage (GoogleAuthLegacy.checkExistingAuth net w).2 !! k = None)
  /\ exists rest,
       log (GoogleAuthLegacy.checkExistingAuth net w).2
       = (log w ++ [SetLoading true; SetError None;
                   RemoveItem "deeptalk_token";
                   RemoveItem "deeptalk_token_timestamp";
                   RemoveItem "gmail_token";
                   RemoveItem "gmail_token_timestamp";
                   SetToken None;
                   Fetch GoogleAuthLegacy.session_request] ++ rest)%list
       /\ Browser.fetches rest = [].
Proof.
  intros Htok Hts Hparse Hage Hurl.
  assert (Hexp : (now w - t <? GoogleAuthLegacy.sevenDays)%Z = false)
    by (apply expired_not_fresh, Hage).
  unfold GoogleAuthLegacy.checkExistingAuth. run. rewrite Hurl. simpl.
  unfold GoogleAuthLegacy.checkStoredThenSession. run. rewrite Htok, Hts.
  unfold age_of. rewrite Hparse. simpl. rewrite Hexp. simpl.
  match goal with
  | |- context [GoogleAuthLegacy.checkSessionAuth net ?w0] =>
      destruct (checkSessionAuth_run w0) as (rest & Hst & Hlog & Hf);
      destruct (GoogleAuthLegacy.checkSessionAuth net w0) as [b w']
  end.
  simpl in *. split.
  - intros k Hk. rewrite Hst. by apply purged_lookup.
  - exists (rest ++ [SetLoading false])%list. split.
    + rewrite Hlog. rewrite <- !app_assoc. simpl. reflexivity.
    + unfold Browser.fetches in *. rewrite omap_app, Hf. reflexivity.
Qed.

(** C6: a stored token whose timestamp is at least 604,800,000 ms old is
    never sent to the verification endpoint. With no token in the URL,
    [getValidStoredToken] rejects it and removes the token keys, and both
    resolvers remove the four keys first and then make the session check
    their only request. *)
Theorem expired_token_purged_before_verification
    (w : World) (tok ts : string) (t : Z) :
  JS.parseInt ts = Some t ->
  604800000 <= now w - t ->
  JS.present (search_token w) = None ->
  (localStorage w !! "deeptalk_token" = Some tok ->
   localStorage w !! "deeptalk_token_timestamp" = Some ts ->
   (GoogleAuth.getValidStoredToken w).1 = None
   /\ (forall k, k ∈ Browser.token_keys ->
         localStorage (GoogleAuth.getValidStoredToken w).2 !! k = None)
   /\ (forall k, k ∈ Browser.token_keys ->
         localStorage (GoogleAuth.initializeAuth net w).2 !! k = None)
   /\ exists rest,
        log (GoogleAuth.initializeAuth net w).2
        = (log w ++ [SetLoading true; SetError None;
                    RemoveItem "deeptalk_token";
                    RemoveItem "deeptalk_token_timestamp";
                    RemoveItem "gmail_token";
                    RemoveItem "gmail_token_timestamp";
                    Fetch GoogleAuth.verify_session_request] ++ rest)%list
        /\ Browser.fetches rest = [])
  /\ (JS.present
        (JS.or (localStorage w !! "deeptalk_token")
               (localStorage w !! "gmail_token")) = Some tok ->
      JS.present
        (JS.or (localStorage w !! "deeptalk_token_timestamp")
               (localStorage w !! "gmail_token_timestamp")) = Some ts ->
      (forall k, k ∈ Browser.token_keys ->
         localStorage (GoogleAuthLegacy.checkExistingAuth net w).2 !! k = None)
      /\ exists rest,
           log (GoogleAuthLegacy.checkExistingAuth net w).2
           = (log w ++ [SetLoading true; SetError None;
                       RemoveItem "deeptalk_token";
                       RemoveItem "deeptalk_token_timestamp";
                       RemoveItem "gmail_token";
                       RemoveItem "gmail_token_timestamp";
                       SetToken None;
                       Fetch GoogleAuthLegacy.session_request] ++ rest)%list
           /\ Browser.fetches rest = []).
Proof.
  intros Hparse Hage Hurl. split.
  - intros Htok Hts.
    rewrite (getValidStoredToken_expired w tok ts t) by assumption.
    split; [reflexivity|].
    split; [intros k Hk; rewrite cleanupStoredTokens_run; by apply purged_lookup|].
    by apply (initializeAuth_expired w tok ts t).
  - intros Htok Hts. by apply (checkExistingAuth_expired w tok ts t).
Qed.

(** The resolver with [initializeAuth] and a token in the URL. *)
Lemma initializeAuth_url_token (w : World) (t : string) :
  search_token w = Some t ->
  t <> "" ->
  exists rest,
    log (GoogleAuth.initializeAuth net w).2
    = (log w ++ [SetLoading true; SetError None;
                 SetItem "deeptalk_token" t;
                 SetItem "deeptalk_token_timestamp" (JS.toString (now w));
                 ReplaceState;
                 Fetch (GoogleAuth.verify_token_request t)] ++ rest)%list
    /\ Browser.fetches rest = []
    /\ (Browser.accepts net (GoogleAuth.verify_token_request t) = true ->
        localStorage (GoogleAuth.initializeAuth net w).2 !! "deeptalk_token"
        = Some t
        /\ localStorage (GoogleAuth.initializeAuth net w).2
             !! "deeptalk_token_timestamp" = Some (JS.toString (now w))
        /\ exists u, SetUser (Some u) ∈ rest
                     /\ User.loginMethod u = Some "token")
    /\ (Browser.accepts net (GoogleAuth.verify_token_request t) = false ->
        forall k, k ∈ Browser.token_keys ->
          localStorage (GoogleAuth.initializeAuth net w).2 !! k = None).
Proof.
  intros Hurl Hne. unfold Browser.accepts.
  unfold GoogleAuth.initializeAuth. run.
  rewrite Hurl, (present_nonempty t Hne).
  unfold GoogleAuth.processNewToken. run.
  unfold GoogleAuth.verifyTokenAuth, GoogleAuth.verifyWith. run.
  destruct (net (GoogleAuth.verify_token_request t)) as [|[] [data|]] eqn:Hnet;
    simpl.
  2: { unfold GoogleAuth.createUserData.
       destruct (data !! "email") as [email|] eqn:Hemail; simpl.
       - close_log. split; [reflexivity|]. split; [|intros Hacc; refute Hacc].
         intros _. split; [by simplify_map_eq|]. split; [by simplify_map_eq|].
         eexists. split; [constructor | reflexivity].
       - close_log. split; [reflexivity|]. split.
         + intros Hacc. refute Hacc.
         + intros _ k Hk. by apply purged_lookup. }
  all: close_log; (split; [reflexivity|]); (split; [intros Hacc; refute Hacc|]);
    intros _ k Hk; by apply purged_lookup.
Qed.

(** The resolver with [checkExistingAuth] and a token in the URL. *)
Lemma checkExistingAuth_url_token (w : World) (t : string) :
  search_token w = Some t ->
  t <> "" ->
  exists rest,
    log (GoogleAuthLegacy.checkExistingAuth net w).2
    = (log w ++ [SetLoading true; SetError None; SetToken (Some t);
                 SetItem "deeptalk_token" t;
                 SetItem "deeptalk_token_timestamp" (JS.toString (now w));
                 RemoveItem "gmail_token";
                 RemoveItem "gmail_token_timestamp";
                 Fetch (GoogleAuthLegacy.verify_token_request t)] ++ rest)%list
    /\ (Browser.accepts net (GoogleAuthLegacy.verify_token_request t) = true ->
        Browser.fetches rest = []
        /\ localStorage (GoogleAuthLegacy.checkExistingAuth net w).2
             !! "deeptalk_token" = Some t)
    /\ (Browser.accepts net (GoogleAuthLegacy.verify_token_request t) = false ->
        Browser.fetches rest = [GoogleAuthLegacy.session_request]
        /\ forall k, k ∈ Browser.token_keys ->
             localStorage (GoogleAuthLegacy.checkExistingAuth net w).2 !! k
             = None).
Proof.
  intros Hurl Hne. unfold Browser.accepts.
  unfold GoogleAuthLegacy.checkExistingAuth. run.
  rewrite Hurl, (present_nonempty t Hne). run.
  unfold GoogleAuthLegacy.verifyToken, GoogleAuthLegacy.verifyToken_catch. run.
  assert (Hsession : forall w0 : World,
            (forall k, k ∈ Browser.token_keys -> localStorage w0 !! k = None) ->
            exists rest,
              log (let '(r, w1) := GoogleAuthLegacy.checkStoredThenSession net w0 in
                   (if r then ret tt else Browser.emit (SetLoading false)) w1).2
              = (log w0 ++ rest)%list
              /\ Browser.fetches rest = [GoogleAuthLegacy.session_request]
              /\ forall k, k ∈ Browser.token_keys ->
                   localStorage
                     (let '(r, w1) := GoogleAuthLegacy.checkStoredThenSession net w0 in
                      (if r then ret tt else Browser.emit (SetLoading false)) w1).2
                     !! k = None).
  { intros w0 Hempty.
    destruct (checkStoredThenSession_empty w0 Hempty)
      as (rest & Hst & Hret & Hlog & Hf).
    destruct (GoogleAuthLegacy.checkStoredThenSession net w0) as [r w1].
    simpl in *. subst r. run.
    exists (Fetch GoogleAuthLegacy.session_request :: rest ++ [SetLoading false])%list.
    split; [rewrite Hlog, <- !app_assoc; reflexivity|].
    split; [unfold Browser.fetches in *; simpl; rewrite omap_app, Hf; reflexivity|].
    intros k Hk. rewrite Hst. by apply Hempty. }
  destruct (net (GoogleAuthLegacy.verify_token_request t))
    as [|[] [data|]] eqn:Hnet; simpl.
  2: { unfold GoogleAuthLegacy.userData.
       destruct (data !! "email") as [email|] eqn:Hemail; simpl.
       - close_log. split; [|intros Hacc; refute Hacc].
         intros _. split; [reflexivity | by simplify_map_eq].
       - match goal with
         | |- context [GoogleAuthLegacy.checkStoredThenSession net ?w0] =>
             destruct (Hsession w0) as (rest & Hlog & Hf & Hkeys);
             [intros k Hk; by apply purged_lookup|]
         end.
         run_in Hlog. run_in Hkeys.
         eexists. split; [rewrite Hlog, <- !app_assoc; simpl; reflexivity|].
         split; [intros Hacc; refute Hacc|].
         intros _. split; [exact Hf | exact Hkeys]. }
  all: match goal with
       | |- context [GoogleAuthLegacy.checkStoredThenSession net ?w0] =>
           destruct (Hsession w0) as (rest & Hlog & Hf & Hkeys);
           [intros k Hk; by apply purged_lookup|]
       end;
    run_in Hlog; run_in Hkeys;
    eexists; (split; [rewrite Hlog, <- !app_assoc; simpl; reflexivity|]);
    (split; [intros Hacc; refute Hacc|]);
    intros _; (split; [exact Hf | exact Hkeys]).
Qed.

(** C7: when the URL carries a token, both resolvers first store it with the
    current time as timestamp and verify it, before anything else is
    requested. [initializeAuth] then makes no other request at all;
    [checkExistingAuth] makes no other request when the verification
    succeeds, and after a failed one it finds no stored token left to
    verify and only tries the session. *)
Theorem url_token_takes_precedence (w : World) (t : string) :
  search_token w = Some t ->
  t <> "" ->
  (exists rest,
     log (GoogleAuth.initializeAuth net w).2
     = (log w ++ [SetLoading true; SetError None;
                  SetItem "deeptalk_token" t;
                  SetItem "deeptalk_token_timestamp" (JS.toString (now w));
                  ReplaceState;
                  Fetch (GoogleAuth.verify_token_request t)] ++ rest)%list
     /\ Browser.fetches rest = []
     /\ (Browser.accepts net (GoogleAuth.verify_token_request t) = true ->
         localStorage (GoogleAuth.initializeAuth net w).2 !! "deeptalk_token"
         = Some t
         /\ localStorage (GoogleAuth.initializeAuth net w).2
              !! "deeptalk_token_timestamp" = Some (JS.toString (now w))
         /\ exists u, SetUser (Some u) ∈ rest
                      /\ User.loginMethod u = Some "token")
     /\ (Browser.accepts net (GoogleAuth.verify_token_request t) = false ->
         forall k, k ∈ Browser.token_keys ->
           localStorage (GoogleAuth.initializeAuth net w).2 !! k = None))
  /\ (exists rest,
        log (GoogleAuthLegacy.checkExistingAuth net w).2
        = (log w ++ [SetLoading true; SetError None; SetToken (Some t);
                     SetItem "deeptalk_token" t;
                     SetItem "deeptalk_token_timestamp" (JS.toString (now w));
                     RemoveItem "gmail_token";
                     RemoveItem "gmail_token_timestamp";
                     Fetch (GoogleAuthLegacy.verify_token_request t)]
                  ++ rest)%list
        /\ (Browser.accepts net (GoogleAuthLegacy.verify_token_request t) = true ->
            Browser.fetches rest = []
            /\ localStorage (GoogleAuthLegacy.checkExistingAuth net w).2
                 !! "deeptalk_token" = Some t)
        /\ (Browser.accepts net (GoogleAuthLegacy.verify_token_request t) = false ->
            Browser.fetches rest = [GoogleAuthLegacy.session_request]
            /\ forall k, k ∈ Browser.token_keys ->
                 localStorage (GoogleAuthLegacy.checkExistingAuth net w).2 !! k
                 = None)).
Proof.
  intros Hurl Hne. split.
  - by apply initializeAuth_url_token.
  - by apply checkExistingAuth_url_token.
Qed.

(** Both [handleSignOut] functions of [GoogleAuth] remove the four keys,
    whatever the logout request returns. *)
Lemma handleSignOut_clears_all_keys (w : World) (k : string) :
  k ∈ Browser.token_keys ->
  localStorage (GoogleAuth.handleSignOut net w).2 !! k = None
  /\ localStorage (GoogleAuthLegacy.handleSignOut net w).2 !! k = None.
Proof.
  intros Hk.
  unfold GoogleAuth.handleSignOut, GoogleAuthLegacy.handleSignOut. run.
  split; by apply purged_lookup.
Qed.

(** [authAPI.signOut] and the page's [handleSignOut] remove the current
    keys and leave every other key as it was. *)
Lemma signOut_clears_current_keys_only (w : World) (k : string) :
  localStorage (TaskAPI.signOut net w).2 !! k
  = (if bool_decide (k ∈ ["deeptalk_token"; "deeptalk_token_timestamp"])
     then None else localStorage w !! k)
  /\ localStorage (Index.handleSignOut w).2 !! k
     = (if bool_decide (k ∈ ["deeptalk_token"; "deeptalk_token_timestamp"])
        then None else localStorage w !! k).
Proof.
  unfold TaskAPI.signOut, TaskAPI.getAuthHeaders, Index.handleSignOut. run.
  case_bool_decide as Hk.
  - rewrite !elem_of_cons, elem_of_nil in Hk.
    destruct Hk as [-> | [-> | []]]; split; by simplify_map_eq.
  - rewrite !elem_of_cons, elem_of_nil in Hk.
    split; rewrite !lookup_delete_ne; auto.
Qed.

End AuthProperties.

(** * The properties at concrete inputs *)

(** C4: evaluated on a complete event whose status is "completed", the
    write direction returns a request with a name, a deadline and a
    priority, and without any [status] property. *)
Theorem write_payload_omits_status :
  CalendarApi.transformCalendarEventToBackendTask (H := example_platform)
    (PartialCalendarEvent.of_event Examples.completed_event)
  = Some Examples.completed_payload
  /\ CreateTaskRequest.json_keys Examples.completed_payload
     = ["name"; "description"; "tags"; "deadline"; "priority"; "urgency";
        "location"]
  /\ "status" ∉ CreateTaskRequest.json_keys Examples.completed_payload.
Proof.
  split; [reflexivity|]. split; [reflexivity|].
  apply (payload_never_has_status (H := example_platform)
           (PartialCalendarEvent.of_event Examples.completed_event)).
  reflexivity.
Qed.

Lemma display_priority_table_witness :
  1 <= BackendTask.priority Examples.pending_task <= 5
  /\ exists ev,
       CalendarApi.transformBackendTaskToCalendarEvent (H := example_platform)
         Examples.pending_task = Some ev
       /\ CalendarEvent.priority ev = Some "medium"
       /\ CalendarEvent.status ev = Some "not_started".
Proof.
  assert (Hp : 1 <= BackendTask.priority Examples.pending_task <= 5)
    by (simpl; lia).
  split; [exact Hp|].
  destruct (display_priority_table (H := example_platform)
              Examples.pending_task Hp) as (d & _ & _ & Hev & Hret & _).
  destruct (Hret eq_refl) as [ev Hx].
  exists ev. split; [exact Hx|].
  exact (proj2 (Hev ev Hx) eq_refl eq_refl).
Defined.

Lemma write_back_priority_table_witness :
  "medium" ∈ ["urgent"; "high"; "medium"; "low"]
  /\ CalendarApi.transformBackendTaskToCalendarEvent (H := example_platform)
       Examples.pending_task = Some Examples.shown_pending_task
  /\ CalendarApi.transformCalendarEventToBackendTask (H := example_platform)
       (PartialCalendarEvent.of_event Examples.shown_pending_task)
     = Some MoreExamples.pending_payload
  /\ CreateTaskRequest.priority MoreExamples.pending_payload = Some 3
  /\ exists req,
       CalendarApi.transformCalendarEventToBackendTask (H := example_platform)
         (PartialCalendarEvent.of_event Examples.completed_event) = Some req
       /\ CreateTaskRequest.priority req = Some 2.
Proof.
  assert (Hin : "medium" ∈ ["urgent"; "high"; "medium"; "low"])
    by (repeat constructor).
  assert (Hhigh : "high" ∈ ["urgent"; "high"; "medium"; "low"])
    by (repeat constructor).
  split; [exact Hin|]. split; [reflexivity|]. split; [reflexivity|].
  split.
  - destruct (write_back_priority_table (H := example_platform) "medium" Hin)
      as (n & _ & _ & _ & _ & _ & Hround & _).
    exact (proj2 (Hround Examples.pending_task Examples.shown_pending_task
                    MoreExamples.pending_payload eq_refl eq_refl eq_refl)).
  - destruct (write_back_priority_table (H := example_platform) "high" Hhigh)
      as (n & Hn & _ & _ & _ & Hret & _).
    injection Hn as <-.
    apply (Hret (PartialCalendarEvent.of_event Examples.completed_event));
      [reflexivity|].
    right. exists 0. split; [reflexivity|]. split; [by left | reflexivity].
Defined.

Lemma status_tables_inverse_witness :
  "pending" ∈ BackendTask.statuses
  /\ CalendarApi.transformBackendTaskToCalendarEvent (H := example_platform)
       Examples.pending_task = Some Examples.shown_pending_task
  /\ CalendarEvent.status Examples.shown_pending_task = Some "not_started"
  /\ exists d,
       CalendarApi.statusMap !! "pending" = Some d
       /\ d = "not_started"
       /\ CalendarApi.statusMap_back !! d = Some "pending".
Proof.
  assert (Hin : "pending" ∈ BackendTask.statuses) by (repeat constructor).
  split; [exact Hin|]. split; [reflexivity|].
  destruct (status_tables_inverse (H := example_platform) "pending" Hin)
    as (d & Hd & Heq & Hback & _ & Hfield & _).
  split.
  - rewrite (Hfield Examples.pending_task Examples.shown_pending_task
               eq_refl eq_refl).
    by rewrite Heq.
  - exists d. split; [exact Hd|]. split; [exact Heq | exact Hback].
Defined.


Lemma urgency_mirrors_priority_witness :
  CalendarApi.transformCalendarEventToBackendTask (H := example_platform)
    (PartialCalendarEvent.of_event Examples.completed_event)
  = Some Examples.completed_payload
  /\ CreateTaskRequest.urgency Examples.completed_payload
     = CreateTaskRequest.priority Examples.completed_payload.
Proof.
  split; [reflexivity|].
  apply (urgency_mirrors_priority (H := example_platform)
           (PartialCalendarEvent.of_event Examples.completed_event)
           Examples.completed_payload).
  reflexivity.
Defined.

(** C8: evaluated on a browser that holds a token under the legacy keys,
    with the server unreachable, [authAPI.signOut] and the page's
    [handleSignOut] remove the current keys and leave the legacy token in
    place, while [handleSignOut] of [GoogleAuth] removes all four keys. *)
Theorem signOut_keeps_legacy_token :
  (forall k, k ∈ Browser.token_keys ->
     localStorage
       (GoogleAuth.handleSignOut Examples.offline Examples.legacy_world).2 !! k
     = None)
  /\ (fun m : gmap string string =>
        (m !! "deeptalk_token", m !! "deeptalk_token_timestamp",
         m !! "gmail_token", m !! "gmail_token_timestamp"))
       (localStorage (TaskAPI.signOut Examples.offline Examples.legacy_world).2)
     = (None, None, Some "legacy-token", Some "1000")
  /\ log (TaskAPI.signOut Examples.offline Examples.legacy_world).2
     = [Fetch {| url := "http://localhost:8000/auth/logout/";
                 bearer := Some "stored-token"; body_token := None |};
        RemoveItem "deeptalk_token"; RemoveItem "deeptalk_token_timestamp"]
  /\ localStorage (Index.handleSignOut Examples.legacy_world).2
       !! "gmail_token" = Some "legacy-token".
Proof.
  split.
  - intros k Hk.
    apply (handleSignOut_clears_all_keys Examples.offline
             Examples.legacy_world k Hk).
  - split; [|split]; vm_compute; reflexivity.
Qed.

Lemma expired_token_purged_before_verification_witness :
  JS.parseInt "1000" = Some 1000
  /\ 604800000 <= now Examples.expired_world - 1000
  /\ JS.present (search_token Examples.expired_world) = None
  /\ (GoogleAuth.getValidStoredToken Examples.expired_world).1 = None
  /\ (forall k, k ∈ Browser.token_keys ->
        localStorage
          (GoogleAuth.initializeAuth (H := example_platform) Examples.offline
             Examples.expired_world).2 !! k = None).
Proof.
  assert (Hparse : JS.parseInt "1000" = Some 1000) by reflexivity.
  assert (Hage : 604800000 <= now Examples.expired_world - 1000)
    by (simpl; lia).
  assert (Hurl : JS.present (search_token Examples.expired_world) = None)
    by reflexivity.
  split; [exact Hparse|]. split; [exact Hage|]. split; [exact Hurl|].
  destruct (expired_token_purged_before_verification
              (H := example_platform) Examples.offline Examples.expired_world
              "stored-token" "1000" 1000 Hparse Hage Hurl) as [Hnew _].
  destruct Hnew as (Hnone & _ & Hkeys & _);
    [vm_compute; reflexivity | vm_compute; reflexivity |].
  split; [exact Hnone | exact Hkeys].
Defined.

Lemma url_token_takes_precedence_witness :
  search_token Examples.url_world = Some "url-token"
  /\ "url-token" <> ""
  /\ exists rest,
       log (GoogleAuth.initializeAuth (H := example_platform)
              Examples.accepting Examples.url_world).2
       = (log Examples.url_world
          ++ [SetLoading true; SetError None;
              SetItem "deeptalk_token" "url-token";
              SetItem "deeptalk_token_timestamp"
                (JS.toString (now Examples.url_world));
              ReplaceState;
              Fetch (GoogleAuth.verify_token_request "url-token")]
          ++ rest)%list
       /\ Browser.fetches rest = [].
Proof.
  assert (Hne : "url-token" <> "") by discriminate.
  split; [reflexivity|]. split; [exact Hne|].
  destruct (url_token_takes_precedence (H := example_platform)
              Examples.accepting Examples.url_world "url-token" eq_refl Hne)
    as [(rest & Hlog & Hfetch & _) _].
  exists rest. split; [exact Hlog | exact Hfetch].
Defined.

(** The expiry test of [getValidStoredToken] at the boundary: one
    millisecond before seven days the token is returned and nothing is
    removed, at seven days it is rejected and the keys are removed. *)
Example token_kept_just_before_expiry :
  GoogleAuth.getValidStoredToken (Examples.stored_world "1000" (1000 + 604799999))
  = (Some "stored-token", Examples.stored_world "1000" (1000 + 604799999)).
Proof. vm_compute. reflexivity. Qed.

Example token_rejected_at_expiry :
  (fun r : option string * World =>
     (r.1, localStorage r.2 !! "deeptalk_token", log r.2))
    (GoogleAuth.getValidStoredToken
       (Examples.stored_world "1000" (1000 + 604800000)))
  = (None, None,
     [RemoveItem "deeptalk_token"; RemoveItem "deeptalk_token_timestamp";
      RemoveItem "gmail_token"; RemoveItem "gmail_token_timestamp"]).
Proof. vm_compute. reflexivity. Qed.

(** A timestamp that [parseInt] cannot read gives the age [NaN], which
    [getValidStoredToken] does not treat as expired. *)
Example unreadable_timestamp_is_not_expired :
  (GoogleAuth.getValidStoredToken
     (Examples.stored_world "yesterday" (1000 + 8 * 86400000))).1
  = Some "stored-token".
Proof. vm_compute. reflexivity. Qed.

(** * Facts on strings *)

Section StringFacts.

Lemma string_app_cons (c : ascii) (a b : string) :
  String c a ++ b = String c (a ++ b).
Proof. reflexivity. Qed.

Lemma string_app_nil_r (s : string) : s ++ "" = s.
Proof.
  induction s as [|c s IH]; [reflexivity|]. by rewrite string_app_cons, IH.
Qed.

Lemma string_app_assoc (a b c : string) : (a ++ b) ++ c = a ++ (b ++ c).
Proof.
  induction a as [|x a IH]; [reflexivity|]. by rewrite !string_app_cons, IH.
Qed.

Lemma string_app_snoc (cur : string) (c : ascii) (s : string) :
  (cur ++ String c "") ++ s = cur ++ String c s.
Proof. by rewrite string_app_assoc. Qed.

(** A string without the separator is not split. *)
Lemma split_go_no_sep (sep : ascii) (s cur : string) :
  JSString.has_char sep s = false ->
  JS.split_go sep s cur = [cur ++ s].
Proof.
  revert cur. induction s as [|c s IH]; intros cur Hno; simpl in *.
  - by rewrite string_app_nil_r.
  - apply orb_false_iff in Hno as [Hc Hs].
    rewrite Hc, IH by assumption. by rewrite string_app_snoc.
Qed.

End StringFacts.

(** * Timestamps written and read back *)

Section TimestampRoundTrip.

(** Replaces the code of a digit character by its number. *)
Ltac digit_code :=
  match goal with
  | |- context [Z.of_nat (nat_of_ascii ?c)] =>
      let v := eval vm_compute in (Z.of_nat (nat_of_ascii c)) in
      change (Z.of_nat (nat_of_ascii c)) with v
  end.

Lemma digits_go_pos (d : Decimal.uint) (acc : positive) :
  JS.digits_go 10 (NilEmpty.string_of_uint d) (Some (Z.pos acc))
  = Some (Z.pos (Pos.of_uint_acc d acc)).
Proof.
  revert acc. induction d; intros acc; simpl; [reflexivity | ..];
    rewrite <- IHd; do 2 f_equal; digit_code; lia.
Qed.

Lemma digits_go_zero (d : Decimal.uint) :
  JS.digits_go 10 (NilEmpty.string_of_uint d) (Some 0)
  = Some (Z.of_N (Pos.of_uint d)).
Proof.
  induction d; simpl; [reflexivity | exact IHd | ..];
    digit_code; apply digits_go_pos.
Qed.

Lemma digits_go_start (d : Decimal.uint) :
  d <> Decimal.Nil ->
  JS.digits_go 10 (NilEmpty.string_of_uint d) None
  = JS.digits_go 10 (NilEmpty.string_of_uint d) (Some 0).
Proof. destruct d; [congruence | reflexivity ..]. Qed.

Lemma parseInt_digits (d : Decimal.uint) :
  d <> Decimal.Nil ->
  JS.parseInt (NilEmpty.string_of_uint d) = Some (Z.of_N (Pos.of_uint d))
  /\ JS.parseInt (String "-" (NilEmpty.string_of_uint d))
     = Some (- Z.of_N (Pos.of_uint d)).
Proof.
  intros Hd.
  assert (Hsp : JS.skip_spaces (NilEmpty.string_of_uint d) = NilEmpty.string_of_uint d)
    by (destruct d; reflexivity).
  assert (Hsign : JS.strip_sign (NilEmpty.string_of_uint d) = (1, NilEmpty.string_of_uint d))
    by (destruct d; reflexivity).
  assert (Hhex : JS.strip_hex_prefix (NilEmpty.string_of_uint d) = (10, NilEmpty.string_of_uint d))
    by (destruct d as [|d'| | | | | | | | |]; try reflexivity;
        destruct d'; reflexivity).
  unfold JS.parseInt. split.
  - rewrite Hsp, Hsign, Hhex, (digits_go_start d Hd), digits_go_zero.
    first [reflexivity | f_equal; lia].
  - cbn [JS.skip_spaces]. change (JS.is_space "-") with false. cbn iota.
    cbn [JS.strip_sign]. rewrite Hhex, (digits_go_start d Hd), digits_go_zero.
    first [reflexivity | f_equal; lia].
Qed.

(** [parseInt(n.toString())] is [n] for every integer. *)
Lemma parseInt_toString (n : Z) : JS.parseInt (JS.toString n) = Some n.
Proof.
  unfold JS.toString. destruct n as [|p|p]; [reflexivity | |]; simpl Z.to_int.
  - destruct (parseInt_digits (Pos.to_uint p)
                (DecimalPos.Unsigned.to_uint_nonnil p)) as [Hp _].
    unfold NilZero.string_of_int, NilZero.string_of_uint.
    destruct (Pos.to_uint p) eqn:Hu;
      [by destruct (DecimalPos.Unsigned.to_uint_nonnil p) | ..];
      rewrite Hp, <- Hu, DecimalPos.Unsigned.of_to; reflexivity.
  - destruct (parseInt_digits (Pos.to_uint p)
                (DecimalPos.Unsigned.to_uint_nonnil p)) as [_ Hn].
    unfold NilZero.string_of_int, NilZero.string_of_uint.
    destruct (Pos.to_uint p) eqn:Hu;
      [by destruct (DecimalPos.Unsigned.to_uint_nonnil p) | ..];
      rewrite Hn, <- Hu, DecimalPos.Unsigned.of_to; reflexivity.
Qed.

End TimestampRoundTrip.

(** * Further properties of the authentication code *)

Section MoreAuthProperties.
Context `{Platform}.
Variable net : Network.

Ltac run :=
  cbv [Browser.emit Browser.getItem Browser.setItem Browser.removeItem
       Browser.Date_now Browser.fetch Browser.replaceState
       Browser.urlParams_get_token mbind Run_bind ret];
  simpl.

Ltac close_log :=
  eexists; split; [rewrite <- ?app_assoc; simpl; reflexivity | try reflexivity].

(** The world after [verifyWith], by the answer of the server. *)
Lemma verifyWith_run (r : Request) (m : string) (w : World) :
  GoogleAuth.verifyWith net r m w
  = match net r with
    | Response true (Some data) =>
        match GoogleAuth.createUserData data m with
        | Some u =>
            (true,
             {| localStorage := localStorage w; search_token := search_token w;
                now := now w;
                log := (log w ++ [Fetch r; SetUser (Some u);
                                  SetAuthMethod (Some m); SetLoading false;
                                  OnAuthSuccess u])%list |})
        | None =>
            (false,
             {| localStorage := localStorage w; search_token := search_token w;
                now := now w; log := (log w ++ [Fetch r])%list |})
        end
    | _ =>
        (false,
         {| localStorage := localStorage w; search_token := search_token w;
            now := now w; log := (log w ++ [Fetch r])%list |})
    end.
Proof.
  unfold GoogleAuth.verifyWith. run.
  destruct (net r) as [|[] [data|]]; try reflexivity.
  destruct (GoogleAuth.createUserData data m); simpl;
    rewrite <- ?app_assoc; reflexivity.
Qed.

(** [verifyWith] returns what [Browser.accepts] tells, leaves the storage
    and the URL alone, and adds one request followed by state setters. *)
Lemma verifyWith_frame (r : Request) (m : string) (w : World) :
  (GoogleAuth.verifyWith net r m w).1 = Browser.accepts net r
  /\ localStorage (GoogleAuth.verifyWith net r m w).2 = localStorage w
  /\ search_token (GoogleAuth.verifyWith net r m w).2 = search_token w
  /\ exists rest,
       log (GoogleAuth.verifyWith net r m w).2 = (log w ++ Fetch r :: rest)%list
       /\ Browser.fetches rest = []
       /\ (forall e, SetError e ∉ rest)
       /\ (Browser.accepts net r = false -> rest = []).
Proof.
  rewrite verifyWith_run. unfold Browser.accepts, GoogleAuth.createUserData.
  destruct (net r) as [|[] [data|]]; simpl;
    try (repeat split; eexists; repeat split; eauto using not_elem_of_nil; fail).
  destruct (data !! "email") as [email|]; simpl.
  - repeat split. eexists. split; [reflexivity|]. split; [reflexivity|].
    split; [|discriminate].
    intros e He. rewrite !elem_of_cons, elem_of_nil in He.
    destruct He as [He | [He | [He | [He | []]]]]; discriminate.
  - repeat split; eexists; repeat split; eauto using not_elem_of_nil.
Qed.

(** [getValidStoredToken] by the state of the storage. *)
Lemma getValidStoredToken_run (w : World) :
  GoogleAuth.getValidStoredToken w
  = match JS.present (localStorage w !! "deeptalk_token"),
          JS.present (localStorage w !! "deeptalk_token_timestamp") with
    | Some tok, Some ts =>
        if num_ge (age_of (now w) ts) GoogleAuth.maxAge
        then (None, (GoogleAuth.cleanupStoredTokens w).2)
        else (Some tok, w)
    | _, _ => (None, (GoogleAuth.cleanupStoredTokens w).2)
    end.
Proof.
  cbv [GoogleAuth.getValidStoredToken GoogleAuth.TOKEN_KEY
       GoogleAuth.TOKEN_TIMESTAMP_KEY Browser.getItem Browser.Date_now
       mbind Run_bind ret].
  simpl.
  destruct (JS.present (localStorage w !! "deeptalk_token"));
    destruct (JS.present (localStorage w !! "deeptalk_token_timestamp"));
    try reflexivity.
  destruct (num_ge (age_of (now w) s0) GoogleAuth.maxAge); reflexivity.
Qed.

(** Destructs the run of [verifyWith] in the goal into its result and the
    facts of [verifyWith_frame]. *)
Ltac frame_verify b w1 rest Hst Hurl Hlog Hf Herr Hrej :=
  match goal with
  | |- context [GoogleAuth.verifyWith net ?r ?m ?w0] =>
      let Hb := fresh "Hb" in
      destruct (verifyWith_frame r m w0)
        as (Hb & Hst & Hurl & rest & Hlog & Hf & Herr & Hrej);
      destruct (GoogleAuth.verifyWith net r m w0) as [b w1];
      simpl in Hb, Hst, Hurl, Hlog; subst b
  end.

(** X1: a token that arrived in the URL and was accepted is offered for
    verification by a later page load exactly while less than seven days
    have passed since it was stored. *)
Theorem login_token_expires_after_seven_days (w : World) (t : string) (t1 : Z) :
  search_token w = Some t ->
  t <> "" ->
  Browser.accepts net (GoogleAuth.verify_token_request t) = true ->
  (GoogleAuth.getValidStoredToken (later t1 (GoogleAuth.initializeAuth net w).2)).1
  = (if (t1 - now w <? 604800000)%Z then Some t else None).
Proof.
  intros Hurl Hne Hacc.
  destruct (initializeAuth_url_token net w t Hurl Hne)
    as (rest & _ & _ & Hstored & _).
  destruct (Hstored Hacc) as (Htok & Hts & _).
  rewrite getValidStoredToken_run. unfold later. simpl.
  rewrite Htok, Hts, (present_nonempty t Hne).
  rewrite (present_nonempty (JS.toString (now w)))
    by (eapply parseInt_nonempty, parseInt_toString).
  unfold age_of. rewrite parseInt_toString. simpl.
  rewrite maxAge_value.
  destruct (Z.leb_spec 604800000 (t1 - now w));
    destruct (Z.ltb_spec (t1 - now w) 604800000); try lia; reflexivity.
Qed.

(** The resolver with [initializeAuth], no token in the URL and a stored
    token that [getValidStoredToken] lets through. *)
Lemma initializeAuth_unexpired (w : World) (tok ts : string) :
  JS.present (search_token w) = None ->
  localStorage w !! "deeptalk_token" = Some tok ->
  tok <> "" ->
  localStorage w !! "deeptalk_token_timestamp" = Some ts ->
  ts <> "" ->
  num_ge (age_of (now w) ts) GoogleAuth.maxAge = false ->
  localStorage (GoogleAuth.initializeAuth net w).2 = localStorage w
  /\ exists rest,
       log (GoogleAuth.initializeAuth net w).2
       = (log w ++ [SetLoading true; SetError None;
                    Fetch (GoogleAuth.verify_token_request tok)] ++ rest)%list
       /\ (Browser.accepts net (GoogleAuth.verify_token_request tok) = true ->
           Browser.fetches rest = [])
       /\ (Browser.accepts net (GoogleAuth.verify_token_request tok) = false ->
           Browser.fetches rest = [GoogleAuth.verify_session_request]).
Proof.
  intros Hurl Htok Hne Hts Hnets Hage.
  unfold GoogleAuth.initializeAuth. run. rewrite Hurl.
  rewrite getValidStoredToken_run. simpl.
  rewrite Htok, Hts, (present_nonempty tok Hne), (present_nonempty ts Hnets).
  rewrite Hage, (present_nonempty tok Hne).
  unfold GoogleAuth.verifyTokenAuth, GoogleAuth.verifySessionAuth.
  frame_verify b w1 rest Hst Hu Hlog Hf Herr Hrej.
  destruct (Browser.accepts net (GoogleAuth.verify_token_request tok)).
  - simpl. split; [exact Hst|].
    exists rest. split; [by rewrite Hlog, <- !app_assoc|].
    split; [auto | discriminate].
  - rewrite (Hrej eq_refl) in Hlog.
    frame_verify b2 w2 rest2 Hst2 Hu2 Hlog2 Hf2 Herr2 Hrej2.
    assert (Hfinal : forall k : World -> World,
              (forall x, localStorage (k x) = localStorage x) ->
              (forall x, exists tl, log (k x) = (log x ++ tl)%list
                                    /\ Browser.fetches tl = []) ->
              localStorage (k w2) = localStorage w
              /\ exists rest0,
                   log (k w2)
                   = (log w ++ [SetLoading true; SetError None;
                                Fetch (GoogleAuth.verify_token_request tok)]
                            ++ rest0)%list
                   /\ (false = true -> Browser.fetches rest0 = [])
                   /\ (false = false ->
                       Browser.fetches rest0 = [GoogleAuth.verify_session_request])).
    { intros k Hk1 Hk2. split; [by rewrite Hk1, Hst2, Hst|].
      destruct (Hk2 w2) as (tl & Htl & Hftl).
      exists (Fetch GoogleAuth.verify_session_request :: rest2 ++ tl)%list.
      split; [rewrite Htl, Hlog2, Hlog, <- !app_assoc; reflexivity|].
      split; [discriminate|]. intros _.
      unfold Browser.fetches in *. simpl. by rewrite omap_app, Hf2, Hftl. }
    destruct (Browser.accepts net GoogleAuth.verify_session_request).
    + apply (Hfinal (fun x => x)); [reflexivity|].
      intros x. exists []. by rewrite app_nil_r.
    + apply (Hfinal (fun x => (Browser.emit (SetLoading false) x).2));
        [reflexivity|].
      intros x. by exists [SetLoading false].
Qed.

(** X2: with no token in the URL, a stored token that is less than seven
    days old is the first thing [initializeAuth] sends to the server. The
    run never changes the storage: a token that the server rejects stays
    stored, and the session is checked next. *)
Theorem fresh_stored_token_is_verified_and_kept
    (w : World) (tok ts : string) (t : Z) :
  JS.present (search_token w) = None ->
  localStorage w !! "deeptalk_token" = Some tok ->
  tok <> "" ->
  localStorage w !! "deeptalk_token_timestamp" = Some ts ->
  JS.parseInt ts = Some t ->
  now w - t < 604800000 ->
  localStorage (GoogleAuth.initializeAuth net w).2 = localStorage w
  /\ exists rest,
       log (GoogleAuth.initializeAuth net w).2
       = (log w ++ [SetLoading true; SetError None;
                    Fetch (GoogleAuth.verify_token_request tok)] ++ rest)%list
       /\ (Browser.accepts net (GoogleAuth.verify_token_request tok) = true ->
           Browser.fetches rest = [])
       /\ (Browser.accepts net (GoogleAuth.verify_token_request tok) = false ->
           Browser.fetches rest = [GoogleAuth.verify_session_request]).
Proof.
  intros Hurl Htok Hne Hts Hparse Hage.
  apply (initializeAuth_unexpired w tok ts); try assumption.
  - eapply parseInt_nonempty; eauto.
  - unfold age_of. rewrite Hparse. simpl. rewrite maxAge_value.
    apply Z.leb_gt. lia.
Qed.

(** X3: when the token or its timestamp is missing from the storage,
    [getValidStoredToken] returns nothing and removes all four token keys,
    the legacy ones included. *)
Theorem incomplete_token_pair_is_purged (w : World) :
  JS.present (localStorage w !! "deeptalk_token") = None
  \/ JS.present (localStorage w !! "deeptalk_token_timestamp") = None ->
  (GoogleAuth.getValidStoredToken w).1 = None
  /\ forall k, k ∈ Browser.token_keys ->
       localStorage (GoogleAuth.getValidStoredToken w).2 !! k = None.
Proof.
  intros Hmissing. rewrite getValidStoredToken_run.
  assert (Hgoal : (None : option string, (GoogleAuth.cleanupStoredTokens w).2).1 = None
                  /\ forall k, k ∈ Browser.token_keys ->
                       localStorage
                         (None : option string, (GoogleAuth.cleanupStoredTokens w).2).2
                         !! k = None).
  { split; [reflexivity|]. intros k Hk.
    rewrite cleanupStoredTokens_run. by apply purged_lookup. }
  destruct Hmissing as [-> | Hts]; [exact Hgoal|].
  rewrite Hts. by destruct (JS.present (localStorage w !! "deeptalk_token")).
Qed.

(** The legacy resolver: frames of its two requests. *)
Lemma legacy_verifyToken_frame (tok : string) (w : World) :
  (GoogleAuthLegacy.verifyToken net tok w).1
  = Browser.accepts net (GoogleAuthLegacy.verify_token_request tok)
  /\ localStorage (GoogleAuthLegacy.verifyToken net tok w).2 = localStorage w
  /\ search_token (GoogleAuthLegacy.verifyToken net tok w).2 = search_token w
  /\ exists rest,
       log (GoogleAuthLegacy.verifyToken net tok w).2
       = (log w ++ Fetch (GoogleAuthLegacy.verify_token_request tok) :: rest)%list
       /\ Browser.fetches rest = [].
Proof.
  unfold GoogleAuthLegacy.verifyToken, GoogleAuthLegacy.verifyToken_catch,
    Browser.accepts, GoogleAuthLegacy.userData.
  run.
  destruct (net (GoogleAuthLegacy.verify_token_request tok)) as [|[] [data|]];
    [| destruct (data !! "email") | | |]; simpl;
    (repeat split; eexists;
     (split; [rewrite <- ?app_assoc; simpl; reflexivity | reflexivity])).
Qed.

Lemma legacy_checkSessionAuth_frame (w : World) :
  localStorage (GoogleAuthLegacy.checkSessionAuth net w).2 = localStorage w
  /\ search_token (GoogleAuthLegacy.checkSessionAuth net w).2 = search_token w
  /\ exists rest,
       log (GoogleAuthLegacy.checkSessionAuth net w).2
       = (log w ++ Fetch GoogleAuthLegacy.session_request :: rest)%list
       /\ Browser.fetches rest = [].
Proof.
  unfold GoogleAuthLegacy.checkSessionAuth. run.
  destruct (net GoogleAuthLegacy.session_request) as [|[] [data|]];
    [| destruct (GoogleAuthLegacy.userData data (Some true) None) | | |];
    simpl;
    (repeat split; eexists;
     (split; [rewrite <- ?app_assoc; simpl; reflexivity | reflexivity])).
Qed.

(** Destructs the runs of the legacy requests in the goal. *)
Ltac frame_legacy_verify b w1 rest Hst Hurl Hlog Hf :=
  match goal with
  | |- context [GoogleAuthLegacy.verifyToken net ?tok ?w0] =>
      let Hb := fresh "Hb" in
      destruct (legacy_verifyToken_frame tok w0)
        as (Hb & Hst & Hurl & rest & Hlog & Hf);
      destruct (GoogleAuthLegacy.verifyToken net tok w0) as [b w1];
      simpl in Hb, Hst, Hurl, Hlog; subst b
  end.

Ltac frame_legacy_session b w1 rest Hst Hurl Hlog Hf :=
  match goal with
  | |- context [GoogleAuthLegacy.checkSessionAuth net ?w0] =>
      destruct (legacy_checkSessionAuth_frame w0)
        as (Hst & Hurl & rest & Hlog & Hf);
      destruct (GoogleAuthLegacy.checkSessionAuth net w0) as [b w1];
      simpl in Hst, Hurl, Hlog
  end.

(** The resolver with [checkExistingAuth], no token in the URL and a stored
    token that passes the age test. *)
Lemma checkExistingAuth_fresh (w : World) (tok ts : string) :
  JS.present (search_token w) = None ->
  JS.present
    (JS.or (localStorage w !! "deeptalk_token") (localStorage w !! "gmail_token"))
  = Some tok ->
  JS.present
    (JS.or (localStorage w !! "deeptalk_token_timestamp")
           (localStorage w !! "gmail_token_timestamp"))
  = Some ts ->
  num_lt (age_of (now w) ts) GoogleAuthLegacy.sevenDays = true ->
  exists rest,
    log (GoogleAuthLegacy.checkExistingAuth net w).2
    = (log w ++ [SetLoading true; SetError None; SetToken (Some tok)]
             ++ migration_log (JS.truthy (localStorage w !! "gmail_token")) tok ts
             ++ [Fetch (GoogleAuthLegacy.verify_token_request tok)] ++ rest)%list
    /\ (Browser.accepts net (GoogleAuthLegacy.verify_token_request tok) = true ->
        Browser.fetches rest = []
        /\ localStorage (GoogleAuthLegacy.checkExistingAuth net w).2
             !! "deeptalk_token" = Some tok
        /\ JS.present
             (localStorage (GoogleAuthLegacy.checkExistingAuth net w).2
                !! "gmail_token") = None)
    /\ (Browser.accepts net (GoogleAuthLegacy.verify_token_request tok) = false ->
        Browser.fetches rest = [GoogleAuthLegacy.session_request]
        /\ forall k, k ∈ Browser.token_keys ->
             localStorage (GoogleAuthLegacy.checkExistingAuth net w).2 !! k
             = None).
Proof.
  intros Hurl Htok Hts Hfresh.
  unfold GoogleAuthLegacy.checkExistingAuth. run. rewrite Hurl. simpl.
  unfold GoogleAuthLegacy.checkStoredThenSession. run.
  rewrite Htok, Hts. simpl. rewrite Hfresh. simpl.
  assert (Hkept : JS.truthy (localStorage w !! "gmail_token") = false ->
                  localStorage w !! "deeptalk_token" = Some tok
                  /\ JS.present (localStorage w !! "gmail_token") = None).
  { intros Hleg. unfold JS.or in Htok.
    destruct (localStorage w !! "deeptalk_token") as [a|] eqn:Ha;
      destruct (localStorage w !! "gmail_token") as [b|] eqn:Hb;
      simpl in *;
      repeat match goal with
             | Hx : context [String.eqb ?x ""] |- _ =>
                 destruct (String.eqb_spec x ""); simpl in *
             | |- context [String.eqb ?x ""] =>
                 destruct (String.eqb_spec x ""); simpl in *
             end;
      try discriminate; split; congruence. }
  destruct (JS.truthy (localStorage w !! "gmail_token")) eqn:Hleg; run;
    frame_legacy_verify b w1 rest Hst Hu Hlog Hf;
    (destruct (Browser.accepts net (GoogleAuthLegacy.verify_token_request tok));
     [ simpl; exists rest;
       split; [rewrite Hlog, <- !app_assoc; simpl; reflexivity|];
       split; [|discriminate]; intros _; split; [exact Hf|]; rewrite Hst
     | run; frame_legacy_session b2 w2 rest2 Hst2 Hu2 Hlog2 Hf2; run;
       exists (rest ++ [RemoveItem "deeptalk_token";
                        RemoveItem "deeptalk_token_timestamp";
                        RemoveItem "gmail_token";
                        RemoveItem "gmail_token_timestamp"; SetToken None]
                 ++ Fetch GoogleAuthLegacy.session_request :: rest2
                 ++ [SetLoading false])%list;
       split; [rewrite Hlog2, Hlog, <- !app_assoc; simpl; reflexivity|];
       split; [discriminate|]; intros _;
       split; [unfold Browser.fetches in *; rewrite omap_app, Hf; simpl;
               rewrite omap_app, Hf2; reflexivity|];
       intros k Hk; rewrite Hst2; by apply purged_lookup ]).
  - split; by simplify_map_eq.
  - by apply Hkept.
Qed.

(** The same resolver when the stored token fails the age test. *)
Lemma checkExistingAuth_not_fresh (w : World) (tok ts : string) :
  JS.present (search_token w) = None ->
  JS.present
    (JS.or (localStorage w !! "deeptalk_token") (localStorage w !! "gmail_token"))
  = Some tok ->
  JS.present
    (JS.or (localStorage w !! "deeptalk_token_timestamp")
           (localStorage w !! "gmail_token_timestamp"))
  = Some ts ->
  num_lt (age_of (now w) ts) GoogleAuthLegacy.sevenDays = false ->
  (forall k, k ∈ Browser.token_keys ->
             localStorage (GoogleAuthLegacy.checkExistingAuth net w).2 !! k = None)
  /\ exists rest,
       log (GoogleAuthLegacy.checkExistingAuth net w).2
       = (log w ++ [SetLoading true; SetError None;
                   RemoveItem "deeptalk_token";
                   RemoveItem "deeptalk_token_timestamp";
                   RemoveItem "gmail_token";
                   RemoveItem "gmail_token_timestamp";
                   SetToken None;
                   Fetch GoogleAuthLegacy.session_request] ++ rest)%list
       /\ Browser.fetches rest = [].
Proof.
  intros Hurl Htok Hts Hstale.
  unfold GoogleAuthLegacy.checkExistingAuth. run. rewrite Hurl. simpl.
  unfold GoogleAuthLegacy.checkStoredThenSession. run.
  rewrite Htok, Hts. simpl. rewrite Hstale. simpl.
  frame_legacy_session b2 w2 rest2 Hst2 Hu2 Hlog2 Hf2. run.
  split.
  - intros k Hk. rewrite Hst2. by apply purged_lookup.
  - exists (rest2 ++ [SetLoading false])%list. split.
    + rewrite Hlog2, <- !app_assoc. reflexivity.
    + unfold Browser.fetches in *. by rewrite omap_app, Hf2.
Qed.

(** X4: a stored token whose timestamp [parseInt] cannot read never expires
    for [initializeAuth], which sends it for verification and leaves the
    storage alone; [checkExistingAuth] removes the four keys and only
    checks the session. *)
Theorem unreadable_timestamp_splits_the_resolvers
    (w : World) (tok ts : string) :
  JS.present (search_token w) = None ->
  localStorage w !! "deeptalk_token" = Some tok ->
  tok <> "" ->
  localStorage w !! "deeptalk_token_timestamp" = Some ts ->
  ts <> "" ->
  JS.parseInt ts = None ->
  (localStorage (GoogleAuth.initializeAuth net w).2 = localStorage w
   /\ exists rest,
        log (GoogleAuth.initializeAuth net w).2
        = (log w ++ [SetLoading true; SetError None;
                     Fetch (GoogleAuth.verify_token_request tok)] ++ rest)%list)
  /\ ((forall k, k ∈ Browser.token_keys ->
         localStorage (GoogleAuthLegacy.checkExistingAuth net w).2 !! k = None)
      /\ exists rest,
           log (GoogleAuthLegacy.checkExistingAuth net w).2
           = (log w ++ [SetLoading true; SetError None;
                       RemoveItem "deeptalk_token";
                       RemoveItem "deeptalk_token_timestamp";
                       RemoveItem "gmail_token";
                       RemoveItem "gmail_token_timestamp";
                       SetToken None;
                       Fetch GoogleAuthLegacy.session_request] ++ rest)%list
           /\ Browser.fetches rest = []).
Proof.
  intros Hurl Htok Hne Hts Hnets Hparse. split.
  - destruct (initializeAuth_unexpired w tok ts) as (Hst & rest & Hlog & _);
      try assumption.
    + unfold age_of. by rewrite Hparse.
    + split; [exact Hst | by exists rest].
  - apply (checkExistingAuth_not_fresh w tok ts); try assumption.
    + unfold JS.or. rewrite Htok. simpl.
      destruct (String.eqb_spec tok ""); [done|]. simpl.
      by destruct (String.eqb_spec tok "").
    + unfold JS.or. rewrite Hts. simpl.
      destruct (String.eqb_spec ts ""); [done|]. simpl.
      by destruct (String.eqb_spec ts "").
    + unfold age_of. by rewrite Hparse.
Qed.

(** X5: with no token in the URL, [checkExistingAuth] takes the stored
    token from the current key or else from the legacy one. A token less
    than seven days old is verified first; when a legacy token is stored,
    the pair is moved to the current keys before the request. An accepted
    token ends under the current key with no legacy token left; a rejected
    one is removed with all four keys, and the session is checked next. *)
Theorem legacy_token_is_migrated_before_verification
    (w : World) (tok ts : string) (t : Z) :
  JS.present (search_token w) = None ->
  JS.present
    (JS.or (localStorage w !! "deeptalk_token") (localStorage w !! "gmail_token"))
  = Some tok ->
  JS.present
    (JS.or (localStorage w !! "deeptalk_token_timestamp")
           (localStorage w !! "gmail_token_timestamp"))
  = Some ts ->
  JS.parseInt ts = Some t ->
  now w - t < 604800000 ->
  exists rest,
    log (GoogleAuthLegacy.checkExistingAuth net w).2
    = (log w ++ [SetLoading true; SetError None; SetToken (Some tok)]
             ++ migration_log (JS.truthy (localStorage w !! "gmail_token")) tok ts
             ++ [Fetch (GoogleAuthLegacy.verify_token_request tok)] ++ rest)%list
    /\ (Browser.accepts net (GoogleAuthLegacy.verify_token_request tok) = true ->
        Browser.fetches rest = []
        /\ localStorage (GoogleAuthLegacy.checkExistingAuth net w).2
             !! "deeptalk_token" = Some tok
        /\ JS.present
             (localStorage (GoogleAuthLegacy.checkExistingAuth net w).2
                !! "gmail_token") = None)
    /\ (Browser.accepts net (GoogleAuthLegacy.verify_token_request tok) = false ->
        Browser.fetches rest = [GoogleAuthLegacy.session_request]
        /\ forall k, k ∈ Browser.token_keys ->
             localStorage (GoogleAuthLegacy.checkExistingAuth net w).2 !! k
             = None).
Proof.
  intros Hurl Htok Hts Hparse Hage.
  apply checkExistingAuth_fresh; try assumption.
  unfold age_of. rewrite Hparse. simpl. rewrite sevenDays_value.
  apply Z.ltb_lt. lia.
Qed.

(** The resolver with [checkExistingAuth], no token in the URL and no
    timestamp in the storage. *)
Lemma checkExistingAuth_no_timestamp (w : World) :
  JS.present (search_token w) = None ->
  JS.present
    (JS.or (localStorage w !! "deeptalk_token_timestamp")
           (localStorage w !! "gmail_token_timestamp"))
  = None ->
  localStorage (GoogleAuthLegacy.checkExistingAuth net w).2 = localStorage w
  /\ exists rest,
       log (GoogleAuthLegacy.checkExistingAuth net w).2
       = (log w ++ [SetLoading true; SetError None;
                    Fetch GoogleAuthLegacy.session_request] ++ rest)%list
       /\ Browser.fetches rest = [].
Proof.
  intros Hurl Hts.
  unfold GoogleAuthLegacy.checkExistingAuth. run. rewrite Hurl. simpl.
  unfold GoogleAuthLegacy.checkStoredThenSession. run.
  rewrite Hts.
  assert (Hgoal : forall w0 : World,
            localStorage w0 = localStorage w ->
            log w0 = (log w ++ [SetLoading true; SetError None])%list ->
            localStorage
              (let '(a, w1) :=
                 let '(_, w1) := GoogleAuthLegacy.checkSessionAuth net w0 in
                 (false, w1) in
               (if a then fun w2 => (tt, w2)
                else fun w2 =>
                  (tt, {| localStorage := localStorage w2;
                          search_token := search_token w2;
                          now := now w2;
                          log := log w2 ++ [SetLoading false] |})) w1).2
            = localStorage w
            /\ exists rest,
                 log
                   (let '(a, w1) :=
                      let '(_, w1) := GoogleAuthLegacy.checkSessionAuth net w0 in
                      (false, w1) in
                    (if a then fun w2 => (tt, w2)
                     else fun w2 =>
                       (tt, {| localStorage := localStorage w2;
                               search_token := search_token w2;
                               now := now w2;
                               log := log w2 ++ [SetLoading false] |})) w1).2
                 = (log w ++ [SetLoading true; SetError None;
                              Fetch GoogleAuthLegacy.session_request] ++ rest)%list
                 /\ Browser.fetches rest = []).
  { intros w0 Hst0 Hlog0.
    frame_legacy_session b2 w2 rest2 Hst2 Hu2 Hlog2 Hf2. simpl.
    split; [by rewrite Hst2|].
    exists (rest2 ++ [SetLoading false])%list. split.
    - rewrite Hlog2, Hlog0, <- !app_assoc. reflexivity.
    - unfold Browser.fetches in *. by rewrite omap_app, Hf2. }
  destruct (JS.present
              (JS.or (localStorage w !! "deeptalk_token")
                     (localStorage w !! "gmail_token")));
    apply Hgoal; simpl; rewrite <- ?app_assoc; reflexivity.
Qed.

(** X6: when neither timestamp key holds a value, [checkExistingAuth]
    without a token in the URL leaves the storage as it is, a stored token
    included, and its only request is the session check. *)
Theorem legacy_resolver_keeps_token_without_timestamp (w : World) :
  JS.present (search_token w) = None ->
  JS.present
    (JS.or (localStorage w !! "deeptalk_token_timestamp")
           (localStorage w !! "gmail_token_timestamp"))
  = None ->
  localStorage (GoogleAuthLegacy.checkExistingAuth net w).2 = localStorage w
  /\ exists rest,
       log (GoogleAuthLegacy.checkExistingAuth net w).2
       = (log w ++ [SetLoading true; SetError None;
                    Fetch GoogleAuthLegacy.session_request] ++ rest)%list
       /\ Browser.fetches rest = [].
Proof. apply checkExistingAuth_no_timestamp. Qed.

(** Splits an assumption of membership in a list written with [::] and
    [++] into its cases. *)
Ltac split_elem Hin :=
  repeat first [ rewrite elem_of_cons in Hin
               | rewrite elem_of_app in Hin
               | rewrite elem_of_nil in Hin ];
  repeat match type of Hin with
         | _ \/ _ => destruct Hin as [Hin | Hin]
         end;
  try contradiction.

(** One verification request of [initializeAuth]: its frame, and the two
    answers. *)
Ltac verify_step rest Hlog Herr Hacc :=
  let b := fresh "b" in
  let w1 := fresh "w" in
  let Hst := fresh "Hst" in
  let Hu := fresh "Hu" in
  let Hf := fresh "Hf" in
  let Hrej := fresh "Hrej" in
  frame_verify b w1 rest Hst Hu Hlog Hf Herr Hrej;
  match goal with
  | |- context [if Browser.accepts net ?r then _ else _] =>
      destruct (Browser.accepts net r) eqn:Hacc
  end;
  [| rewrite (Hrej eq_refl) in Hlog ];
  simpl.

(** X7: [initializeAuth] shows an error message in one case only, after a
    token from the URL was rejected; the message is then the fixed text of
    [processNewToken]. Whatever the storage holds and whatever the server
    answers to a stored token or to the session check, the error stays
    empty. *)
Theorem error_only_after_rejected_url_token (w : World) :
  exists rest,
    log (GoogleAuth.initializeAuth net w).2 = (log w ++ rest)%list
    /\ forall m,
         SetError (Some m) ∈ rest
         <-> m = "Failed to process authentication token. Please try again."
             /\ exists t,
                  JS.present (search_token w) = Some t
                  /\ Browser.accepts net (GoogleAuth.verify_token_request t)
                     = false.
Proof.
  unfold GoogleAuth.initializeAuth. run.
  destruct (JS.present (search_token w)) as [t|] eqn:Hurl.
  - unfold GoogleAuth.processNewToken. run.
    unfold GoogleAuth.verifyTokenAuth.
    verify_step rest Hlog Herr Hacc.
    + eexists. split; [rewrite Hlog, <- !app_assoc; simpl; reflexivity|].
      intros m. split.
      * intros Hin. split_elem Hin; try discriminate Hin.
        exfalso. by eapply Herr.
      * intros (_ & t' & [= <-] & Hrej'). congruence.
    + rewrite ?cleanupStoredTokens_run. run.
      eexists. split; [rewrite Hlog, <- !app_assoc; simpl; reflexivity|].
      intros m. split.
      * intros Hin. split_elem Hin; try discriminate Hin.
        injection Hin as ->. split; [reflexivity | by exists t].
      * intros (-> & _). repeat constructor.
  - assert (Hno : forall rest0 : list Effect,
              (forall m, SetError (Some m) ∉ rest0) ->
              forall m,
                SetError (Some m) ∈ rest0
                <-> m = "Failed to process authentication token. Please try again."
                    /\ exists t,
                         (None : option string) = Some t
                         /\ Browser.accepts net (GoogleAuth.verify_token_request t)
                            = false).
    { intros rest0 Hrest0 m. split; [intros Hin; by apply Hrest0 in Hin|].
      by intros (_ & t & [=] & _). }
    rewrite getValidStoredToken_run. simpl.
    unfold GoogleAuth.verifyTokenAuth, GoogleAuth.verifySessionAuth.
    destruct (JS.present (localStorage w !! "deeptalk_token")) as [tok|];
      [destruct (JS.present (localStorage w !! "deeptalk_token_timestamp"))
         as [ts|];
       [destruct (num_ge (age_of (now w) ts) GoogleAuth.maxAge)|]|];
      rewrite ?cleanupStoredTokens_run; simpl.
    2: { destruct (String.eqb_spec tok ""); simpl.
         - verify_step rest2 Hlog2 Herr2 Hacc2;
             (eexists; split;
              [rewrite Hlog2, <- !app_assoc; simpl; reflexivity|]);
             apply Hno; intros m Hin; split_elem Hin; try discriminate Hin;
             by eapply Herr2.
         - verify_step rest1 Hlog1 Herr1 Hacc1.
           + eexists. split; [rewrite Hlog1, <- !app_assoc; simpl; reflexivity|].
             apply Hno. intros m Hin. split_elem Hin; try discriminate Hin.
             by eapply Herr1.
           + verify_step rest2 Hlog2 Herr2 Hacc2;
               (eexists; split;
                [rewrite Hlog2, Hlog1, <- !app_assoc; simpl; reflexivity|]);
               apply Hno; intros m Hin; split_elem Hin; try discriminate Hin;
               by eapply Herr2. }
    all: verify_step rest2 Hlog2 Herr2 Hacc2;
      (eexists; split; [rewrite Hlog2, <- !app_assoc; simpl; reflexivity|]);
      apply Hno; intros m Hin; split_elem Hin; try discriminate Hin;
      by eapply Herr2.
Qed.

(** X8: a token in the URL is taken out of the address by [initializeAuth]
    before the verification, whatever its outcome; [checkExistingAuth]
    takes it out only after a successful verification, so that a rejected
    token is still in the address when the run ends. *)
Theorem url_token_is_dropped_from_the_address (w : World) (t : string) :
  search_token w = Some t ->
  t <> "" ->
  search_token (GoogleAuth.initializeAuth net w).2 = None
  /\ search_token (GoogleAuthLegacy.checkExistingAuth net w).2
     = (if Browser.accepts net (GoogleAuthLegacy.verify_token_request t)
        then None else Some t).
Proof.
  intros Hurl Hne. split.
  - unfold GoogleAuth.initializeAuth. run.
    rewrite Hurl, (present_nonempty t Hne).
    unfold GoogleAuth.processNewToken. run.
    unfold GoogleAuth.verifyTokenAuth.
    verify_step rest Hlog Herr Hacc; [assumption|].
    rewrite ?cleanupStoredTokens_run. run. assumption.
  - unfold GoogleAuthLegacy.checkExistingAuth. run.
    rewrite Hurl, (present_nonempty t Hne). run.
    frame_legacy_verify b w1 rest Hst Hu Hlog Hf.
    destruct (Browser.accepts net (GoogleAuthLegacy.verify_token_request t));
      [reflexivity|].
    run. unfold GoogleAuthLegacy.checkStoredThenSession. run.
    rewrite !purged_lookup by (repeat constructor). simpl.
    frame_legacy_session b2 w2 rest2 Hst2 Hu2 Hlog2 Hf2. simpl.
    by rewrite Hu2, Hu.
Qed.

(** The world after either [handleSignOut] of [GoogleAuth]: no token key
    is left and the address is as before. *)
Lemma handleSignOut_world (w : World) :
  (forall k, k ∈ Browser.token_keys ->
     localStorage (GoogleAuth.handleSignOut net w).2 !! k = None)
  /\ search_token (GoogleAuth.handleSignOut net w).2 = search_token w
  /\ (forall k, k ∈ Browser.token_keys ->
        localStorage (GoogleAuthLegacy.handleSignOut net w).2 !! k = None)
  /\ search_token (GoogleAuthLegacy.handleSignOut net w).2 = search_token w.
Proof.
  unfold GoogleAuth.handleSignOut, GoogleAuthLegacy.handleSignOut. run.
  repeat split; intros k Hk; by apply purged_lookup.
Qed.

(** X9: the page load that follows [handleSignOut] of [GoogleAuth] finds
    no token and asks the server about the session only, in either
    variant of the component. *)
Theorem reload_after_sign_out_checks_session_only (w : World) :
  JS.present (search_token w) = None ->
  (exists rest,
     log (GoogleAuth.initializeAuth net (GoogleAuth.handleSignOut net w).2).2
     = (log (GoogleAuth.handleSignOut net w).2 ++ rest)%list
     /\ Browser.fetches rest = [GoogleAuth.verify_session_request])
  /\ (exists rest,
        log (GoogleAuthLegacy.checkExistingAuth net
               (GoogleAuthLegacy.handleSignOut net w).2).2
        = (log (GoogleAuthLegacy.handleSignOut net w).2 ++ rest)%list
        /\ Browser.fetches rest = [GoogleAuthLegacy.session_request]).
Proof.
  intros Hurl.
  destruct (handleSignOut_world w) as (Hk2 & Hu2 & Hk1 & Hu1).
  split.
  - remember (GoogleAuth.handleSignOut net w).2 as w' eqn:Hw'. clear Hw'.
    unfold GoogleAuth.initializeAuth. run. rewrite Hu2, Hurl.
    rewrite getValidStoredToken_run. simpl.
    rewrite (Hk2 "deeptalk_token") by (repeat constructor). simpl.
    rewrite ?cleanupStoredTokens_run. simpl.
    unfold GoogleAuth.verifySessionAuth.
    verify_step rest Hlog Herr Hacc;
      (eexists; split; [rewrite Hlog, <- !app_assoc; simpl; reflexivity|]);
      unfold Browser.fetches in *; simpl; [f_equal; exact Hf | reflexivity].
  - remember (GoogleAuthLegacy.handleSignOut net w).2 as w' eqn:Hw'. clear Hw'.
    destruct (checkExistingAuth_no_timestamp w') as (_ & rest & Hlog & Hf).
    + by rewrite Hu1.
    + by rewrite !Hk1 by (repeat constructor).
    + eexists. split; [exact Hlog|].
      unfold Browser.fetches in *. simpl. f_equal. exact Hf.
Qed.

(** X10: a token under the legacy keys outlives [authAPI.signOut] and the
    page's [handleSignOut]: at the next page load [checkExistingAuth] moves
    it to the current keys and sends it for verification, and an accepted
    token is stored under the current key again. *)
Theorem legacy_token_survives_sign_out
    (w w' : World) (tok ts : string) (t : Z) :
  JS.present (search_token w) = None ->
  localStorage w !! "gmail_token" = Some tok ->
  tok <> "" ->
  localStorage w !! "gmail_token_timestamp" = Some ts ->
  JS.parseInt ts = Some t ->
  now w - t < 604800000 ->
  w' = (TaskAPI.signOut net w).2 \/ w' = (Index.handleSignOut w).2 ->
  exists rest,
    log (GoogleAuthLegacy.checkExistingAuth net w').2
    = (log w' ++ [SetLoading true; SetError None; SetToken (Some tok);
                  SetItem "deeptalk_token" tok;
                  SetItem "deeptalk_token_timestamp" ts;
                  RemoveItem "gmail_token";
                  RemoveItem "gmail_token_timestamp";
                  Fetch (GoogleAuthLegacy.verify_token_request tok)]
              ++ rest)%list
    /\ (Browser.accepts net (GoogleAuthLegacy.verify_token_request tok) = true ->
        localStorage (GoogleAuthLegacy.checkExistingAuth net w').2
          !! "deeptalk_token" = Some tok).
Proof.
  intros Hurl Htok Hne Hts Hparse Hage Hw'.
  assert (Hnets : ts <> "") by (eapply parseInt_nonempty; eauto).
  assert (Hworld : search_token w' = search_token w /\ now w' = now w
                   /\ forall k, localStorage w' !! k
                        = (if bool_decide
                                (k ∈ ["deeptalk_token"; "deeptalk_token_timestamp"])
                           then None else localStorage w !! k)).
  { destruct Hw' as [-> | ->].
    - split; [reflexivity|]. split; [reflexivity|].
      intros k. apply signOut_clears_current_keys_only.
    - split; [reflexivity|]. split; [reflexivity|].
      intros k. apply (signOut_clears_current_keys_only net). }
  destruct Hworld as (Hu & Hnow & Hls).
  destruct (checkExistingAuth_fresh w' tok ts) as (rest & Hlog & Hacc & _).
  - by rewrite Hu.
  - rewrite !Hls. simpl. rewrite Htok. unfold JS.or. simpl.
    apply (present_nonempty tok Hne).
  - rewrite !Hls. simpl. rewrite Hts. unfold JS.or. simpl.
    apply (present_nonempty ts Hnets).
  - rewrite Hnow. unfold age_of. rewrite Hparse. simpl.
    rewrite sevenDays_value. apply Z.ltb_lt. lia.
  - rewrite Hls in Hlog. simpl in Hlog. rewrite Htok in Hlog. simpl in Hlog.
    destruct (String.eqb_spec tok ""); [done|]. simpl in Hlog.
    exists rest. split; [exact Hlog|]. intros Ha. by apply Hacc.
Qed.

(** [authAPI.verifyToken] by the token under the current key. *)
Lemma authAPI_verifyToken_run (w : World) :
  (JS.present (localStorage w !! "deeptalk_token") = None ->
   AuthAPI.verifyToken net w = (None, w))
  /\ (forall t,
        JS.present (localStorage w !! "deeptalk_token") = Some t ->
        localStorage (AuthAPI.verifyToken net w).2 = localStorage w
        /\ log (AuthAPI.verifyToken net w).2
           = (log w ++ [Fetch {| url := TaskAPI.API_BASE_URL ++ "/auth/verify-token/";
                                 bearer := Some t; body_token := Some t |}])%list).
Proof.
  unfold AuthAPI.verifyToken. run. split.
  - intros ->. by destruct w.
  - intros t ->. run.
    by destruct (net _) as [|[] [data|]].
Qed.

(** X11: [authAPI.verifyToken] reads the current key only. After any of
    the four sign-out functions it answers [false] without a request and
    without touching anything, also when a legacy token is still stored;
    after [initializeAuth] has accepted a token from the URL it sends that
    token, as bearer and in the body, and leaves the storage alone. *)
Theorem verifyToken_follows_the_current_key (w : World) :
  (forall w',
     w' ∈ [(GoogleAuth.handleSignOut net w).2;
           (GoogleAuthLegacy.handleSignOut net w).2;
           (TaskAPI.signOut net w).2;
           (Index.handleSignOut w).2] ->
     AuthAPI.verifyToken net w' = (None, w'))
  /\ (forall t,
        search_token w = Some t ->
        t <> "" ->
        Browser.accepts net (GoogleAuth.verify_token_request t) = true ->
        localStorage (AuthAPI.verifyToken net (GoogleAuth.initializeAuth net w).2).2
        = localStorage (GoogleAuth.initializeAuth net w).2
        /\ log (AuthAPI.verifyToken net (GoogleAuth.initializeAuth net w).2).2
           = (log (GoogleAuth.initializeAuth net w).2
              ++ [Fetch {| url := TaskAPI.API_BASE_URL ++ "/auth/verify-token/";
                           bearer := Some t; body_token := Some t |}])%list).
Proof.
  split.
  - intros w' Hw'. apply authAPI_verifyToken_run.
    destruct (handleSignOut_world w) as (Hk2 & _ & Hk1 & _).
    rewrite !elem_of_cons, elem_of_nil in Hw'.
    destruct Hw' as [-> | [-> | [-> | [-> | []]]]].
    + by rewrite Hk2 by (repeat constructor).
    + by rewrite Hk1 by (repeat constructor).
    + by rewrite (proj1 (signOut_clears_current_keys_only net w _)).
    + by rewrite (proj2 (signOut_clears_current_keys_only net w _)).
  - intros t Hurl Hne Hacc.
    destruct (initializeAuth_url_token net w t Hurl Hne)
      as (rest & _ & _ & Hstored & _).
    destruct (Hstored Hacc) as (Htok & _).
    apply authAPI_verifyToken_run.
    by rewrite Htok, (present_nonempty t Hne).
Qed.

End MoreAuthProperties.

(** * Further properties of the adapter and of the hook *)

Section MoreAdapterProperties.
Context `{Platform}.

(** The display table outside the priorities 1 to 5, and the status table
    outside the five backend statuses. *)
Lemma priorityMap_lookup (n : Z) :
  CalendarApi.priorityMap !! n
  = (if decide (n = 1) then Some "urgent"
     else if decide (n = 2) then Some "high"
     else if decide (n = 3) then Some "medium"
     else if decide (n = 4) then Some "medium"
     else if decide (n = 5) then Some "low"
     else None).
Proof.
  unfold CalendarApi.priorityMap.
  repeat (case_decide; [subst; reflexivity|]).
  rewrite !lookup_insert_ne by congruence. by rewrite lookup_singleton_ne.
Qed.

Lemma statusMap_lookup (s : string) :
  CalendarApi.statusMap !! s
  = (if decide (s = "pending") then Some "not_started"
     else if decide (s ∈ BackendTask.statuses) then Some s
     else None).
Proof.
  unfold CalendarApi.statusMap, BackendTask.statuses.
  case_decide as Hp; [subst; reflexivity|].
  case_decide as Hs.
  - rewrite !elem_of_cons, elem_of_nil in Hs.
    destruct Hs as [-> | [-> | [-> | [-> | [-> | []]]]]];
      first [congruence | reflexivity].
  - rewrite !elem_of_cons, elem_of_nil in Hs.
    rewrite !lookup_insert_ne by (intros <-; apply Hs; auto 10).
    rewrite lookup_singleton_ne; [reflexivity|]. intros <-; apply Hs; auto 10.
Qed.

(** X12: what is left of a backend task after it went through the read
    direction and back through the write direction, as when an event is
    edited: name, description, tags and location stay, a duration of zero
    is dropped, the category is dropped, the urgency is replaced by the
    priority, and the priority stays only if it is 1, 2, 3 or 5; every
    other priority comes back as 3. *)
Theorem edit_round_trip_fields
    (task : BackendTask.t) (ev : CalendarEvent.t) (req : CreateTaskRequest.t) :
  CalendarApi.transformBackendTaskToCalendarEvent task = Some ev ->
  CalendarApi.transformCalendarEventToBackendTask
    (PartialCalendarEvent.of_event ev) = Some req ->
  CreateTaskRequest.name req = BackendTask.name task
  /\ CreateTaskRequest.description req = Some (BackendTask.description task)
  /\ CreateTaskRequest.tags req = Some (BackendTask.tags task)
  /\ CreateTaskRequest.location req = Some (BackendTask.location task)
  /\ CreateTaskRequest.duration_minutes req
     = (if JS.truthy_num (BackendTask.duration_minutes task)
        then BackendTask.duration_minutes task else None)
  /\ CreateTaskRequest.category req = None
  /\ CreateTaskRequest.urgency req = CreateTaskRequest.priority req
  /\ CreateTaskRequest.priority req
     = Some (if decide (BackendTask.priority task ∈ [1; 2; 3; 5])
             then BackendTask.priority task else 3).
Proof.
  unfold CalendarApi.transformBackendTaskToCalendarEvent.
  intros Hev Hreq. apply bind_Some in Hev as (tm & _ & Hev).
  injection Hev as <-.
  unfold CalendarApi.transformCalendarEventToBackendTask in Hreq.
  apply bind_Some in Hreq as ([sp dl] & _ & Hreq).
  injection Hreq as <-. cbn.
  assert (Hor : forall s : string, (if String.eqb s "" then "" else s) = s).
  { intros s. by destruct (String.eqb_spec s ""). }
  rewrite !Hor. repeat (split; [reflexivity|]).
  rewrite priorityMap_lookup.
  generalize (BackendTask.priority task). intros n.
  destruct (decide (n = 1)) as [-> | H1]; [reflexivity|].
  destruct (decide (n = 2)) as [-> | H2]; [reflexivity|].
  destruct (decide (n = 3)) as [-> | H3]; [reflexivity|].
  destruct (decide (n = 4)) as [-> | H4]; [reflexivity|].
  destruct (decide (n = 5)) as [-> | H5]; [reflexivity|].
  case_decide as Hin; [|reflexivity].
  rewrite !elem_of_cons, elem_of_nil in Hin. intuition congruence.
Qed.

(** X13: the request written for an event that came from the backend
    always carries a deadline: the task's own deadline when it has one,
    and otherwise the date under which the task is displayed, so that
    editing a task without deadline gives it one. *)
Theorem edit_round_trip_sets_a_deadline
    (task : BackendTask.t) (ev : CalendarEvent.t) (req : CreateTaskRequest.t) :
  CalendarApi.transformBackendTaskToCalendarEvent task = Some ev ->
  CalendarApi.transformCalendarEventToBackendTask
    (PartialCalendarEvent.of_event ev) = Some req ->
  is_Some (CreateTaskRequest.deadline req)
  /\ CreateTaskRequest.deadline req
     = Date_toISOString
         (match JS.present (BackendTask.deadline task) with
          | Some d => Date_parse d
          | None => CalendarApi.displayDate task
          end).
Proof.
  unfold CalendarApi.transformBackendTaskToCalendarEvent.
  intros Hev Hreq. apply bind_Some in Hev as (tm & _ & Hev).
  injection Hev as <-.
  unfold CalendarApi.transformCalendarEventToBackendTask in Hreq.
  apply bind_Some in Hreq as ([sp dl] & Ht & Hreq).
  injection Hreq as <-. cbn in *.
  apply bind_Some in Ht as (x & _ & Ht).
  apply bind_Some in Ht as (y & Hy & Ht). injection Ht as _ <-.
  split; [eauto|].
  destruct (JS.present (BackendTask.deadline task)); cbn in Hy; by rewrite Hy.
Qed.

End MoreAdapterProperties.

Section HookProperties.
Context `{Platform}.
Variable api : Api.
Variable thrown : string.

(** The write direction throws on a time of day without a colon. *)
Lemma transformCalendarEvent_time_without_colon
    (event : PartialCalendarEvent.t) (d : Date) (tm : string) :
  PartialCalendarEvent.date event = Some d ->
  JS.present (PartialCalendarEvent.time event) = Some tm ->
  JSString.has_char ":" tm = false ->
  CalendarApi.transformCalendarEventToBackendTask event = None.
Proof.
  intros Hd Ht Hno.
  unfold CalendarApi.transformCalendarEventToBackendTask.
  rewrite Hd, Ht. unfold CalendarApi.specificDateTime, JS.split.
  rewrite (split_go_no_sep ":" tm "" Hno).
  change ("" ++ tm) with tm. simpl.
  unfold Date_setHours. destruct d; [destruct (JS.parseInt tm)|]; reflexivity.
Qed.

(** X14: an event with a date whose time of day has no colon cannot be
    written: the write direction throws when it serialises the time, and
    [addEvent] and [updateEvent] then return [null], report the error and
    leave the events as they are without calling the API. *)
Theorem event_time_without_colon_is_never_sent
    (event : PartialCalendarEvent.t) (d : Date) (tm eventId : string)
    (st : UseCalendarEvents.State) :
  PartialCalendarEvent.date event = Some d ->
  JS.present (PartialCalendarEvent.time event) = Some tm ->
  JSString.has_char ":" tm = false ->
  CalendarApi.transformCalendarEventToBackendTask event = None
  /\ UseCalendarEvents.addEvent api thrown event st
     = (None, {| UseCalendarEvents.events := UseCalendarEvents.events st;
                 UseCalendarEvents.loading := false;
                 UseCalendarEvents.error := Some thrown;
                 UseCalendarEvents.calls := UseCalendarEvents.calls st |})
  /\ UseCalendarEvents.updateEvent api thrown eventId event st
     = UseCalendarEvents.addEvent api thrown event st.
Proof.
  intros Hd Ht Hno.
  pose proof (transformCalendarEvent_time_without_colon event d tm Hd Ht Hno)
    as Hthrow.
  unfold UseCalendarEvents.addEvent, UseCalendarEvents.updateEvent.
  rewrite Hthrow. auto.
Qed.

(** X15: [fetchEvents] is all or nothing. When no task of the answer has
    a specific time, the events are replaced by the adapted tasks, one for
    one and in order; a single task that has a specific time makes the
    hook keep the events it had and report the [ReferenceError] of the
    unbound [format]. *)
Theorem fetchEvents_all_or_nothing
    (status : option string) (tasks : list BackendTask.t)
    (st : UseCalendarEvents.State) :
  getTasks api status = Resolved tasks ->
  ((forall task,
      task ∈ tasks -> JS.present (BackendTask.specific_time task) = None) ->
   UseCalendarEvents.error (UseCalendarEvents.fetchEvents api status st)
   = None
   /\ Forall2
        (fun task event =>
           CalendarApi.transformBackendTaskToCalendarEvent task = Some event)
        tasks
        (UseCalendarEvents.events
           (UseCalendarEvents.fetchEvents api status st)))
  /\ (forall task s,
        task ∈ tasks ->
        JS.present (BackendTask.specific_time task) = Some s ->
        UseCalendarEvents.events
          (UseCalendarEvents.fetchEvents api status st)
        = UseCalendarEvents.events st
        /\ UseCalendarEvents.error
             (UseCalendarEvents.fetchEvents api status st)
           = Some (ReferenceError_message "format")).
Proof.
  intros Hget. unfold UseCalendarEvents.fetchEvents. rewrite Hget. split.
  - intros Hvalid.
    destruct (mapM CalendarApi.transformBackendTaskToCalendarEvent tasks)
      as [evs|] eqn:Hm.
    + simpl. split; [reflexivity | by apply mapM_Some].
    + apply mapM_None, Exists_exists in Hm as (task & Hin & Hnone).
      apply transformBackendTask_throws in Hnone.
      by destruct Hnone; apply Hvalid.
  - intros task s Hin Hs.
    assert (Hm : mapM CalendarApi.transformBackendTaskToCalendarEvent tasks
                 = None).
    { apply mapM_None, Exists_exists. exists task. split; [exact Hin|].
      apply transformBackendTask_throws. by rewrite Hs. }
    rewrite Hm. auto.
Qed.

(** X16: every event that an operation of the hook puts into the list was
    returned by the read direction of the adapter: the property is kept by
    [fetchEvents], [addEvent], [updateEvent], [deleteEvent] and
    [markTaskCompleted], whatever the API answers. *)
Theorem hook_events_come_from_the_backend (st : UseCalendarEvents.State) :
  Forall UseCalendarEvents.from_backend (UseCalendarEvents.events st) ->
  (forall status,
     Forall UseCalendarEvents.from_backend
       (UseCalendarEvents.events
          (UseCalendarEvents.fetchEvents api status st)))
  /\ (forall event,
        Forall UseCalendarEvents.from_backend
          (UseCalendarEvents.events
             (UseCalendarEvents.addEvent api thrown event st).2))
  /\ (forall eventId updates,
        Forall UseCalendarEvents.from_backend
          (UseCalendarEvents.events
             (UseCalendarEvents.updateEvent api thrown eventId updates st).2))
  /\ (forall eventId,
        Forall UseCalendarEvents.from_backend
          (UseCalendarEvents.events
             (UseCalendarEvents.deleteEvent api eventId st).2))
  /\ (forall eventId,
        Forall UseCalendarEvents.from_backend
          (UseCalendarEvents.events
             (UseCalendarEvents.markTaskCompleted api eventId st).2)).
Proof.
  intros Hinv.
  assert (Hreplace : forall eventId task updated,
            CalendarApi.transformBackendTaskToCalendarEvent task = Some updated ->
            Forall UseCalendarEvents.from_backend
              (UseCalendarEvents.replace_by_id eventId updated
                 (UseCalendarEvents.events st))).
  { intros eventId task updated Hup. unfold UseCalendarEvents.replace_by_id.
    apply Forall_fmap. eapply Forall_impl; [exact Hinv|].
    intros e He. simpl.
    destruct (String.eqb (CalendarEvent.id e) eventId); [by exists task | exact He]. }
  split; [|split; [|split; [|split]]].
  - intros status. unfold UseCalendarEvents.fetchEvents.
    destruct (getTasks api status) as [m | tasks]; [exact Hinv|].
    destruct (mapM CalendarApi.transformBackendTaskToCalendarEvent tasks)
      as [evs|] eqn:Hm; [|exact Hinv].
    simpl. apply mapM_Some in Hm.
    induction Hm as [|task e tasks evs He _ IH]; constructor;
      [by exists task | exact IH].
  - intros event. unfold UseCalendarEvents.addEvent.
    destruct (CalendarApi.transformCalendarEventToBackendTask event)
      as [taskData|]; [|exact Hinv].
    destruct (createTask api taskData) as [m | task]; [exact Hinv|].
    destruct (CalendarApi.transformBackendTaskToCalendarEvent task)
      as [e|] eqn:He; [|exact Hinv].
    simpl. apply Forall_app. split; [exact Hinv|].
    constructor; [by exists task | constructor].
  - intros eventId updates. unfold UseCalendarEvents.updateEvent.
    destruct (CalendarApi.transformCalendarEventToBackendTask updates)
      as [taskData|]; [|exact Hinv].
    destruct (updateTask api eventId taskData) as [m | task]; [exact Hinv|].
    destruct (CalendarApi.transformBackendTaskToCalendarEvent task)
      as [e|] eqn:He; [|exact Hinv].
    simpl. by apply (Hreplace eventId task).
  - intros eventId. unfold UseCalendarEvents.deleteEvent.
    destruct (deleteTask api eventId) as [m | []]; [exact Hinv|].
    simpl. apply Forall_forall. intros e He.
    apply list_elem_of_filter in He as [_ He].
    revert e He. by apply Forall_forall.
  - intros eventId. unfold UseCalendarEvents.markTaskCompleted.
    destruct (toggleTaskStatus api eventId) as [m | task]; [exact Hinv|].
    destruct (CalendarApi.transformBackendTaskToCalendarEvent task)
      as [e|] eqn:He; [|exact Hinv].
    simpl. by apply (Hreplace eventId task).
Qed.

(** X17: the events that come from the backend are all of type "task", so
    that [filterByType] with "task" keeps the whole list. Their priority is
    one of the four display priorities, also for a backend priority outside
    1 to 5; their status is one of the five display statuses, also for a
    backend status outside the table, as long as that status is not a
    property name of [Object.prototype]; and the [completed] flag is set
    exactly on the events whose status is "completed". *)
Theorem backend_events_are_tasks (events : list CalendarEvent.t) :
  Forall UseCalendarEvents.from_backend events ->
  CalendarUtils.filterByType events "task" = events
  /\ forall event,
       event ∈ events ->
       (exists p, CalendarEvent.priority event = Some p
                  /\ p ∈ ["urgent"; "high"; "medium"; "low"])
       /\ (forall task,
             CalendarApi.transformBackendTaskToCalendarEvent task = Some event ->
             BackendTask.status task ∉ JS.object_prototype_keys ->
             exists s, CalendarEvent.status event = Some s
                       /\ s ∈ ["not_started"; "in_progress"; "completed";
                               "cancelled"; "on_hold"])
       /\ (CalendarEvent.completed event = Some true
           <-> CalendarEvent.status event = Some "completed").
Proof.
  intros Hall. split.
  - unfold CalendarUtils.filterByType.
    induction Hall as [|e l (task & He) _ IH]; [reflexivity|].
    rewrite filter_cons_True, IH; [reflexivity|].
    unfold CalendarApi.transformBackendTaskToCalendarEvent in He.
    apply bind_Some in He as (tm & _ & He). by injection He as <-.
  - intros event Hin.
    apply (proj1 (Forall_forall _ _) Hall) in Hin as (task & He).
    split; [|split].
    + unfold CalendarApi.transformBackendTaskToCalendarEvent in He.
      apply bind_Some in He as (tm & _ & He). injection He as <-. cbn.
      rewrite priorityMap_lookup.
      eexists. split; [reflexivity|].
      repeat (case_decide; [simpl; repeat constructor|]).
      simpl. repeat constructor.
    + clear task He. intros task He _.
      unfold CalendarApi.transformBackendTaskToCalendarEvent in He.
      apply bind_Some in He as (tm & _ & He). injection He as <-. cbn.
      rewrite statusMap_lookup.
      eexists. split; [reflexivity|].
      case_decide as Hp; [simpl; repeat constructor|].
      case_decide as Hs; [|simpl; repeat constructor].
      unfold BackendTask.statuses in Hs.
      rewrite !elem_of_cons, elem_of_nil in Hs.
      destruct Hs as [Hs | [Hs | [Hs | [Hs | [Hs | []]]]]]; rewrite Hs in *;
        first [congruence | simpl; repeat constructor].
    + unfold CalendarApi.transformBackendTaskToCalendarEvent in He.
      apply bind_Some in He as (tm & _ & He). injection He as <-. cbn.
      rewrite statusMap_lookup.
      destruct (String.eqb_spec (BackendTask.status task) "completed") as [-> | Hne].
      * split; reflexivity.
      * split; [discriminate|]. intros Hst. exfalso.
        case_decide as Hp; [discriminate|].
        case_decide as Hs; [|discriminate].
        simpl in Hst.
        destruct (String.eqb_spec (BackendTask.status task) "");
          [discriminate | congruence].
Qed.

(** X18: an event that came from a backend task is overdue for
    [getOverdueTasks] exactly when the task has a deadline before today and
    its status is not "completed"; a task without deadline is never
    overdue. *)
Theorem overdue_follows_the_backend_task
    (task : BackendTask.t) (event : CalendarEvent.t) (today : Z) :
  CalendarApi.transformBackendTaskToCalendarEvent task = Some event ->
  CalendarUtils.overdue today event
  = match JS.present (BackendTask.deadline task) with
    | Some d =>
        Date_lt (Date_parse d) (ValidDate today)
        && negb (String.eqb (BackendTask.status task) "completed")
    | None => false
    end.
Proof.
  intros He.
  unfold CalendarApi.transformBackendTaskToCalendarEvent in He.
  apply bind_Some in He as (tm & _ & He). injection He as <-.
  unfold CalendarUtils.overdue. cbn.
  destruct (JS.present (BackendTask.deadline task)) as [d|]; [|reflexivity].
  cbn. f_equal. f_equal. rewrite statusMap_lookup.
  destruct (String.eqb_spec (BackendTask.status task) "completed") as [-> | Hne].
  - reflexivity.
  - apply bool_decide_eq_false. intros Hst.
    case_decide as Hp; [discriminate|].
    case_decide as Hs; [|discriminate].
    simpl in Hst.
    destruct (String.eqb_spec (BackendTask.status task) "");
      [discriminate | congruence].
Qed.

(** X19: an operation of the hook that fails leaves the events as they
    were. [addEvent], [updateEvent], [deleteEvent] and [fetchEvents] then
    report an error; [markTaskCompleted] fails silently, with the error and
    the loading flag untouched. *)
Theorem failed_operation_keeps_the_events (st : UseCalendarEvents.State) :
  (forall event,
     (UseCalendarEvents.addEvent api thrown event st).1 = None ->
     UseCalendarEvents.events (UseCalendarEvents.addEvent api thrown event st).2
     = UseCalendarEvents.events st
     /\ is_Some (UseCalendarEvents.error
                   (UseCalendarEvents.addEvent api thrown event st).2))
  /\ (forall eventId updates,
        (UseCalendarEvents.updateEvent api thrown eventId updates st).1 = None ->
        UseCalendarEvents.events
          (UseCalendarEvents.updateEvent api thrown eventId updates st).2
        = UseCalendarEvents.events st
        /\ is_Some (UseCalendarEvents.error
                      (UseCalendarEvents.updateEvent api thrown eventId updates st).2))
  /\ (forall eventId,
        (UseCalendarEvents.deleteEvent api eventId st).1 = false ->
        UseCalendarEvents.events (UseCalendarEvents.deleteEvent api eventId st).2
        = UseCalendarEvents.events st
        /\ is_Some (UseCalendarEvents.error
                      (UseCalendarEvents.deleteEvent api eventId st).2))
  /\ (forall status,
        is_Some (UseCalendarEvents.error
                   (UseCalendarEvents.fetchEvents api status st)) ->
        UseCalendarEvents.events (UseCalendarEvents.fetchEvents api status st)
        = UseCalendarEvents.events st)
  /\ (forall eventId,
        (UseCalendarEvents.markTaskCompleted api eventId st).1 = false ->
        UseCalendarEvents.events
          (UseCalendarEvents.markTaskCompleted api eventId st).2
        = UseCalendarEvents.events st
        /\ UseCalendarEvents.error
             (UseCalendarEvents.markTaskCompleted api eventId st).2
           = UseCalendarEvents.error st
        /\ UseCalendarEvents.loading
             (UseCalendarEvents.markTaskCompleted api eventId st).2
           = UseCalendarEvents.loading st).
Proof.
  split; [|split; [|split; [|split]]].
  - intros event. unfold UseCalendarEvents.addEvent.
    destruct (CalendarApi.transformCalendarEventToBackendTask event)
      as [taskData|]; [|simpl; eauto].
    destruct (createTask api taskData) as [m | task]; [simpl; eauto|].
    destruct (CalendarApi.transformBackendTaskToCalendarEvent task);
      [discriminate | simpl; eauto].
  - intros eventId updates. unfold UseCalendarEvents.updateEvent.
    destruct (CalendarApi.transformCalendarEventToBackendTask updates)
      as [taskData|]; [|simpl; eauto].
    destruct (updateTask api eventId taskData) as [m | task]; [simpl; eauto|].
    destruct (CalendarApi.transformBackendTaskToCalendarEvent task);
      [discriminate | simpl; eauto].
  - intros eventId. unfold UseCalendarEvents.deleteEvent.
    destruct (deleteTask api eventId) as [m | []]; [simpl; eauto | discriminate].
  - intros status. unfold UseCalendarEvents.fetchEvents.
    destruct (getTasks api status) as [m | tasks]; [reflexivity|].
    destruct (mapM CalendarApi.transformBackendTaskToCalendarEvent tasks);
      [|reflexivity].
    simpl. intros [x [=]].
  - intros eventId. unfold UseCalendarEvents.markTaskCompleted.
    destruct (toggleTaskStatus api eventId) as [m | task]; [simpl; auto|].
    destruct (CalendarApi.transformBackendTaskToCalendarEvent task);
      [discriminate | simpl; auto].
Qed.

(** X20: adding an event and then deleting it gives the list of events
    back, provided that the id which the backend gave the new task was not
    in use. *)
Theorem add_then_delete_restores_the_events
    (event : PartialCalendarEvent.t) (new : CalendarEvent.t)
    (st : UseCalendarEvents.State) :
  (UseCalendarEvents.addEvent api thrown event st).1 = Some new ->
  (forall e, e ∈ UseCalendarEvents.events st ->
             CalendarEvent.id e <> CalendarEvent.id new) ->
  (UseCalendarEvents.deleteEvent api (CalendarEvent.id new)
     (UseCalendarEvents.addEvent api thrown event st).2).1 = true ->
  UseCalendarEvents.events
    (UseCalendarEvents.deleteEvent api (CalendarEvent.id new)
       (UseCalendarEvents.addEvent api thrown event st).2).2
  = UseCalendarEvents.events st.
Proof.
  unfold UseCalendarEvents.addEvent.
  destruct (CalendarApi.transformCalendarEventToBackendTask event)
    as [taskData|]; [|discriminate].
  destruct (createTask api taskData) as [m | task]; [discriminate|].
  destruct (CalendarApi.transformBackendTaskToCalendarEvent task) as [e|];
    [|discriminate].
  simpl. intros [= ->] Hfresh.
  unfold UseCalendarEvents.deleteEvent.
  destruct (deleteTask api (CalendarEvent.id new)) as [m | []]; [discriminate|].
  simpl. intros _.
  rewrite filter_app, filter_cons_False, filter_nil, app_nil_r by auto.
  induction (UseCalendarEvents.events st) as [|x l IH]; [reflexivity|].
  rewrite filter_cons_True by (apply Hfresh; left).
  f_equal. apply IH. intros y Hy. apply Hfresh. by right.
Qed.

(** X21: [updateEvent] and [markTaskCompleted] never change the number of
    events nor the events with another id; on success every event with the
    given id is replaced by the event built from the answer of the
    backend. *)
Theorem update_keeps_the_other_events
    (eventId : string) (updates : PartialCalendarEvent.t)
    (st : UseCalendarEvents.State) (i : nat) (e : CalendarEvent.t) :
  UseCalendarEvents.events st !! i = Some e ->
  (UseCalendarEvents.events
     (UseCalendarEvents.updateEvent api thrown eventId updates st).2 !! i
   = (if String.eqb (CalendarEvent.id e) eventId
      then Some (default e (UseCalendarEvents.updateEvent api thrown eventId
                              updates st).1)
      else Some e))
  /\ length (UseCalendarEvents.events
               (UseCalendarEvents.updateEvent api thrown eventId updates st).2)
     = length (UseCalendarEvents.events st)
  /\ (CalendarEvent.id e <> eventId ->
      UseCalendarEvents.events
        (UseCalendarEvents.markTaskCompleted api eventId st).2 !! i = Some e)
  /\ length (UseCalendarEvents.events
               (UseCalendarEvents.markTaskCompleted api eventId st).2)
     = length (UseCalendarEvents.events st).
Proof.
  intros Hi.
  assert (Hsame : (if String.eqb (CalendarEvent.id e) eventId
                   then Some e else Some e) = Some e)
    by (by destruct (String.eqb (CalendarEvent.id e) eventId)).
  split; [|split; [|split]].
  - unfold UseCalendarEvents.updateEvent.
    destruct (CalendarApi.transformCalendarEventToBackendTask updates)
      as [taskData|]; [|simpl; by rewrite Hi, Hsame].
    destruct (updateTask api eventId taskData) as [m | task];
      [simpl; by rewrite Hi, Hsame|].
    destruct (CalendarApi.transformBackendTaskToCalendarEvent task) as [u|];
      [|simpl; by rewrite Hi, Hsame].
    simpl. unfold UseCalendarEvents.replace_by_id.
    rewrite list_lookup_fmap, Hi. simpl.
    by destruct (String.eqb (CalendarEvent.id e) eventId).
  - unfold UseCalendarEvents.updateEvent.
    destruct (CalendarApi.transformCalendarEventToBackendTask updates)
      as [taskData|]; [|reflexivity].
    destruct (updateTask api eventId taskData) as [m | task]; [reflexivity|].
    destruct (CalendarApi.transformBackendTaskToCalendarEvent task) as [u|];
      [|reflexivity].
    simpl. unfold UseCalendarEvents.replace_by_id. by rewrite length_fmap.
  - intros Hne. unfold UseCalendarEvents.markTaskCompleted.
    destruct (toggleTaskStatus api eventId) as [m | task]; [exact Hi|].
    destruct (CalendarApi.transformBackendTaskToCalendarEvent task) as [u|];
      [|exact Hi].
    simpl. unfold UseCalendarEvents.replace_by_id.
    rewrite list_lookup_fmap, Hi. simpl.
    by destruct (String.eqb_spec (CalendarEvent.id e) eventId).
  - unfold UseCalendarEvents.markTaskCompleted.
    destruct (toggleTaskStatus api eventId) as [m | task]; [reflexivity|].
    destruct (CalendarApi.transformBackendTaskToCalendarEvent task) as [u|];
      [|reflexivity].
    simpl. unfold UseCalendarEvents.replace_by_id. by rewrite length_fmap.
Qed.

End HookProperties.

(** * Properties of the task dialogs *)

Section DialogProperties.

Lemma has_char_app (c : ascii) (a b : string) :
  JSString.has_char c (a ++ b) = JSString.has_char c a || JSString.has_char c b.
Proof.
  induction a as [|x a IH]; [reflexivity|].
  rewrite string_app_cons. simpl. by rewrite IH, orb_assoc.
Qed.

(** [split] cuts at the first separator. *)
Lemma split_go_sep (sep : ascii) (x s cur : string) :
  JSString.has_char sep x = false ->
  JS.split_go sep (x ++ String sep s) cur = (cur ++ x) :: JS.split_go sep s "".
Proof.
  revert cur. induction x as [|c x IH]; intros cur Hno.
  - change ("" ++ String sep s) with (String sep s). simpl.
    by rewrite Ascii.eqb_refl, string_app_nil_r.
  - simpl in Hno. apply orb_false_iff in Hno as [Hc Hx].
    rewrite string_app_cons. simpl. rewrite Hc, IH by assumption.
    by rewrite string_app_snoc.
Qed.

(** The pieces of a split do not hold the separator. *)
Lemma split_go_pieces (sep : ascii) (s cur : string) :
  JSString.has_char sep cur = false ->
  Forall (fun x => JSString.has_char sep x = false) (JS.split_go sep s cur).
Proof.
  revert cur. induction s as [|c s IH]; intros cur Hcur; simpl.
  - by constructor.
  - destruct (Ascii.eqb c sep) eqn:Hc.
    + constructor; [exact Hcur | by apply IH].
    + apply IH. rewrite has_char_app, Hcur. simpl. by rewrite Hc.
Qed.

(** [join] followed by [split]: the first element comes back as it is, the
    others with the blank of the separator in front. *)
Lemma split_join (l : list string) (x pre : string) :
  JSString.has_char "," pre = false ->
  Forall (fun y => JSString.has_char "," y = false) (x :: l) ->
  JS.split_go "," (pre ++ JSString.join ", " (x :: l)) ""
  = (pre ++ x) :: (String " " <$> l).
Proof.
  revert x pre. induction l as [|y l IH]; intros x pre Hpre Hall.
  - apply Forall_cons in Hall as [Hx _]. simpl.
    rewrite split_go_no_sep by (by rewrite has_char_app, Hpre, Hx).
    reflexivity.
  - apply Forall_cons in Hall as [Hx Hall].
    change (JSString.join ", " (x :: y :: l))
      with (x ++ String "," (String " " (JSString.join ", " (y :: l)))).
    rewrite <- string_app_assoc.
    rewrite split_go_sep by (by rewrite has_char_app, Hpre, Hx).
    change (String " " (JSString.join ", " (y :: l)))
      with (" " ++ JSString.join ", " (y :: l)).
    rewrite IH by (done || exact Hall).
    reflexivity.
Qed.

(** Facts on [trim]. *)
Lemma trimEnd_head (c : ascii) (r : string) :
  JS.is_space c = false ->
  JSString.trimEnd (String c r) = String c (JSString.trimEnd r).
Proof.
  intros Hc. simpl. destruct (JSString.trimEnd r); [by rewrite Hc | reflexivity].
Qed.

Lemma trimEnd_idempotent (s : string) :
  JSString.trimEnd (JSString.trimEnd s) = JSString.trimEnd s.
Proof.
  induction s as [|c s IH]; [reflexivity|].
  simpl. destruct (JSString.trimEnd s) as [|c' r'] eqn:Hs.
  - destruct (JS.is_space c) eqn:Hc; [reflexivity|]. simpl. by rewrite Hc.
  - change (JSString.trimEnd (String c (String c' r')))
      with (match JSString.trimEnd (String c' r') with
            | EmptyString =>
                if JS.is_space c then EmptyString else String c EmptyString
            | String c'' r'' => String c (String c'' r'')
            end).
    by rewrite IH.
Qed.

Lemma skip_spaces_head (s : string) :
  match JS.skip_spaces s with
  | String c _ => JS.is_space c = false
  | EmptyString => True
  end.
Proof.
  induction s as [|c s IH]; [exact I|].
  simpl. destruct (JS.is_space c) eqn:Hc; [exact IH | exact Hc].
Qed.

Lemma trim_idempotent (s : string) :
  JSString.trim (JSString.trim s) = JSString.trim s.
Proof.
  unfold JSString.trim. pose proof (skip_spaces_head s) as Hhead.
  destruct (JS.skip_spaces s) as [|c r]; [reflexivity|].
  rewrite (trimEnd_head c r Hhead). simpl. rewrite Hhead.
  by rewrite (trimEnd_head c _ Hhead), trimEnd_idempotent.
Qed.

Lemma has_char_trim (c : ascii) (s : string) :
  JSString.has_char c s = false -> JSString.has_char c (JSString.trim s) = false.
Proof.
  unfold JSString.trim. intros Hs.
  assert (Hskip : JSString.has_char c (JS.skip_spaces s) = false).
  { induction s as [|x s IH]; [reflexivity|].
    simpl in *. apply orb_false_iff in Hs as [Hx Hs].
    destruct (JS.is_space x); [by apply IH|]. simpl. by rewrite Hx, Hs. }
  clear Hs. induction (JS.skip_spaces s) as [|x t IH]; [reflexivity|].
  simpl in *. apply orb_false_iff in Hskip as [Hx Ht].
  specialize (IH Ht).
  destruct (JSString.trimEnd t) as [|c' r'].
  - destruct (JS.is_space x); [reflexivity|]. simpl. by rewrite Hx.
  - simpl in *. by rewrite Hx, IH.
Qed.

(** Reading back a joined list of clean entries. *)
Lemma parse_list_join (tags : list string) :
  Forall (fun x => x <> "" /\ JSString.trim x = x
                   /\ JSString.has_char "," x = false) tags ->
  TaskDialog.parse_list (JSString.join ", " tags) = tags.
Proof.
  intros Hall. destruct tags as [|x l]; [reflexivity|].
  unfold TaskDialog.parse_list, JS.split.
  change (JSString.join ", " (x :: l))
    with ("" ++ JSString.join ", " (x :: l)).
  rewrite split_join;
    [| reflexivity | eapply Forall_impl; [exact Hall | by intros y (_ & _ & Hy)]].
  change ("" ++ x) with x.
  apply Forall_cons in Hall as [(Hne & Htrim & _) Hall].
  rewrite fmap_cons, Htrim, filter_cons_True
    by (unfold JSString.nonempty; by destruct (String.eqb_spec x "")).
  f_equal. induction Hall as [|y l' (Hy & Hty & _) _ IH]; [reflexivity|].
  rewrite !fmap_cons.
  change (JSString.trim (String " " y)) with (JSString.trim y).
  rewrite Hty, filter_cons_True
    by (unfold JSString.nonempty; by destruct (String.eqb_spec y "")).
  by rewrite IH.
Qed.

(** The text loaded into the field is the joined list, and it is empty
    only for the empty list. *)
Lemma field_of_tags_join (tags : list string) :
  Forall (fun x => x <> "") tags ->
  TaskDialog.field_of_tags (Some tags) = JSString.join ", " tags
  /\ JSString.nonempty (JSString.join ", " tags)
     = (if tags is [] then false else true).
Proof.
  intros Hall. destruct tags as [|x l]; [split; reflexivity|].
  apply Forall_cons in Hall as [Hne _].
  assert (Hjoin : JSString.nonempty (JSString.join ", " (x :: l)) = true).
  { destruct x as [|c x]; [done|]. by destruct l. }
  split; [|exact Hjoin].
  unfold TaskDialog.field_of_tags. simpl.
  unfold JSString.nonempty in Hjoin. simpl in Hjoin.
  by destruct (String.eqb _ "").
Qed.

Lemma tags_of_field_join (tags : list string) :
  Forall (fun x => x <> "" /\ JSString.trim x = x
                   /\ JSString.has_char "," x = false) tags ->
  TaskDialog.tags_of_field (TaskDialog.field_of_tags (Some tags)) = tags.
Proof.
  intros Hall.
  destruct (field_of_tags_join tags) as [Hfield Hne];
    [eapply Forall_impl; [exact Hall | by intros y (Hy & _)]|].
  unfold TaskDialog.tags_of_field. rewrite Hfield, Hne.
  destruct tags; [reflexivity | by apply parse_list_join].
Qed.

(** X22: the tags of an event survive being loaded into the text field of
    the task dialog and read back on save: when every tag is non-empty,
    has no white space at either end and holds no comma, splitting the
    joined text gives the same list. *)
Theorem tags_field_round_trip (tags : list string) :
  Forall (fun x => x <> "" /\ JSString.trim x = x
                   /\ JSString.has_char "," x = false) tags ->
  TaskDialog.tags_of_field (TaskDialog.field_of_tags (Some tags)) = tags
  /\ TaskDialog.tags_of_field_opt (TaskDialog.field_of_tags (Some tags))
     = (if tags is [] then None else Some tags).
Proof.
  intros Hall. split; [by apply tags_of_field_join|].
  destruct (field_of_tags_join tags) as [Hfield Hne];
    [eapply Forall_impl; [exact Hall | by intros y (Hy & _)]|].
  unfold TaskDialog.tags_of_field_opt. rewrite Hfield, Hne.
  destruct tags; [reflexivity | by rewrite parse_list_join].
Qed.

(** X23: whatever text is in the field, the list read from it holds only
    entries that are non-empty, have no white space at either end and hold
    no comma; loading that list into the field and reading it again gives
    the same list. *)
Theorem parsed_tags_are_clean (s : string) :
  Forall (fun x => x <> "" /\ JSString.trim x = x
                   /\ JSString.has_char "," x = false)
         (TaskDialog.parse_list s)
  /\ TaskDialog.tags_of_field
       (TaskDialog.field_of_tags (Some (TaskDialog.parse_list s)))
     = TaskDialog.parse_list s.
Proof.
  assert (Hclean : Forall (fun x => x <> "" /\ JSString.trim x = x
                                    /\ JSString.has_char "," x = false)
                          (TaskDialog.parse_list s)).
  { unfold TaskDialog.parse_list, JS.split.
    apply Forall_forall. intros x Hx.
    apply list_elem_of_filter in Hx as [Hne Hx].
    apply list_elem_of_fmap in Hx as (y & -> & Hy).
    split; [|split].
    - unfold JSString.nonempty in Hne. intros Heq. by rewrite Heq in Hne.
    - apply trim_idempotent.
    - apply has_char_trim.
      pose proof (split_go_pieces "," s "" eq_refl) as Hpieces.
      by apply (proj1 (Forall_forall _ _) Hpieces y). }
  split; [exact Hclean | by apply tags_of_field_join].
Qed.

(** X24: [addTag] keeps the list of tags free of duplicates and of empty
    tags, and never drops a tag; it changes nothing when the trimmed input
    is empty or already in the list, and otherwise appends the trimmed
    input and clears the input field. *)
Theorem addTag_keeps_tags_distinct
    (currentTag : string) (tags : option (list string)) :
  NoDup (default [] tags) ->
  "" ∉ default [] tags ->
  NoDup (default [] (EventDialog.addTag currentTag tags).1)
  /\ ("" ∉ default [] (EventDialog.addTag currentTag tags).1)
  /\ (if bool_decide (JSString.trim currentTag = ""
                      \/ JSString.trim currentTag ∈ default [] tags)
      then EventDialog.addTag currentTag tags = (tags, currentTag)
      else EventDialog.addTag currentTag tags
           = (Some (default [] tags ++ [JSString.trim currentTag])%list, "")).
Proof.
  intros Hnodup Hempty. unfold EventDialog.addTag, JSString.nonempty,
    JSString.includes.
  destruct (String.eqb_spec (JSString.trim currentTag) "") as [Heq | Hne]; simpl.
  - rewrite bool_decide_eq_true_2 by auto. auto.
  - destruct tags as [l|]; simpl in *.
    + case_bool_decide as Hin; simpl.
      * rewrite bool_decide_eq_true_2 by auto. auto.
      * rewrite bool_decide_eq_false_2 by tauto. simpl.
        split; [|split; [|reflexivity]].
        -- apply NoDup_app. split; [exact Hnodup|].
           split; [|apply NoDup_singleton].
           intros x Hx Hx'. apply list_elem_of_singleton in Hx'. by subst.
        -- rewrite elem_of_app, list_elem_of_singleton. intros [? | ?]; auto.
    + rewrite bool_decide_eq_false_2
        by (rewrite elem_of_nil; tauto).
      simpl. split; [apply NoDup_singleton|].
      split; [|reflexivity].
      rewrite list_elem_of_singleton. auto.
Qed.

(** X25: [removeTag] leaves no occurrence of the tag, and it undoes an
    [addTag] that did add the tag: the list is as before. *)
Theorem removeTag_undoes_addTag
    (currentTag : string) (tags : option (list string)) :
  JSString.trim currentTag <> "" ->
  JSString.trim currentTag ∉ default [] tags ->
  EventDialog.removeTag (JSString.trim currentTag)
    (EventDialog.addTag currentTag tags).1
  = default [] tags
  /\ forall t l, t ∉ EventDialog.removeTag t l.
Proof.
  intros Hne Hfresh. split.
  - unfold EventDialog.addTag, JSString.nonempty, JSString.includes,
      EventDialog.removeTag.
    destruct (String.eqb_spec (JSString.trim currentTag) "") as [|_]; [done|].
    assert (Hinc : default false
                     ((fun l => bool_decide (JSString.trim currentTag ∈ l))
                        <$> tags) = false).
    { destruct tags as [l|]; [|reflexivity]. simpl in *.
      by apply bool_decide_eq_false_2. }
    rewrite Hinc. simpl.
    rewrite filter_app, filter_cons_False, filter_nil, app_nil_r by auto.
    induction (default [] tags) as [|x l IH]; [reflexivity|].
    rewrite not_elem_of_cons in Hfresh. destruct Hfresh as [Hx Hl].
    rewrite filter_cons_True by congruence. f_equal. by apply IH.
  - intros t l. unfold EventDialog.removeTag.
    destruct l as [l|]; simpl; [|apply not_elem_of_nil].
    rewrite list_elem_of_filter. tauto.
Qed.

End DialogProperties.

(** * Properties of the helpers of [TaskAPI.js] *)

Section TaskUtilsProperties.
Context `{Platform}.



Lemma priority_tables_lookup (n : Z) :
  (TaskAPI.priorityColors !! n
   = if decide (n = 1) then Some "#ef4444"
     else if decide (n = 2) then Some "#f97316"
     else if decide (n = 3) then Some "#eab308"
     else if decide (n = 4) then Some "#3b82f6"
     else if decide (n = 5) then Some "#6b7280"
     else None)
  /\ (TaskUtils.priorityLabels !! n
      = if decide (n = 1) then Some "Critical"
        else if decide (n = 2) then Some "High"
        else if decide (n = 3) then Some "Medium"
        else if decide (n = 4) then Some "Low"
        else if decide (n = 5) then Some "Lowest"
        else None).
Proof.
  unfold TaskAPI.priorityColors, TaskUtils.priorityLabels.
  repeat (case_decide; [subst; split; reflexivity|]).
  rewrite !lookup_insert_ne by congruence.
  by rewrite !lookup_singleton_ne by congruence.
Qed.

(** X27: the colour and the label that [taskUtils] gives a priority are
    those of the entry of [PRIORITY_OPTIONS] with that value, and a
    priority without entry, a missing one included, is shown as the entry
    of value 3, "Medium". *)
Theorem priority_tables_agree (p : option Z) :
  (forall v label color,
     (v, label, color) ∈ EventDialog.PRIORITY_OPTIONS ->
     TaskUtils.getPriorityLabel (Some v) = label
     /\ TaskAPI.getPriorityColor (Some v) = color)
  /\ ((forall v label color,
         (v, label, color) ∈ EventDialog.PRIORITY_OPTIONS -> p <> Some v) ->
      TaskUtils.getPriorityLabel p = "Medium"
      /\ TaskAPI.getPriorityColor p = "#eab308").
Proof.
  split.
  - intros v label color Hin. unfold EventDialog.PRIORITY_OPTIONS in Hin.
    rewrite !elem_of_cons, elem_of_nil in Hin.
    destruct Hin as [[= -> -> ->] | [[= -> -> ->] | [[= -> -> ->]
                    | [[= -> -> ->] | [[= -> -> ->] | []]]]]];
      split; reflexivity.
  - intros Hout. destruct p as [n|]; [|split; reflexivity].
    unfold TaskUtils.getPriorityLabel, TaskAPI.getPriorityColor. simpl.
    destruct (priority_tables_lookup n) as [-> ->].
    assert (Hn : forall v label color,
              (v, label, color) ∈ EventDialog.PRIORITY_OPTIONS -> n <> v).
    { intros v label color Hin ->. by apply (Hout v label color). }
    destruct (decide (n = 1)) as [-> | H1];
      [exfalso; eapply Hn; [|reflexivity]; repeat constructor|].
    destruct (decide (n = 2)) as [-> | H2];
      [exfalso; eapply Hn; [|reflexivity]; repeat constructor|].
    destruct (decide (n = 3)) as [-> | H3]; [split; reflexivity|].
    destruct (decide (n = 4)) as [-> | H4];
      [exfalso; eapply Hn; [|reflexivity]; repeat constructor|].
    destruct (decide (n = 5)) as [-> | H5];
      [exfalso; eapply Hn; [|reflexivity]; repeat constructor|].
    split; reflexivity.
Qed.

(** X28: a task is overdue for [taskUtils.isTaskOverdue] exactly when the
    event that [transformTaskToEvent] makes of it is overdue for
    [CalendarUtils.getOverdueTasks]. *)
Theorem overdue_agrees_across_adapters (now today : Z) (task : Task.t) :
  CalendarUtils.overdue today (CalendarContainer.transformTaskToEvent now task)
  = TaskUtils.isTaskOverdue today task.
Proof.
  unfold CalendarUtils.overdue, TaskUtils.isTaskOverdue. cbn.
  destruct (JS.present (Task.deadline task)) as [d|]; [|reflexivity]. cbn.
  destruct (Task.status task) as [s|]; cbn.
  - destruct (String.eqb_spec s "pending") as [-> | Hp].
    + rewrite !bool_decide_eq_false_2 by discriminate. cbn. apply andb_true_r.
    + destruct (decide (s = "completed")) as [-> | Hc].
      * rewrite !bool_decide_eq_true_2 by reflexivity. apply andb_false_r.
      * rewrite !bool_decide_eq_false_2 by congruence. apply andb_true_r.
  - rewrite !bool_decide_eq_false_2 by discriminate. apply andb_true_r.
Qed.


End TaskUtilsProperties.

(** * The further properties at concrete inputs *)

Lemma login_token_expires_after_seven_days_witness :
  search_token Examples.url_world = Some "url-token"
  /\ "url-token" <> ""
  /\ Browser.accepts Examples.accepting
       (GoogleAuth.verify_token_request "url-token") = true
  /\ (GoogleAuth.getValidStoredToken
        (later (2000 + 604799999)
           (GoogleAuth.initializeAuth (H := example_platform)
              Examples.accepting Examples.url_world).2)).1
     = Some "url-token"
  /\ (GoogleAuth.getValidStoredToken
        (later (2000 + 604800000)
           (GoogleAuth.initializeAuth (H := example_platform)
              Examples.accepting Examples.url_world).2)).1
     = None.
Proof.
  assert (Hne : "url-token" <> "") by discriminate.
  assert (Hacc : Browser.accepts Examples.accepting
                   (GoogleAuth.verify_token_request "url-token") = true)
    by (vm_compute; reflexivity).
  split; [reflexivity|]. split; [exact Hne|]. split; [exact Hacc|].
  split.
  - exact (login_token_expires_after_seven_days (H := example_platform)
             Examples.accepting Examples.url_world "url-token"
             (2000 + 604799999) eq_refl Hne Hacc).
  - exact (login_token_expires_after_seven_days (H := example_platform)
             Examples.accepting Examples.url_world "url-token"
             (2000 + 604800000) eq_refl Hne Hacc).
Defined.

Lemma fresh_stored_token_is_verified_and_kept_witness :
  JS.present (search_token (Examples.stored_world "1000" 2000)) = None
  /\ JS.parseInt "1000" = Some 1000
  /\ now (Examples.stored_world "1000" 2000) - 1000 < 604800000
  /\ localStorage
       (GoogleAuth.initializeAuth (H := example_platform) Examples.offline
          (Examples.stored_world "1000" 2000)).2
     = localStorage (Examples.stored_world "1000" 2000).
Proof.
  assert (Hage : now (Examples.stored_world "1000" 2000) - 1000 < 604800000)
    by (simpl; lia).
  split; [reflexivity|]. split; [reflexivity|]. split; [exact Hage|].
  destruct (fresh_stored_token_is_verified_and_kept (H := example_platform)
              Examples.offline (Examples.stored_world "1000" 2000)
              "stored-token" "1000" 1000) as [Hkept _];
    [reflexivity | vm_compute; reflexivity | discriminate
    | vm_compute; reflexivity | reflexivity | exact Hage |].
  exact Hkept.
Defined.

Lemma incomplete_token_pair_is_purged_witness :
  JS.present
    (localStorage MoreExamples.token_only_world !! "deeptalk_token_timestamp")
  = None
  /\ (GoogleAuth.getValidStoredToken MoreExamples.token_only_world).1 = None
  /\ localStorage (GoogleAuth.getValidStoredToken MoreExamples.token_only_world).2
       !! "deeptalk_token" = None.
Proof.
  assert (Hts : JS.present
                  (localStorage MoreExamples.token_only_world
                     !! "deeptalk_token_timestamp") = None)
    by (vm_compute; reflexivity).
  split; [exact Hts|].
  destruct (incomplete_token_pair_is_purged MoreExamples.token_only_world
              (or_intror Hts)) as [Hnone Hkeys].
  split; [exact Hnone|]. apply Hkeys. repeat constructor.
Defined.

Lemma unreadable_timestamp_splits_the_resolvers_witness :
  JS.parseInt "yesterday" = None
  /\ localStorage
       (GoogleAuth.initializeAuth (H := example_platform) Examples.offline
          (Examples.stored_world "yesterday" 2000)).2
     = localStorage (Examples.stored_world "yesterday" 2000)
  /\ localStorage
       (GoogleAuthLegacy.checkExistingAuth (H := example_platform)
          Examples.offline (Examples.stored_world "yesterday" 2000)).2
       !! "deeptalk_token" = None.
Proof.
  split; [reflexivity|].
  destruct (unreadable_timestamp_splits_the_resolvers (H := example_platform)
              Examples.offline (Examples.stored_world "yesterday" 2000)
              "stored-token" "yesterday")
    as [[Hkept _] [Hkeys _]];
    [reflexivity | vm_compute; reflexivity | discriminate
    | vm_compute; reflexivity | discriminate | reflexivity |].
  split; [exact Hkept|]. apply Hkeys. repeat constructor.
Defined.

Lemma legacy_token_is_migrated_before_verification_witness :
  JS.present (search_token Examples.legacy_world) = None
  /\ JS.parseInt "1000" = Some 1000
  /\ now Examples.legacy_world - 1000 < 604800000
  /\ exists rest,
       log (GoogleAuthLegacy.checkExistingAuth (H := example_platform)
              Examples.accepting Examples.legacy_world).2
       = (log Examples.legacy_world
          ++ [SetLoading true; SetError None; SetToken (Some "stored-token")]
          ++ migration_log
               (JS.truthy (localStorage Examples.legacy_world !! "gmail_token"))
               "stored-token" "1000"
          ++ [Fetch (GoogleAuthLegacy.verify_token_request "stored-token")]
          ++ rest)%list.
Proof.
  assert (Hage : now Examples.legacy_world - 1000 < 604800000) by (simpl; lia).
  split; [reflexivity|]. split; [reflexivity|]. split; [exact Hage|].
  destruct (legacy_token_is_migrated_before_verification
              (H := example_platform) Examples.accepting Examples.legacy_world
              "stored-token" "1000" 1000) as (rest & Hlog & _);
    [reflexivity | vm_compute; reflexivity | vm_compute; reflexivity
    | reflexivity | exact Hage |].
  exists rest. exact Hlog.
Defined.

Lemma legacy_resolver_keeps_token_without_timestamp_witness :
  JS.present (search_token MoreExamples.token_only_world) = None
  /\ localStorage
       (GoogleAuthLegacy.checkExistingAuth (H := example_platform)
          Examples.offline MoreExamples.token_only_world).2
     = localStorage MoreExamples.token_only_world.
Proof.
  split; [reflexivity|].
  destruct (legacy_resolver_keeps_token_without_timestamp
              (H := example_platform) Examples.offline
              MoreExamples.token_only_world) as [Hkept _];
    [reflexivity | vm_compute; reflexivity |].
  exact Hkept.
Defined.

Lemma url_token_is_dropped_from_the_address_witness :
  search_token Examples.url_world = Some "url-token"
  /\ "url-token" <> ""
  /\ search_token
       (GoogleAuth.initializeAuth (H := example_platform) Examples.offline
          Examples.url_world).2 = None
  /\ search_token
       (GoogleAuthLegacy.checkExistingAuth (H := example_platform)
          Examples.offline Examples.url_world).2
     = (if Browser.accepts Examples.offline
             (GoogleAuthLegacy.verify_token_request "url-token")
        then None else Some "url-token").
Proof.
  assert (Hne : "url-token" <> "") by discriminate.
  split; [reflexivity|]. split; [exact Hne|].
  exact (url_token_is_dropped_from_the_address (H := example_platform)
           Examples.offline Examples.url_world "url-token" eq_refl Hne).
Defined.

Lemma reload_after_sign_out_checks_session_only_witness :
  JS.present (search_token Examples.legacy_world) = None
  /\ exists rest,
       log (GoogleAuth.initializeAuth (H := example_platform) Examples.offline
              (GoogleAuth.handleSignOut Examples.offline
                 Examples.legacy_world).2).2
       = (log (GoogleAuth.handleSignOut Examples.offline
                 Examples.legacy_world).2 ++ rest)%list
       /\ Browser.fetches rest = [GoogleAuth.verify_session_request].
Proof.
  split; [reflexivity|].
  exact (proj1 (reload_after_sign_out_checks_session_only
                  (H := example_platform) Examples.offline
                  Examples.legacy_world eq_refl)).
Defined.

Lemma legacy_token_survives_sign_out_witness :
  localStorage Examples.legacy_world !! "gmail_token" = Some "legacy-token"
  /\ JS.parseInt "1000" = Some 1000
  /\ now Examples.legacy_world - 1000 < 604800000
  /\ exists rest,
       log (GoogleAuthLegacy.checkExistingAuth (H := example_platform)
              Examples.accepting
              (Index.handleSignOut Examples.legacy_world).2).2
       = (log (Index.handleSignOut Examples.legacy_world).2
          ++ [SetLoading true; SetError None; SetToken (Some "legacy-token");
              SetItem "deeptalk_token" "legacy-token";
              SetItem "deeptalk_token_timestamp" "1000";
              RemoveItem "gmail_token";
              RemoveItem "gmail_token_timestamp";
              Fetch (GoogleAuthLegacy.verify_token_request "legacy-token")]
          ++ rest)%list.
Proof.
  assert (Htok : localStorage Examples.legacy_world !! "gmail_token"
                 = Some "legacy-token") by (vm_compute; reflexivity).
  assert (Hage : now Examples.legacy_world - 1000 < 604800000) by (simpl; lia).
  split; [exact Htok|]. split; [reflexivity|]. split; [exact Hage|].
  destruct (legacy_token_survives_sign_out (H := example_platform)
              Examples.accepting Examples.legacy_world
              (Index.handleSignOut Examples.legacy_world).2
              "legacy-token" "1000" 1000) as (rest & Hlog & _);
    [reflexivity | exact Htok | discriminate | vm_compute; reflexivity
    | reflexivity | exact Hage | right; reflexivity |].
  exists rest. exact Hlog.
Defined.

Lemma edit_round_trip_fields_witness :
  CalendarApi.transformBackendTaskToCalendarEvent (H := example_platform)
    Examples.pending_task = Some Examples.shown_pending_task
  /\ CalendarApi.transformCalendarEventToBackendTask (H := example_platform)
       (PartialCalendarEvent.of_event Examples.shown_pending_task)
     = Some MoreExamples.pending_payload
  /\ CreateTaskRequest.name MoreExamples.pending_payload
     = BackendTask.name Examples.pending_task
  /\ CreateTaskRequest.priority MoreExamples.pending_payload = Some 3.
Proof.
  split; [reflexivity|]. split; [reflexivity|].
  destruct (edit_round_trip_fields (H := example_platform)
              Examples.pending_task Examples.shown_pending_task
              MoreExamples.pending_payload eq_refl eq_refl)
    as (Hname & _ & _ & _ & _ & _ & _ & Hprio).
  split; [exact Hname | exact Hprio].
Defined.

Lemma edit_round_trip_sets_a_deadline_witness :
  BackendTask.deadline Examples.pending_task = None
  /\ CalendarApi.transformBackendTaskToCalendarEvent (H := example_platform)
       Examples.pending_task = Some Examples.shown_pending_task
  /\ CalendarApi.transformCalendarEventToBackendTask (H := example_platform)
       (PartialCalendarEvent.of_event Examples.shown_pending_task)
     = Some MoreExamples.pending_payload
  /\ is_Some (CreateTaskRequest.deadline MoreExamples.pending_payload).
Proof.
  split; [reflexivity|]. split; [reflexivity|]. split; [reflexivity|].
  exact (proj1 (edit_round_trip_sets_a_deadline (H := example_platform)
                  Examples.pending_task Examples.shown_pending_task
                  MoreExamples.pending_payload eq_refl eq_refl)).
Defined.

Lemma event_time_without_colon_is_never_sent_witness :
  PartialCalendarEvent.date MoreExamples.noon_event = Some (ValidDate 0)
  /\ JS.present (PartialCalendarEvent.time MoreExamples.noon_event) = Some "noon"
  /\ JSString.has_char ":" "noon" = false
  /\ CalendarApi.transformCalendarEventToBackendTask (H := example_platform)
       MoreExamples.noon_event = None
  /\ UseCalendarEvents.calls
       (UseCalendarEvents.addEvent (H := example_platform) MoreExamples.api
          "Invalid time value" MoreExamples.noon_event MoreExamples.loaded).2
     = UseCalendarEvents.calls MoreExamples.loaded.
Proof.
  split; [reflexivity|]. split; [reflexivity|]. split; [reflexivity|].
  destruct (event_time_without_colon_is_never_sent (H := example_platform)
              MoreExamples.api "Invalid time value" MoreExamples.noon_event
              (ValidDate 0) "noon" "1" MoreExamples.loaded
              eq_refl eq_refl eq_refl) as (Hthrow & Hadd & _).
  split; [exact Hthrow|]. by rewrite Hadd.
Defined.

Lemma fetchEvents_all_or_nothing_witness :
  getTasks MoreExamples.api None = Resolved [Examples.pending_task]
  /\ UseCalendarEvents.error
       (UseCalendarEvents.fetchEvents (H := example_platform) MoreExamples.api
          None MoreExamples.idle) = None
  /\ Forall2
       (fun task event =>
          CalendarApi.transformBackendTaskToCalendarEvent
            (H := example_platform) task = Some event)
       [Examples.pending_task]
       (UseCalendarEvents.events
          (UseCalendarEvents.fetchEvents (H := example_platform)
             MoreExamples.api None MoreExamples.idle)).
Proof.
  split; [reflexivity|].
  apply (fetchEvents_all_or_nothing (H := example_platform) MoreExamples.api
           None [Examples.pending_task] MoreExamples.idle eq_refl).
  intros task Hin. apply list_elem_of_singleton in Hin. by subst task.
Defined.

Lemma hook_events_come_from_the_backend_witness :
  Forall (UseCalendarEvents.from_backend (H := example_platform))
    (UseCalendarEvents.events MoreExamples.loaded)
  /\ Forall (UseCalendarEvents.from_backend (H := example_platform))
       (UseCalendarEvents.events
          (UseCalendarEvents.addEvent (H := example_platform) MoreExamples.api
             "Invalid time value" Examples.empty_event MoreExamples.loaded).2).
Proof.
  assert (Hinv : Forall (UseCalendarEvents.from_backend (H := example_platform))
                   (UseCalendarEvents.events MoreExamples.loaded)).
  { repeat constructor. by exists Examples.pending_task. }
  split; [exact Hinv|].
  destruct (hook_events_come_from_the_backend (H := example_platform)
              MoreExamples.api "Invalid time value" MoreExamples.loaded Hinv)
    as (_ & Hadd & _).
  apply Hadd.
Defined.

Lemma backend_events_are_tasks_witness :
  Forall (UseCalendarEvents.from_backend (H := example_platform))
    [Examples.shown_pending_task]
  /\ CalendarUtils.filterByType [Examples.shown_pending_task] "task"
     = [Examples.shown_pending_task].
Proof.
  assert (Hinv : Forall (UseCalendarEvents.from_backend (H := example_platform))
                   [Examples.shown_pending_task]).
  { repeat constructor. by exists Examples.pending_task. }
  split; [exact Hinv|].
  exact (proj1 (backend_events_are_tasks (H := example_platform)
                  [Examples.shown_pending_task] Hinv)).
Defined.

Lemma overdue_follows_the_backend_task_witness :
  CalendarApi.transformBackendTaskToCalendarEvent (H := example_platform)
    Examples.pending_task = Some Examples.shown_pending_task
  /\ CalendarUtils.overdue 5000 Examples.shown_pending_task = false.
Proof.
  split; [reflexivity|].
  exact (overdue_follows_the_backend_task (H := example_platform)
           Examples.pending_task Examples.shown_pending_task 5000 eq_refl).
Defined.

Lemma add_then_delete_restores_the_events_witness :
  (UseCalendarEvents.addEvent (H := example_platform) MoreExamples.api
     "Invalid time value" Examples.empty_event MoreExamples.idle).1
  = Some Examples.shown_pending_task
  /\ UseCalendarEvents.events
       (UseCalendarEvents.deleteEvent MoreExamples.api
          (CalendarEvent.id Examples.shown_pending_task)
          (UseCalendarEvents.addEvent (H := example_platform) MoreExamples.api
             "Invalid time value" Examples.empty_event MoreExamples.idle).2).2
     = UseCalendarEvents.events MoreExamples.idle.
Proof.
  split; [reflexivity|].
  apply (add_then_delete_restores_the_events (H := example_platform)
           MoreExamples.api "Invalid time value" Examples.empty_event
           Examples.shown_pending_task MoreExamples.idle eq_refl);
    [|reflexivity].
  intros e He. simpl in He. by apply elem_of_nil in He.
Defined.

Lemma update_keeps_the_other_events_witness :
  UseCalendarEvents.events MoreExamples.loaded !! 0%nat
  = Some Examples.shown_pending_task
  /\ length (UseCalendarEvents.events
               (UseCalendarEvents.updateEvent (H := example_platform)
                  MoreExamples.api "Invalid time value" "2"
                  Examples.empty_event MoreExamples.loaded).2)
     = length (UseCalendarEvents.events MoreExamples.loaded)
  /\ UseCalendarEvents.events
       (UseCalendarEvents.markTaskCompleted (H := example_platform)
          MoreExamples.api "2" MoreExamples.loaded).2 !! 0%nat
     = Some Examples.shown_pending_task.
Proof.
  split; [reflexivity|].
  destruct (update_keeps_the_other_events (H := example_platform)
              MoreExamples.api "Invalid time value" "2" Examples.empty_event
              MoreExamples.loaded 0 Examples.shown_pending_task eq_refl)
    as (_ & Hlen & Hother & _).
  split; [exact Hlen|]. apply Hother. discriminate.
Defined.

Lemma tags_field_round_trip_witness :
  Forall (fun x => x <> "" /\ JSString.trim x = x
                   /\ JSString.has_char "," x = false) ["home"; "deep work"]
  /\ TaskDialog.field_of_tags (Some ["home"; "deep work"]) = "home, deep work"
  /\ TaskDialog.tags_of_field "home, deep work" = ["home"; "deep work"].
Proof.
  assert (Hclean : Forall (fun x => x <> "" /\ JSString.trim x = x
                                    /\ JSString.has_char "," x = false)
                     ["home"; "deep work"]).
  { repeat constructor; discriminate. }
  split; [exact Hclean|]. split; [reflexivity|].
  exact (proj1 (tags_field_round_trip ["home"; "deep work"] Hclean)).
Defined.

Lemma addTag_keeps_tags_distinct_witness :
  NoDup ["home"]
  /\ ("" ∉ ["home"])
  /\ NoDup (default [] (EventDialog.addTag " home " (Some ["home"])).1)
  /\ NoDup (default [] (EventDialog.addTag " work " (Some ["home"])).1).
Proof.
  assert (Hnodup : NoDup (default [] (Some ["home"]))).
  { simpl. apply NoDup_singleton. }
  assert (Hempty : "" ∉ default [] (Some ["home"])).
  { simpl. rewrite list_elem_of_singleton. discriminate. }
  split; [exact Hnodup|]. split; [exact Hempty|].
  split.
  - exact (proj1 (addTag_keeps_tags_distinct " home " (Some ["home"])
                    Hnodup Hempty)).
  - exact (proj1 (addTag_keeps_tags_distinct " work " (Some ["home"])
                    Hnodup Hempty)).
Defined.

Lemma removeTag_undoes_addTag_witness :
  JSString.trim " work " <> ""
  /\ (JSString.trim " work " ∉ ["home"])
  /\ EventDialog.removeTag (JSString.trim " work ")
       (EventDialog.addTag " work " (Some ["home"])).1
     = ["home"].
Proof.
  assert (Hne : JSString.trim " work " <> "") by discriminate.
  assert (Hfresh : JSString.trim " work " ∉ default [] (Some ["home"])).
  { simpl. rewrite list_elem_of_singleton. discriminate. }
  split; [exact Hne|]. split; [exact Hfresh|].
  exact (proj1 (removeTag_undoes_addTag " work " (Some ["home"]) Hne Hfresh)).
Defined.


